(** * lms_enjoyers: the demo-assignment command and markdown rendering.

    The development embeds
      - [apps/learning/management/commands/create_demo_assignment.py]
        (the [Command.handle] and [Command._seed_review_item] methods) as
        functions over an explicit database state and an event trace;
      - the markdown rendering utility, which the repository only
        exercises through its tests, as a model written from the
        specification. *)

From Stdlib Require Import ZArith List String Ascii Bool Lia Sorted.
Import ListNotations.
Open Scope string_scope.
Open Scope list_scope.
Open Scope Z_scope.

(* ===================================================================== *)
(** * Python values *)
(* ===================================================================== *)

(** Text is a sequence of code points below 256.  [isspace] is Python's
    [str.isspace] on that range. *)
Definition isspace (c : ascii) : bool :=
  let n := nat_of_ascii c in
  (((9 <=? n) && (n <=? 13)) || ((28 <=? n) && (n <=? 32))
   || (n =? 133) || (n =? 160))%nat.

Fixpoint lstrip (s : string) : string :=
  match s with
  | EmptyString => EmptyString
  | String c r => if isspace c then lstrip r else s
  end.

Fixpoint rstrip (s : string) : string :=
  match s with
  | EmptyString => EmptyString
  | String c r =>
      match rstrip r with
      | EmptyString => if isspace c then EmptyString else String c EmptyString
      | r' => String c r'
      end
  end.

(** [str.strip()] *)
Definition strip (s : string) : string := rstrip (lstrip s).

(** Truth value of an optional string ([None] and [""] are falsy). *)
Definition truthy (s : option string) : bool :=
  match s with
  | None => false
  | Some EmptyString => false
  | Some _ => true
  end.

(** A [datetime.datetime] as [strptime] with the format
    ["%Y-%m-%d %H:%M"] builds it; [tzinfo = None] is a naive value. *)
Record datetime := {
  year : Z; month : Z; day : Z; hour : Z; minute : Z;
  tzinfo : option string
}.

(** [timezone.make_aware(dt, timezone.utc)] *)
Definition make_aware_utc (dt : datetime) : datetime :=
  {| year := year dt; month := month dt; day := day dt;
     hour := hour dt; minute := minute dt; tzinfo := Some "UTC" |}.

(** A [decimal.Decimal]: sign, coefficient and exponent, or a special
    value. *)
Inductive decimal :=
| Finite (negative : bool) (coefficient : N) (exponent : Z)
| Infinity (negative : bool)
| NaN.

(* ===================================================================== *)
(** * The models the command touches *)
(* ===================================================================== *)

Inductive AssigneeMode := MANUAL | AssigneeMode_other (code : string).
Inductive AssignmentStatus := ON_CHECKING | AssignmentStatus_other (code : string).
Inductive AssignmentSubmissionTypes := SOLUTION | SubmissionType_other (code : string).

Definition is_solution (t : AssignmentSubmissionTypes) : bool :=
  match t with SOLUTION => true | _ => false end.

Module Course.
Record t := {
  id : Z;
  meta_course_name : string;          (* meta_course.name *)
  main_branch_time_zone : option string (* main_branch.time_zone, when there is a branch *)
}.
End Course.

Module Assignment.
Record t := {
  id : Z;
  course : Z;
  title : string;
  text : string;
  deadline_at : datetime;
  maximum_score : Z;
  weight : decimal;
  submission_type : string;
  time_zone : string;
  assignee_mode : AssigneeMode
}.
End Assignment.

Module User.
Record t := { id : Z; username : string }.
End User.

Module CourseTeacher.
Record t := {
  id : Z;
  course : Z;
  teacher : Z;
  reviewer : bool;   (* roles.reviewer *)
  lecturer : bool    (* roles.lecturer *)
}.
End CourseTeacher.

Module StudentAssignment.
Record t := {
  id : Z;
  assignment : Z;
  student : Z;
  assignee : option Z;
  status : AssignmentStatus
}.
End StudentAssignment.

Module AssignmentComment.
Record t := {
  id : Z;
  student_assignment : Z;
  type : AssignmentSubmissionTypes;
  text : string;
  author : Z;
  is_published : bool
}.
End AssignmentComment.

Record DB := {
  courses : list Course.t;
  assignments : list Assignment.t;
  users : list User.t;
  course_teachers : list CourseTeacher.t;
  student_assignments : list StudentAssignment.t;
  comments : list AssignmentComment.t
}.

(* ===================================================================== *)
(** * Query sets *)
(* ===================================================================== *)

Module QuerySet.
Section Ordering.
Context {A : Type} (key : A -> Z).

Fixpoint insert_asc (x : A) (l : list A) : list A :=
  match l with
  | [] => [x]
  | y :: r => if key x <=? key y then x :: l else y :: insert_asc x r
  end.

Fixpoint insert_desc (x : A) (l : list A) : list A :=
  match l with
  | [] => [x]
  | y :: r => if key y <=? key x then x :: l else y :: insert_desc x r
  end.

(** [order_by("id")] and [order_by("-id")] *)
Definition order_by (l : list A) : list A := fold_right insert_asc [] l.
Definition order_by_desc (l : list A) : list A := fold_right insert_desc [] l.

(** [.first()] of a query set with no ordering: ordered by primary key. *)
Definition first (l : list A) : option A := hd_error (order_by l).

(** [.order_by("-id").first()] *)
Definition first_desc (l : list A) : option A := hd_error (order_by_desc l).

(** Rows in the order [order_by] leaves them. *)
Definition descending : list A -> Prop :=
  StronglySorted (fun a b => key b <= key a).
Definition ascending : list A -> Prop :=
  StronglySorted (fun a b => key a <= key b).

(** The primary key a new row receives. *)
Definition next_pk (l : list A) : Z := 1 + fold_right (fun x m => Z.max (key x) m) 0 l.

(** [save()]: the row with the primary key of [x] is replaced by [x]. *)
Definition save (x : A) (l : list A) : list A :=
  map (fun y => if key y =? key x then x else y) l.
End Ordering.
End QuerySet.

(* ===================================================================== *)
(** * The command's environment *)
(* ===================================================================== *)

(** The parsed command line ([options] of [handle]), as [add_arguments]
    declares it. *)
Record Options := {
  course_id : option Z;
  course_name : option string;
  title : string;
  deadline : string;
  submission_type : string;
  max_score : Z;
  weight : string;
  seed_review : bool;
  student_username : option string;
  teacher_username : option string
}.

(** What the command calls from outside its module: the two
    standard-library parsers, the assignment service, the statistics task,
    and whether the BitField flags can be set. *)
Class Externals := {
  (** [datetime.strptime(s, "%Y-%m-%d %H:%M")]; [None] is [ValueError] *)
  strptime : string -> option datetime;
  (** [Decimal(s)]; [inl e] is an exception with text [e] *)
  Decimal : string -> string + decimal;
  (** [AssignmentService.bulk_create_student_assignments(assignment)] *)
  bulk_create_student_assignments : Assignment.t -> DB -> DB;
  (** [update_student_assignment_stats(sa_id)] *)
  update_student_assignment_stats : Z -> DB -> DB;
  (** [false] when setting [ct.roles.*] or [ct.save()] raises *)
  bitfield_api : bool
}.

(** What the command writes to [stdout]. *)
Inductive Message :=
| WARNING (text : string)
| SUCCESS_assignment (id : Z) (title : string) (deadline : datetime) (created : bool)
| SUCCESS_review (sa_id : Z) (solution_id : Z).

(** What an observer of a run sees, in order. *)
Inductive Event :=
| Stdout (m : Message)
| Call_bulk_create (assignment_id : Z)
| Call_update_stats (sa_id : Z).

Record World := { db : DB; trace : list Event }.

Inductive Exception :=
| CommandError (msg : string)
| MultipleObjectsReturned.

(** Commands: a result or an exception, and the world they leave. *)
Definition Cmd (A : Type) : Type := World -> (Exception + A) * World.

Definition ret {A} (x : A) : Cmd A := fun w => (inr x, w).
Definition raise {A} (e : Exception) : Cmd A := fun w => (inl e, w).
Definition bind {A B} (m : Cmd A) (k : A -> Cmd B) : Cmd B :=
  fun w => match m w with
           | (inl e, w') => (inl e, w')
           | (inr x, w') => k x w'
           end.

Declare Scope cmd_scope.
Delimit Scope cmd_scope with cmd.
Notation "x <- m ;; k" := (bind m (fun x => k))
  (at level 61, m at next level, right associativity) : cmd_scope.
Notation "m ;;; k" := (bind m (fun _ => k))
  (at level 61, right associativity) : cmd_scope.

Definition get_db : Cmd DB := fun w => (inr (db w), w).
Definition modify_db (f : DB -> DB) : Cmd unit :=
  fun w => (inr tt, {| db := f (db w); trace := trace w |}).
Definition emit (e : Event) : Cmd unit :=
  fun w => (inr tt, {| db := db w; trace := trace w ++ [e] |}).
Definition stdout_write (m : Message) : Cmd unit := emit (Stdout m).

Definition set_assignments (l : list Assignment.t) (d : DB) : DB :=
  {| courses := courses d; assignments := l; users := users d;
     course_teachers := course_teachers d;
     student_assignments := student_assignments d; comments := comments d |}.
Definition set_course_teachers (l : list CourseTeacher.t) (d : DB) : DB :=
  {| courses := courses d; assignments := assignments d; users := users d;
     course_teachers := l;
     student_assignments := student_assignments d; comments := comments d |}.
Definition set_student_assignments (l : list StudentAssignment.t) (d : DB) : DB :=
  {| courses := courses d; assignments := assignments d; users := users d;
     course_teachers := course_teachers d;
     student_assignments := l; comments := comments d |}.
Definition set_comments (l : list AssignmentComment.t) (d : DB) : DB :=
  {| courses := courses d; assignments := assignments d; users := users d;
     course_teachers := course_teachers d;
     student_assignments := student_assignments d; comments := l |}.

(* ===================================================================== *)
(** * create_demo_assignment *)
(* ===================================================================== *)

Section Command.
Context {E : Externals}.
Local Open Scope cmd_scope.

(** A [for] loop over a query set that was evaluated before the loop. *)
Fixpoint for_each {A} (l : list A) (body : A -> Cmd unit) : Cmd unit :=
  match l with
  | [] => ret tt
  | x :: r => body x ;;; for_each r body
  end.

(** One call of the statistics task. *)
Definition recalc_stats (sa_id : Z) : Cmd unit :=
  emit (Call_update_stats sa_id) ;;;
  modify_db (update_student_assignment_stats sa_id).

(** [handle], lines 74-81: the course the options select. *)
Definition find_course (options : Options) (d : DB) : option Course.t :=
  match course_id options with
  | Some pk =>
      QuerySet.first Course.id
        (filter (fun c => Course.id c =? pk) (courses d))
  | None =>
      QuerySet.first_desc Course.id
        (filter (fun c => match course_name options with
                          | Some n => String.eqb (Course.meta_course_name c) n
                          | None => false
                          end) (courses d))
  end.

(** [int(options["max_score"]) if options["max_score"] else 10] *)
Definition effective_max_score (options : Options) : Z :=
  if max_score options =? 0 then 10 else max_score options.

(** [getattr(getattr(course, 'main_branch', None), 'time_zone', 'UTC')] *)
Definition tz_name_of (course : Course.t) : string :=
  match Course.main_branch_time_zone course with
  | Some tz => tz
  | None => "UTC"
  end.

Definition same_assignment_key (course_pk : Z) (title : string) (a : Assignment.t) : bool :=
  (Assignment.course a =? course_pk) && String.eqb (Assignment.title a) title.

(** [Assignment.objects.get_or_create(course=, title=, defaults=)] *)
Definition get_or_create_assignment (course_pk : Z) (title : string)
    (deadline_utc : datetime) (max_score : Z) (weight : decimal)
    (submission_type tz_name : string) : Cmd (Assignment.t * bool) :=
  d <- get_db ;;
  match filter (same_assignment_key course_pk title) (assignments d) with
  | [] =>
      let a := {| Assignment.id := QuerySet.next_pk Assignment.id (assignments d);
                  Assignment.course := course_pk;
                  Assignment.title := title;
                  Assignment.text := "Seeded assignment";
                  Assignment.deadline_at := deadline_utc;
                  Assignment.maximum_score := max_score;
                  Assignment.weight := weight;
                  Assignment.submission_type := submission_type;
                  Assignment.time_zone := tz_name;
                  Assignment.assignee_mode := MANUAL |} in
      modify_db (set_assignments (assignments d ++ [a])) ;;;
      ret (a, true)
  | [a] => ret (a, false)
  | _ :: _ :: _ => raise MultipleObjectsReturned
  end.

(** The six fields lines 118-123 assign. *)
Definition with_key_fields (deadline_utc : datetime) (max_score : Z)
    (weight : decimal) (submission_type tz_name : string)
    (a : Assignment.t) : Assignment.t :=
  {| Assignment.id := Assignment.id a;
     Assignment.course := Assignment.course a;
     Assignment.title := Assignment.title a;
     Assignment.text := Assignment.text a;
     Assignment.deadline_at := deadline_utc;
     Assignment.maximum_score := max_score;
     Assignment.weight := weight;
     Assignment.submission_type := submission_type;
     Assignment.time_zone := tz_name;
     Assignment.assignee_mode := MANUAL |}.

(** [assignment.save(update_fields=[...])]: the row with that primary key
    takes the six fields. *)
Definition update_key_fields (pk : Z) (deadline_utc : datetime) (max_score : Z)
    (weight : decimal) (submission_type tz_name : string)
    (l : list Assignment.t) : list Assignment.t :=
  map (fun a => if Assignment.id a =? pk
                then with_key_fields deadline_utc max_score weight
                                     submission_type tz_name a
                else a) l.

Definition same_course_teacher (course_pk teacher_pk : Z) (ct : CourseTeacher.t) : bool :=
  (CourseTeacher.course ct =? course_pk) && (CourseTeacher.teacher ct =? teacher_pk).

(** [CourseTeacher.objects.get_or_create(course=, teacher=)] *)
Definition get_or_create_course_teacher (course_pk teacher_pk : Z)
    : Cmd (CourseTeacher.t * bool) :=
  d <- get_db ;;
  match filter (same_course_teacher course_pk teacher_pk) (course_teachers d) with
  | [] =>
      let ct := {| CourseTeacher.id := QuerySet.next_pk CourseTeacher.id (course_teachers d);
                   CourseTeacher.course := course_pk;
                   CourseTeacher.teacher := teacher_pk;
                   CourseTeacher.reviewer := false;
                   CourseTeacher.lecturer := false |} in
      modify_db (set_course_teachers (course_teachers d ++ [ct])) ;;;
      ret (ct, true)
  | [ct] => ret (ct, false)
  | _ :: _ :: _ => raise MultipleObjectsReturned
  end.

Definition with_roles (ct : CourseTeacher.t) : CourseTeacher.t :=
  {| CourseTeacher.id := CourseTeacher.id ct;
     CourseTeacher.course := CourseTeacher.course ct;
     CourseTeacher.teacher := CourseTeacher.teacher ct;
     CourseTeacher.reviewer := true;
     CourseTeacher.lecturer := true |}.

(** [sa.save(update_fields=["assignee", "status"])] *)
Definition update_assignee_status (pk : Z) (assignee : option Z)
    (status : AssignmentStatus) (l : list StudentAssignment.t)
    : list StudentAssignment.t :=
  map (fun sa => if StudentAssignment.id sa =? pk
                 then {| StudentAssignment.id := StudentAssignment.id sa;
                         StudentAssignment.assignment := StudentAssignment.assignment sa;
                         StudentAssignment.student := StudentAssignment.student sa;
                         StudentAssignment.assignee := assignee;
                         StudentAssignment.status := status |}
                 else sa) l.

Definition is_solution_of (sa_pk : Z) (c : AssignmentComment.t) : bool :=
  (AssignmentComment.student_assignment c =? sa_pk)
  && is_solution (AssignmentComment.type c).

(** [User.objects.filter(username=...).first()] *)
Definition user_by_username (name : string) (d : DB) : option User.t :=
  QuerySet.first User.id
    (filter (fun u => String.eqb (User.username u) name) (users d)).

(** [StudentAssignment.objects.filter(assignment=, student=)] *)
Definition same_student_assignment (assignment_pk student_pk : Z)
    (sa : StudentAssignment.t) : bool :=
  (StudentAssignment.assignment sa =? assignment_pk)
  && (StudentAssignment.student sa =? student_pk).

(** [StudentAssignment.objects.filter(assignment=assignment)] *)
Definition student_assignments_of (assignment_pk : Z) (d : DB)
    : list StudentAssignment.t :=
  filter (fun sa => StudentAssignment.assignment sa =? assignment_pk)
         (student_assignments d).

(** [Command._seed_review_item] *)
Definition _seed_review_item (course : Course.t) (assignment : Assignment.t)
    (student_username teacher_username : string) : Cmd unit :=
  d <- get_db ;;
  let student := user_by_username student_username d in
  let teacher := user_by_username teacher_username d in
  match student, teacher with
  | Some student, Some teacher =>
      ct_created <- get_or_create_course_teacher (Course.id course) (User.id teacher) ;;
      let ct := fst ct_created in
      (if bitfield_api
       then modify_db (fun d => set_course_teachers
                       (QuerySet.save CourseTeacher.id (with_roles ct) (course_teachers d)) d)
       else ret tt) ;;;
      d <- get_db ;;
      match QuerySet.first StudentAssignment.id
              (filter (same_student_assignment (Assignment.id assignment)
                                               (User.id student))
                      (student_assignments d)) with
      | None =>
          stdout_write (WARNING "StudentAssignment not found; skipping review seed.")
      | Some sa =>
          modify_db (fun d => set_student_assignments
                       (update_assignee_status (StudentAssignment.id sa)
                          (Some (CourseTeacher.id ct)) ON_CHECKING
                          (student_assignments d)) d) ;;;
          d <- get_db ;;
          solution <-
            match QuerySet.first AssignmentComment.id
                    (filter (is_solution_of (StudentAssignment.id sa)) (comments d)) with
            | Some solution => ret solution
            | None =>
                let solution :=
                  {| AssignmentComment.id :=
                       QuerySet.next_pk AssignmentComment.id (comments d);
                     AssignmentComment.student_assignment := StudentAssignment.id sa;
                     AssignmentComment.type := SOLUTION;
                     AssignmentComment.text := "Seeded solution for review";
                     AssignmentComment.author := User.id student;
                     AssignmentComment.is_published := true |} in
                modify_db (set_comments (comments d ++ [solution])) ;;;
                ret solution
            end ;;
          recalc_stats (StudentAssignment.id sa) ;;;
          stdout_write (SUCCESS_review (StudentAssignment.id sa)
                                       (AssignmentComment.id solution))
      end
  | _, _ =>
      stdout_write (WARNING "Student or teacher not found; skipping review seed.")
  end.

(** Line 139: both user names when neither is [None] or empty
    ([not student_username or not teacher_username] is false). *)
Definition usernames (options : Options) : option (string * string) :=
  match student_username options, teacher_username options with
  | Some su, Some tu =>
      if negb (truthy (Some su)) || negb (truthy (Some tu)) then None
      else Some (su, tu)
  | _, _ => None
  end.

(** [Command.handle] *)
Definition handle (options : Options) : Cmd unit :=
  d <- get_db ;;
  match find_course options d with
  | None => raise (CommandError "Course not found by given identifier")
  | Some course =>
      let title := strip (title options) in
      match strptime (deadline options) with
      | None =>
          raise (CommandError "Invalid --deadline format. Use 'YYYY-MM-DD HH:MM'.")
      | Some deadline_dt =>
          let deadline_utc := make_aware_utc deadline_dt in
          let submission_type := submission_type options in
          let max_score := effective_max_score options in
          match Decimal (weight options) with
          | inl e => raise (CommandError ("Invalid --weight value: " ++ e)%string)
          | inr weight =>
              let tz_name := tz_name_of course in
              got <- get_or_create_assignment (Course.id course) title deadline_utc
                       max_score weight submission_type tz_name ;;
              let created := snd got in
              assignment <-
                (if created then ret (fst got)
                 else
                   modify_db (fun d => set_assignments
                                (update_key_fields (Assignment.id (fst got))
                                   deadline_utc max_score weight submission_type
                                   tz_name (assignments d)) d) ;;;
                   ret (with_key_fields deadline_utc max_score weight
                          submission_type tz_name (fst got))) ;;
              emit (Call_bulk_create (Assignment.id assignment)) ;;;
              modify_db (bulk_create_student_assignments assignment) ;;;
              d <- get_db ;;
              for_each (student_assignments_of (Assignment.id assignment) d)
                (fun sa => recalc_stats (StudentAssignment.id sa)) ;;;
              (if seed_review options then
                 match usernames options with
                 | None =>
                     stdout_write (WARNING
                       "--seed-review requires both --student-username and --teacher-username. Skipping seeding.")
                 | Some (student_username, teacher_username) =>
                     _seed_review_item course assignment
                       student_username teacher_username
                 end
               else ret tt) ;;;
              stdout_write (SUCCESS_assignment (Assignment.id assignment)
                              (Assignment.title assignment)
                              (Assignment.deadline_at assignment) created)
          end
      end
  end.

End Command.

(* ===================================================================== *)
(** * The steps of [handle], named *)
(* ===================================================================== *)

(** [handle] is one method; the properties below speak about its steps,
    so each step gets a name here and [handle_steps] shows that [handle]
    is their composition. *)
Section Steps.
Context {E : Externals}.
Local Open Scope cmd_scope.

(** The row [get_or_create] inserts when it finds none. *)
Definition new_assignment (course : Course.t) (title : string)
    (deadline_utc : datetime) (max_score : Z) (weight : decimal)
    (submission_type : string) (rows : list Assignment.t) : Assignment.t :=
  {| Assignment.id := QuerySet.next_pk Assignment.id rows;
     Assignment.course := Course.id course;
     Assignment.title := title;
     Assignment.text := "Seeded assignment";
     Assignment.deadline_at := deadline_utc;
     Assignment.maximum_score := max_score;
     Assignment.weight := weight;
     Assignment.submission_type := submission_type;
     Assignment.time_zone := tz_name_of course;
     Assignment.assignee_mode := MANUAL |}.

(** Lines 103-126: create the assignment or update the one found. *)
Definition create_or_update (course : Course.t) (title : string)
    (deadline_utc : datetime) (max_score : Z) (weight : decimal)
    (submission_type : string) : Cmd (Assignment.t * bool) :=
  got <- get_or_create_assignment (Course.id course) title deadline_utc
           max_score weight submission_type (tz_name_of course) ;;
  if snd got then ret got
  else
    modify_db (fun d => set_assignments
                 (update_key_fields (Assignment.id (fst got)) deadline_utc
                    max_score weight submission_type (tz_name_of course)
                    (assignments d)) d) ;;;
    ret (with_key_fields deadline_utc max_score weight submission_type
           (tz_name_of course) (fst got), false).

(** Lines 132-133: the statistics loop. *)
Definition recalc_all (assignment : Assignment.t) : Cmd unit :=
  d <- get_db ;;
  for_each (student_assignments_of (Assignment.id assignment) d)
    (fun sa => recalc_stats (StudentAssignment.id sa)).

(** Lines 136-151: the optional review seeding. *)
Definition seed_step (options : Options) (course : Course.t)
    (assignment : Assignment.t) : Cmd unit :=
  if seed_review options then
    match usernames options with
    | None =>
        stdout_write (WARNING
          "--seed-review requires both --student-username and --teacher-username. Skipping seeding.")
    | Some (student_username, teacher_username) =>
        _seed_review_item course assignment student_username teacher_username
    end
  else ret tt.

(** Lines 128-157: everything after the assignment is there. *)
Definition follow_up (options : Options) (course : Course.t)
    (assignment : Assignment.t) (created : bool) : Cmd unit :=
  emit (Call_bulk_create (Assignment.id assignment)) ;;;
  modify_db (bulk_create_student_assignments assignment) ;;;
  recalc_all assignment ;;;
  seed_step options course assignment ;;;
  stdout_write (SUCCESS_assignment (Assignment.id assignment)
                  (Assignment.title assignment)
                  (Assignment.deadline_at assignment) created).

(** The database and the trace after the statistics loop over [l]. *)
Definition stats_db (l : list StudentAssignment.t) (d : DB) : DB :=
  fold_left (fun d sa => update_student_assignment_stats (StudentAssignment.id sa) d) l d.

Definition stats_calls (l : list StudentAssignment.t) : list Event :=
  map (fun sa => Call_update_stats (StudentAssignment.id sa)) l.

(** The world in which the seeding step starts. *)
Definition before_seed (assignment : Assignment.t) (w : World) : World :=
  let d := bulk_create_student_assignments assignment (db w) in
  let sas := student_assignments_of (Assignment.id assignment) d in
  {| db := stats_db sas d;
     trace := trace w ++ Call_bulk_create (Assignment.id assignment) :: stats_calls sas |}.

Definition success_of (assignment : Assignment.t) (created : bool) : Event :=
  Stdout (SUCCESS_assignment (Assignment.id assignment) (Assignment.title assignment)
            (Assignment.deadline_at assignment) created).

Definition say (e : Event) (w : World) : World :=
  {| db := db w; trace := trace w ++ [e] |}.

End Steps.


Definition without_seed_review (o : Options) : Options :=
  {| course_id := course_id o; course_name := course_name o; title := title o;
     deadline := deadline o; submission_type := submission_type o;
     max_score := max_score o; weight := weight o;
     seed_review := false;
     student_username := student_username o;
     teacher_username := teacher_username o |}.

(** The services write [StudentAssignment] rows only. *)
Definition keeps_other_tables (f : DB -> DB) : Prop :=
  forall d,
    courses (f d) = courses d /\ assignments (f d) = assignments d
    /\ users (f d) = users d /\ course_teachers (f d) = course_teachers d
    /\ comments (f d) = comments d.

Definition services_frame (E : Externals) : Prop :=
  (forall a, keeps_other_tables (bulk_create_student_assignments a))
  /\ (forall sa_id, keeps_other_tables (update_student_assignment_stats sa_id)).

(** The [SOLUTION] comments of one [StudentAssignment]. *)
Definition solutions_of (sa_pk : Z) (d : DB) : list AssignmentComment.t :=
  filter (is_solution_of sa_pk) (comments d).

(** The course a selector names exists. *)
Definition course_exists (options : Options) (d : DB) : Prop :=
  match course_id options with
  | Some pk => exists c, In c (courses d) /\ Course.id c = pk
  | None => exists c, In c (courses d)
                      /\ Some (Course.meta_course_name c) = course_name options
  end.

(** How the comments of [d'] may differ from those of [d] after a run: at
    most one [SOLUTION] comment was appended, to a [StudentAssignment]
    that had none. *)
Definition adds_at_most_one_solution (d d' : DB) : Prop :=
  comments d' = comments d
  \/ exists c, comments d' = comments d ++ [c]
               /\ AssignmentComment.type c = SOLUTION
               /\ solutions_of (AssignmentComment.student_assignment c) d = [].

(** ** Relations between the world before and after a command *)

(** [m] relates the world it starts in to the one it leaves, whether it
    returns or raises. *)
Definition keeps (R : World -> World -> Prop) {A} (m : Cmd A) : Prop :=
  forall w, R w (snd (m w)).

Definition same_catalogue (w w' : World) : Prop :=
  courses (db w') = courses (db w)
  /\ assignments (db w') = assignments (db w)
  /\ users (db w') = users (db w).

Definition same_comments (w w' : World) : Prop :=
  comments (db w') = comments (db w).

Definition trace_grows (w w' : World) : Prop :=
  exists ev, trace w' = trace w ++ ev.

Definition never_command_error {A} (m : Cmd A) : Prop :=
  forall w msg, fst (m w) <> inl (CommandError msg).


Definition may_add_solution {A} (m : Cmd A) : Prop :=
  forall w, adds_at_most_one_solution (db w) (db (snd (m w))).




(* ===================================================================== *)
(** * Markdown rendering *)
(* ===================================================================== *)

(** Modelled from the spec: [apps/core/utils.py], which defines
    [render_markdown], is missing, and so are the markdown converter and
    the HTML sanitizer it wraps; [apps/core/tests/test_markdown.py] shows
    how it is called.  The module below is a converter for the syntax the
    specification names, followed by a sanitizer with a list of allowed
    tags. *)
Module Markdown.

Definition chars := list ascii.

Definition lit (s : string) : chars := list_ascii_of_string s.

Definition newline : ascii := ascii_of_nat 10.

Definition is_alnum (c : ascii) : bool :=
  let n := nat_of_ascii c in
  (((48 <=? n) && (n <=? 57)) || ((65 <=? n) && (n <=? 90))
   || ((97 <=? n) && (n <=? 122)))%nat.

Definition lower (c : ascii) : ascii :=
  let n := nat_of_ascii c in
  if ((65 <=? n) && (n <=? 90))%nat then ascii_of_nat (n + 32) else c.

Fixpoint starts_with (p s : chars) : bool :=
  match p, s with
  | [], _ => true
  | _ :: _, [] => false
  | a :: p', b :: s' => Ascii.eqb a b && starts_with p' s'
  end.

(** [needle in hay] *)
Fixpoint contains (needle hay : chars) : bool :=
  starts_with needle hay
  || match hay with
     | [] => false
     | _ :: r => contains needle r
     end.

(** An opening or closing tag without attributes. *)
Definition tag_text (closing : bool) (name : chars) : chars :=
  lit "<" ++ (if closing then lit "/" else []) ++ name ++ lit ">".

(** ** The converter *)

Fixpoint split_on (sep : ascii) (s : chars) : list chars :=
  match s with
  | [] => [[]]
  | c :: r =>
      if Ascii.eqb c sep then [] :: split_on sep r
      else match split_on sep r with
           | [] => [[c]]
           | l :: ls => (c :: l) :: ls
           end
  end.

Fixpoint ltrim (l : chars) : chars :=
  match l with
  | [] => []
  | c :: r => if isspace c then ltrim r else l
  end.

Fixpoint rtrim (l : chars) : chars :=
  match l with
  | [] => []
  | c :: r =>
      match rtrim r with
      | [] => if isspace c then [] else [c]
      | r' => c :: r'
      end
  end.

Definition trim (l : chars) : chars := rtrim (ltrim l).

Definition is_blank (l : chars) : bool := forallb isspace l.

Fixpoint count_hashes (l : chars) : nat * chars :=
  match l with
  | c :: r =>
      if Ascii.eqb c "#" then let (n, r') := count_hashes r in (S n, r')
      else (O, l)
  | [] => (O, [])
  end.

(** An ATX heading: one to six [#], then a space. *)
Definition heading (l : chars) : option (nat * chars) :=
  let (n, r) := count_hashes l in
  if ((1 <=? n) && (n <=? 6))%nat then
    match r with
    | [] => Some (n, [])
    | c :: t => if Ascii.eqb c " " then Some (n, trim t) else None
    end
  else None.

Definition has_star (l : chars) : bool := existsb (Ascii.eqb "*") l.

(** Emphasis: a [*] that has a closing [*] opens [<em>]. *)
Fixpoint inline (em : bool) (s : chars) : chars :=
  match s with
  | [] => []
  | c :: r =>
      if Ascii.eqb c "*" then
        if em then tag_text true (lit "em") ++ inline false r
        else if has_star r then tag_text false (lit "em") ++ inline true r
             else c :: inline false r
      else c :: inline em r
  end.

Definition is_row (l : chars) : bool := existsb (Ascii.eqb "|") l.

Fixpoint drop_last_pipe (l : chars) : chars :=
  match l with
  | [] => []
  | c :: r =>
      match r with
      | [] => if Ascii.eqb c "|" then [] else [c]
      | _ :: _ => c :: drop_last_pipe r
      end
  end.

Definition drop_first_pipe (l : chars) : chars :=
  match l with
  | c :: r => if Ascii.eqb c "|" then r else l
  | [] => []
  end.

(** The cells of a table row. *)
Definition cells (l : chars) : list chars :=
  map trim (split_on "|" (drop_last_pipe (drop_first_pipe (trim l)))).

Definition is_dashes (cell : chars) : bool :=
  existsb (Ascii.eqb "-") cell
  && forallb (fun c => Ascii.eqb c "-" || Ascii.eqb c ":") cell.

Definition is_separator (l : chars) : bool :=
  is_row l && forallb is_dashes (cells l).

Fixpoint take_while {A} (p : A -> bool) (l : list A) : list A :=
  match l with
  | x :: r => if p x then x :: take_while p r else []
  | [] => []
  end.

Inductive block :=
| Heading (level : nat) (text : chars)
| Table (header : list chars) (rows : list (list chars))
| Paragraph (lines : list chars).

(** The blocks of a document; [skip] lines were taken by the block
    before. *)
Fixpoint blocks (skip : nat) (ls : list chars) : list block :=
  match ls with
  | [] => []
  | l :: rest =>
      match skip with
      | S k => blocks k rest
      | O =>
          if is_blank l then blocks O rest
          else
            match heading l with
            | Some (n, t) => Heading n t :: blocks O rest
            | None =>
                match rest with
                | sep :: body =>
                    if is_row l && is_separator sep then
                      let rows := take_while is_row body in
                      Table (cells l) (map cells rows)
                      :: blocks (S (List.length rows)) rest
                    else
                      let more := take_while (fun x => negb (is_blank x)) rest in
                      Paragraph (l :: more) :: blocks (List.length more) rest
                | [] => [Paragraph [l]]
                end
            end
      end
  end.

Fixpoint join (sep : chars) (ls : list chars) : chars :=
  match ls with
  | [] => []
  | [l] => l
  | l :: r => l ++ sep ++ join sep r
  end.

Definition digit_of (n : nat) : ascii := ascii_of_nat (48 + n).

Definition render_row (tag : chars) (row : list chars) : chars :=
  tag_text false (lit "tr") ++ [newline]
  ++ List.concat (map (fun c => tag_text false tag ++ inline false c
                                ++ tag_text true tag ++ [newline]) row)
  ++ tag_text true (lit "tr") ++ [newline].

Definition render_block (b : block) : chars :=
  match b with
  | Heading n t =>
      tag_text false (lit "h" ++ [digit_of n]) ++ inline false t
      ++ tag_text true (lit "h" ++ [digit_of n])
  | Table header rows =>
      tag_text false (lit "table") ++ [newline]
      ++ tag_text false (lit "thead") ++ [newline]
      ++ render_row (lit "th") header
      ++ tag_text true (lit "thead") ++ [newline]
      ++ tag_text false (lit "tbody") ++ [newline]
      ++ List.concat (map (render_row (lit "td")) rows)
      ++ tag_text true (lit "tbody") ++ [newline]
      ++ tag_text true (lit "table")
  | Paragraph lines =>
      tag_text false (lit "p") ++ inline false (join [newline] lines)
      ++ tag_text true (lit "p")
  end.

(** Modelled from the spec: the third-party markdown-to-HTML converter
    that [render_markdown] wraps is not part of the repository.  This
    converter knows what the specification names: headings, emphasis
    and tables, besides paragraphs; raw HTML in the text passes through
    unchanged. *)
Definition markdown (text : chars) : chars :=
  join [newline] (map render_block (blocks O (split_on newline text))).

(** ** The sanitizer *)

Definition ALLOWED_TAGS : list chars :=
  map lit ["a"; "abbr"; "acronym"; "b"; "blockquote"; "br"; "code"; "em";
           "h1"; "h2"; "h3"; "h4"; "h5"; "h6"; "hr"; "i"; "li"; "ol"; "p";
           "pre"; "strong"; "table"; "tbody"; "td"; "th"; "thead"; "tr";
           "ul"].

Definition chars_eqb (a b : chars) : bool :=
  String.eqb (string_of_list_ascii a) (string_of_list_ascii b).

Fixpoint lookup_tag (name : chars) (tags : list chars) : option chars :=
  match tags with
  | [] => None
  | t :: r => if chars_eqb name t then Some t else lookup_tag name r
  end.

Fixpoint span_name (s : chars) : chars * chars :=
  match s with
  | c :: r =>
      if is_alnum c then let (n, r') := span_name r in (c :: n, r')
      else ([], s)
  | [] => ([], [])
  end.

Fixpoint index_gt (s : chars) : option nat :=
  match s with
  | [] => None
  | c :: r =>
      if Ascii.eqb c ">" then Some O
      else match index_gt r with
           | Some k => Some (S k)
           | None => None
           end
  end.

(** A tag after its [<]: whether it closes, its name in lower case, and
    how many characters it takes up to and with its [>]. *)
Definition parse_tag (rest : chars) : option (bool * chars * nat) :=
  let (closing, body) :=
    match rest with
    | c :: b => if Ascii.eqb c "/" then (true, b) else (false, rest)
    | [] => (false, rest)
    end in
  let (name, after) := span_name body in
  match name with
  | [] => None
  | _ :: _ =>
      match index_gt after with
      | Some k =>
          Some (closing, map lower name,
                ((if closing then 1 else 0) + List.length name + k + 1)%nat)
      | None => None
      end
  end.

(** Modelled from the spec: the HTML sanitizer that [render_markdown]
    wraps is not part of the repository.  Tags whose name is allowed are
    written back without attributes, every other tag is stripped, and
    the characters [<], [>] and [&] of the text are escaped.  [skip]
    characters belong to the tag just read. *)
Fixpoint clean_from (skip : nat) (s : chars) : chars :=
  match s with
  | [] => []
  | c :: rest =>
      match skip with
      | S k => clean_from k rest
      | O =>
          if Ascii.eqb c "<" then
            match parse_tag rest with
            | Some (closing, name, len) =>
                match lookup_tag name ALLOWED_TAGS with
                | Some t => tag_text closing t ++ clean_from len rest
                | None => clean_from len rest
                end
            | None => lit "&lt;" ++ clean_from O rest
            end
          else if Ascii.eqb c ">" then lit "&gt;" ++ clean_from O rest
          else if Ascii.eqb c "&" then lit "&amp;" ++ clean_from O rest
          else c :: clean_from O rest
      end
  end.

Definition clean (html : chars) : chars := clean_from O html.

(** Modelled from the spec: [apps/core/utils.py] with [render_markdown]
    is missing; the specification describes it as a markdown-to-HTML
    converter followed by an HTML sanitizer that strips script tags. *)
Definition render_markdown (text : string) : string :=
  string_of_list_ascii (clean (markdown (list_ascii_of_string text))).

(** [needle in html] on strings. *)
Definition occurs_in (needle html : string) : bool :=
  contains (list_ascii_of_string needle) (list_ascii_of_string html).

(** ** For stating properties *)

Definition script : chars := lit "<script".

(** The lines of a text. *)
Definition lines (text : string) : list chars := split_on newline (lit text).

(** A block can start after the lines [before]: at the start of the text
    or after a blank line. *)
Definition starts_block (before : list chars) : bool :=
  match rev before with
  | [] => true
  | l :: _ => is_blank l
  end.

Definition has_char (c : ascii) (s : chars) : bool := existsb (Ascii.eqb c) s.

(** A character the sanitizer copies. *)
Definition is_plain (c : ascii) : bool :=
  negb (Ascii.eqb c "<") && negb (Ascii.eqb c ">") && negb (Ascii.eqb c "&").

Definition plain (s : chars) : bool := forallb is_plain s.

Definition not_blank (l : chars) : bool := negb (is_blank l).

(** [s] ends with [>]. *)
Definition ends_gt (s : chars) : Prop := exists s', s = s' ++ [">"%char].

(** The sanitizer reads [s] and what follows it apart. *)
Definition closed (s : chars) : Prop :=
  forall r, clean_from O (s ++ r) = clean_from O s ++ clean_from O r.

(** A cell of a table row, as [render_row] writes it. *)
Definition render_cell (tag c : chars) : chars :=
  tag_text false tag ++ inline false c ++ tag_text true tag ++ [newline].

(** The document of [test_render_markdown_table]. *)
Definition table_example : string :=
  "
| A | B |
|---|---|
| 1 | 2 |
".

End Markdown.

(* ===================================================================== *)
(** * A concrete environment *)
(* ===================================================================== *)

(** Stand-ins for the external functions, and a small database, on which
    the command runs by computation. *)
Module Demo.

Definition digit (c : ascii) : option Z :=
  let n := nat_of_ascii c in
  if ((48 <=? n) && (n <=? 57))%nat then Some (Z.of_nat n - 48) else None.

Fixpoint number (acc : Z) (s : list ascii) : option Z :=
  match s with
  | [] => Some acc
  | c :: r => match digit c with
              | Some v => number (10 * acc + v) r
              | None => None
              end
  end.

(** Accepts the fixed-width form [dddd-dd-dd dd:dd] only. *)
Definition strptime_fixed (s : string) : option datetime :=
  match list_ascii_of_string s with
  | [y1; y2; y3; y4; d1; m1; m2; d2; a1; a2; sp; h1; h2; co; n1; n2] =>
      if (Ascii.eqb d1 "-" && Ascii.eqb d2 "-" && Ascii.eqb sp " "
          && Ascii.eqb co ":")%bool
      then
        match number 0 [y1; y2; y3; y4], number 0 [m1; m2], number 0 [a1; a2],
              number 0 [h1; h2], number 0 [n1; n2] with
        | Some y, Some m, Some d, Some h, Some mi =>
            if ((1 <=? m) && (m <=? 12) && (1 <=? d) && (d <=? 31)
                && (h <=? 23) && (mi <=? 59))%bool
            then Some {| year := y; month := m; day := d; hour := h;
                         minute := mi; tzinfo := None |}
            else None
        | _, _, _, _, _ => None
        end
      else None
  | _ => None
  end.

(** Accepts [digits.digits] only. *)
Definition Decimal_plain (s : string) : string + decimal :=
  let fix split (l : list ascii) (acc : list ascii) :=
    match l with
    | [] => None
    | c :: r => if Ascii.eqb c "." then Some (rev acc, r) else split r (c :: acc)
    end in
  match split (list_ascii_of_string s) [] with
  | Some (i :: ip, f :: fp) =>
      match number 0 ((i :: ip) ++ (f :: fp)) with
      | Some n => inr (Finite false (Z.to_N n) (- Z.of_nat (List.length (f :: fp))))
      | None => inl "[<class 'decimal.ConversionSyntax'>]"
      end
  | _ => inl "[<class 'decimal.ConversionSyntax'>]"
  end.

(** One row for every user that has none for the assignment yet. *)
Definition bulk_create_for_users (a : Assignment.t) (d : DB) : DB :=
  set_student_assignments
    (fold_left
       (fun sas u =>
          if existsb (same_student_assignment (Assignment.id a) (User.id u)) sas
          then sas
          else sas ++ [{| StudentAssignment.id :=
                            QuerySet.next_pk StudentAssignment.id sas;
                          StudentAssignment.assignment := Assignment.id a;
                          StudentAssignment.student := User.id u;
                          StudentAssignment.assignee := None;
                          StudentAssignment.status :=
                            AssignmentStatus_other "not_submitted" |}])
       (users d) (student_assignments d)) d.

#[export] Instance externals : Externals := {|
  strptime := strptime_fixed;
  Decimal := Decimal_plain;
  bulk_create_student_assignments := bulk_create_for_users;
  update_student_assignment_stats := fun _ d => d;
  bitfield_api := true
|}.

Definition database : DB := {|
  courses := [ {| Course.id := 1; Course.meta_course_name := "Algorithms";
                  Course.main_branch_time_zone := Some "Europe/Moscow" |};
               {| Course.id := 2; Course.meta_course_name := "Logic";
                  Course.main_branch_time_zone := None |};
               {| Course.id := 3; Course.meta_course_name := "Algorithms";
                  Course.main_branch_time_zone := None |} ];
  assignments := [];
  users := [ {| User.id := 10; User.username := "alice" |};
             {| User.id := 11; User.username := "bob" |} ];
  course_teachers := [];
  student_assignments := [];
  comments := []
|}.

Definition world : World := {| db := database; trace := [] |}.

Definition options : Options := {|
  course_id := None; course_name := Some "Algorithms";
  title := "  Homework 1 "; deadline := "2030-01-15 12:00";
  submission_type := "online"; max_score := 5; weight := "1.00";
  seed_review := true;
  student_username := Some "alice"; teacher_username := Some "bob"
|}.

(** [--max-score 0] *)
Definition options_zero_score : Options := {|
  course_id := Some 2; course_name := None;
  title := "Quiz"; deadline := "2030-01-15 12:00";
  submission_type := "offline"; max_score := 0; weight := "0.50";
  seed_review := false;
  student_username := None; teacher_username := None
|}.

(** [--seed-review] with a teacher that does not exist. *)
Definition options_no_teacher : Options := {|
  course_id := None; course_name := Some "Algorithms";
  title := "  Homework 1 "; deadline := "2030-01-15 12:00";
  submission_type := "online"; max_score := 5; weight := "1.00";
  seed_review := true;
  student_username := Some "alice"; teacher_username := Some "carol"
|}.

End Demo.

(* ===================================================================== *)
(** * More about the command: what a seeding leaves *)
(* ===================================================================== *)

(** The same options with another title. *)
Definition with_title (t : string) (o : Options) : Options :=
  {| course_id := course_id o; course_name := course_name o; title := t;
     deadline := deadline o; submission_type := submission_type o;
     max_score := max_score o; weight := weight o;
     seed_review := seed_review o;
     student_username := student_username o;
     teacher_username := teacher_username o |}.

Section SeedOutcome.
Context {E : Externals}.

(** Lines 169-177, on the [CourseTeacher] rows: the link
    [get_or_create] returns, and the table after the roles were saved. *)
Definition linked_teacher (course_pk teacher_pk : Z)
    (rows : list CourseTeacher.t) : CourseTeacher.t :=
  match filter (same_course_teacher course_pk teacher_pk) rows with
  | [] => {| CourseTeacher.id := QuerySet.next_pk CourseTeacher.id rows;
             CourseTeacher.course := course_pk;
             CourseTeacher.teacher := teacher_pk;
             CourseTeacher.reviewer := false;
             CourseTeacher.lecturer := false |}
  | ct :: _ => ct
  end.

Definition course_teachers_after (course_pk teacher_pk : Z)
    (rows : list CourseTeacher.t) : list CourseTeacher.t :=
  let ct := linked_teacher course_pk teacher_pk rows in
  let rows0 :=
    match filter (same_course_teacher course_pk teacher_pk) rows with
    | [] => rows ++ [ct]
    | _ :: _ => rows
    end in
  if bitfield_api
  then QuerySet.save CourseTeacher.id (with_roles ct) rows0
  else rows0.

(** Lines 189-199: the solution the success message names, and the
    comments after it was looked up or created. *)
Definition seeded_solution (sa_pk student_pk : Z)
    (rows : list AssignmentComment.t) : AssignmentComment.t :=
  match QuerySet.first AssignmentComment.id (filter (is_solution_of sa_pk) rows) with
  | Some solution => solution
  | None => {| AssignmentComment.id := QuerySet.next_pk AssignmentComment.id rows;
               AssignmentComment.student_assignment := sa_pk;
               AssignmentComment.type := SOLUTION;
               AssignmentComment.text := "Seeded solution for review";
               AssignmentComment.author := student_pk;
               AssignmentComment.is_published := true |}
  end.

Definition comments_after (sa_pk student_pk : Z)
    (rows : list AssignmentComment.t) : list AssignmentComment.t :=
  match QuerySet.first AssignmentComment.id (filter (is_solution_of sa_pk) rows) with
  | Some _ => rows
  | None => rows ++ [seeded_solution sa_pk student_pk rows]
  end.

(** The [StudentAssignment] of the student that line 179 takes. *)
Definition student_assignment_of (assignment_pk student_pk : Z) (d : DB)
    : option StudentAssignment.t :=
  QuerySet.first StudentAssignment.id
    (filter (same_student_assignment assignment_pk student_pk)
            (student_assignments d)).

End SeedOutcome.

(** The first and the last character of a text, when it has one. *)
Definition first_char (s : string) : option ascii :=
  match s with
  | EmptyString => None
  | String c _ => Some c
  end.

Fixpoint last_char (s : string) : option ascii :=
  match s with
  | EmptyString => None
  | String c EmptyString => Some c
  | String _ r => last_char r
  end.

(** More worlds for the stand-in environment. *)
Module DemoMore.

(** The database after the demo run without [--seed-review]. *)
Definition seeded_world : World :=
  snd (@handle Demo.externals (without_seed_review Demo.options) Demo.world).

Definition algorithms : Course.t :=
  {| Course.id := 3; Course.meta_course_name := "Algorithms";
     Course.main_branch_time_zone := None |}.

Definition homework : Assignment.t :=
  {| Assignment.id := 1; Assignment.course := 3; Assignment.title := "Homework 1";
     Assignment.text := "Seeded assignment";
     Assignment.deadline_at :=
       {| year := 2030; month := 1; day := 15; hour := 12; minute := 0;
          tzinfo := Some "UTC" |};
     Assignment.maximum_score := 5;
     Assignment.weight := Finite false 100 (-2);
     Assignment.submission_type := "online";
     Assignment.time_zone := "UTC";
     Assignment.assignee_mode := MANUAL |}.

Definition alice : User.t := {| User.id := 10; User.username := "alice" |}.
Definition bob : User.t := {| User.id := 11; User.username := "bob" |}.

Definition alices_row : StudentAssignment.t :=
  {| StudentAssignment.id := 1; StudentAssignment.assignment := 1;
     StudentAssignment.student := 10; StudentAssignment.assignee := None;
     StudentAssignment.status := AssignmentStatus_other "not_submitted" |}.

(** Two assignments of the course under the same title. *)
Definition duplicates_world : World :=
  {| db := set_assignments
             [homework;
              {| Assignment.id := 2; Assignment.course := 3;
                 Assignment.title := "Homework 1"; Assignment.text := "Copy";
                 Assignment.deadline_at := Assignment.deadline_at homework;
                 Assignment.maximum_score := 7;
                 Assignment.weight := Finite false 100 (-2);
                 Assignment.submission_type := "online";
                 Assignment.time_zone := "UTC";
                 Assignment.assignee_mode := MANUAL |}]
             Demo.database;
     trace := [] |}.

(** Two rows that link bob to the course. *)
Definition ambiguous_world : World :=
  {| db := set_course_teachers
             [ {| CourseTeacher.id := 1; CourseTeacher.course := 3;
                  CourseTeacher.teacher := 11; CourseTeacher.reviewer := false;
                  CourseTeacher.lecturer := false |};
               {| CourseTeacher.id := 2; CourseTeacher.course := 3;
                  CourseTeacher.teacher := 11; CourseTeacher.reviewer := true;
                  CourseTeacher.lecturer := false |} ]
             Demo.database;
     trace := [] |}.

Definition parsed_deadline : datetime :=
  {| year := 2030; month := 1; day := 15; hour := 12; minute := 0;
     tzinfo := None |}.

(** A course in which nobody is enrolled: the bulk-create service adds
    no row. *)
Definition nobody_enrolled : Externals := {|
  strptime := Demo.strptime_fixed;
  Decimal := Demo.Decimal_plain;
  bulk_create_student_assignments := fun _ d => d;
  update_student_assignment_stats := fun _ d => d;
  bitfield_api := true
|}.



End DemoMore.

(* ===================================================================== *)
(** * Facts about query sets *)
(* ===================================================================== *)

Lemma filter_none {A} (p : A -> bool) (l : list A) :
  (forall y, In y l -> p y = false) -> filter p l = [].
Proof.
  induction l as [|x l IH]; simpl; [reflexivity|].
  intros H. rewrite (H x (or_introl eq_refl)). apply IH. auto.
Qed.

Section QuerySetFacts.
Context {A : Type} (key : A -> Z).

Lemma insert_desc_In x y l :
  In y (QuerySet.insert_desc key x l) <-> y = x \/ In y l.
Proof.
  induction l as [|z l IH]; simpl.
  - intuition.
  - destruct (key z <=? key x); simpl; [intuition|].
    rewrite IH. intuition.
Qed.

Lemma insert_asc_In x y l :
  In y (QuerySet.insert_asc key x l) <-> y = x \/ In y l.
Proof.
  induction l as [|z l IH]; simpl.
  - intuition.
  - destruct (key x <=? key z); simpl; [intuition|].
    rewrite IH. intuition.
Qed.

Lemma order_by_desc_In y l : In y (QuerySet.order_by_desc key l) <-> In y l.
Proof.
  induction l as [|x l IH]; simpl; [tauto|].
  rewrite insert_desc_In, IH. intuition.
Qed.

Lemma order_by_In y l : In y (QuerySet.order_by key l) <-> In y l.
Proof.
  induction l as [|x l IH]; simpl; [tauto|].
  rewrite insert_asc_In, IH. intuition.
Qed.

Lemma insert_desc_sorted x l :
  QuerySet.descending key l -> QuerySet.descending key (QuerySet.insert_desc key x l).
Proof.
  unfold QuerySet.descending. induction 1 as [|z l Hl IH Hz]; simpl.
  - constructor; constructor.
  - destruct (key z <=? key x) eqn:Hc.
    + apply Z.leb_le in Hc. constructor.
      * constructor; assumption.
      * constructor; [assumption|].
        rewrite Forall_forall in *. intros b Hb. specialize (Hz b Hb). lia.
    + apply Z.leb_gt in Hc. constructor; [assumption|].
      rewrite Forall_forall in *. intros b Hb.
      apply insert_desc_In in Hb. destruct Hb as [->|Hb]; [lia|auto].
Qed.

Lemma insert_asc_sorted x l :
  QuerySet.ascending key l -> QuerySet.ascending key (QuerySet.insert_asc key x l).
Proof.
  unfold QuerySet.ascending. induction 1 as [|z l Hl IH Hz]; simpl.
  - constructor; constructor.
  - destruct (key x <=? key z) eqn:Hc.
    + apply Z.leb_le in Hc. constructor.
      * constructor; assumption.
      * constructor; [assumption|].
        rewrite Forall_forall in *. intros b Hb. specialize (Hz b Hb). lia.
    + apply Z.leb_gt in Hc. constructor; [assumption|].
      rewrite Forall_forall in *. intros b Hb.
      apply insert_asc_In in Hb. destruct Hb as [->|Hb]; [lia|auto].
Qed.

Lemma order_by_desc_sorted l : QuerySet.descending key (QuerySet.order_by_desc key l).
Proof.
  induction l; simpl; [constructor | now apply insert_desc_sorted].
Qed.

Lemma order_by_sorted l : QuerySet.ascending key (QuerySet.order_by key l).
Proof.
  induction l; simpl; [constructor | now apply insert_asc_sorted].
Qed.

(** [order_by("-id").first()] is a row of greatest key. *)
Lemma first_desc_spec l x :
  QuerySet.first_desc key l = Some x ->
  In x l /\ forall y, In y l -> key y <= key x.
Proof.
  unfold QuerySet.first_desc. intros H.
  pose proof (order_by_desc_sorted l) as Hs.
  pose proof (fun y => order_by_desc_In y l) as Hin.
  destruct (QuerySet.order_by_desc key l) as [|z s]; [discriminate|].
  injection H as ->. split.
  - apply Hin. now left.
  - intros y Hy. apply Hin in Hy. inversion Hs as [|? ? _ Hall]; subst.
    destruct Hy as [->|Hy]; [lia|].
    rewrite Forall_forall in Hall. auto.
Qed.

(** [first()] is a row of least key. *)
Lemma first_spec l x :
  QuerySet.first key l = Some x ->
  In x l /\ forall y, In y l -> key x <= key y.
Proof.
  unfold QuerySet.first. intros H.
  pose proof (order_by_sorted l) as Hs.
  pose proof (fun y => order_by_In y l) as Hin.
  destruct (QuerySet.order_by key l) as [|z s]; [discriminate|].
  injection H as ->. split.
  - apply Hin. now left.
  - intros y Hy. apply Hin in Hy. inversion Hs as [|? ? _ Hall]; subst.
    destruct Hy as [->|Hy]; [lia|].
    rewrite Forall_forall in Hall. auto.
Qed.

Lemma first_desc_None l : QuerySet.first_desc key l = None <-> l = [].
Proof.
  unfold QuerySet.first_desc. split; [|intros ->; reflexivity].
  intros H. destruct l as [|x l]; [reflexivity|].
  pose proof (proj2 (order_by_desc_In x (x :: l)) (or_introl eq_refl)) as Hin.
  destruct (QuerySet.order_by_desc key (x :: l)); [destruct Hin | discriminate].
Qed.

Lemma first_None l : QuerySet.first key l = None <-> l = [].
Proof.
  unfold QuerySet.first. split; [|intros ->; reflexivity].
  intros H. destruct l as [|x l]; [reflexivity|].
  pose proof (proj2 (order_by_In x (x :: l)) (or_introl eq_refl)) as Hin.
  destruct (QuerySet.order_by key (x :: l)); [destruct Hin | discriminate].
Qed.

Lemma first_singleton x : QuerySet.first key [x] = Some x.
Proof. reflexivity. Qed.


Lemma next_pk_fresh l x : In x l -> key x < QuerySet.next_pk key l.
Proof.
  unfold QuerySet.next_pk. induction l as [|z l IH]; [intros []|].
  cbn [fold_right In].
  intros [->|Hin]; [lia|]. specialize (IH Hin). lia.
Qed.

Lemma save_keys x l : map key (QuerySet.save key x l) = map key l.
Proof.
  unfold QuerySet.save. rewrite map_map. apply map_ext_in. intros y _.
  destruct (key y =? key x) eqn:Hc; [|reflexivity].
  apply Z.eqb_eq in Hc. now rewrite Hc.
Qed.

End QuerySetFacts.

(* ===================================================================== *)
(** * Facts about the command's steps *)
(* ===================================================================== *)

Ltac cmd_unfold :=
  unfold bind, ret, raise, get_db, modify_db, emit, stdout_write in *.

Section CommandFacts.
Context {E : Externals}.
Local Open Scope cmd_scope.

Lemma handle_steps options w :
  handle options w =
  match find_course options (db w) with
  | None => (inl (CommandError "Course not found by given identifier"), w)
  | Some course =>
      match strptime (deadline options) with
      | None =>
          (inl (CommandError "Invalid --deadline format. Use 'YYYY-MM-DD HH:MM'."), w)
      | Some dt =>
          match Decimal (weight options) with
          | inl e => (inl (CommandError ("Invalid --weight value: " ++ e)%string), w)
          | inr wt =>
              (got <- create_or_update course (strip (title options))
                        (make_aware_utc dt) (effective_max_score options) wt
                        (submission_type options) ;;
               follow_up options course (fst got) (snd got)) w
          end
      end
  end.
Proof.
  unfold handle. unfold bind at 1. unfold get_db at 1.
  destruct (find_course options (db w)) as [course|]; [|reflexivity].
  destruct (strptime (deadline options)) as [dt|]; [|reflexivity].
  destruct (Decimal (weight options)) as [e|wt]; [reflexivity|].
  unfold create_or_update, follow_up, recalc_all, seed_step.
  unfold bind.
  destruct (get_or_create_assignment _ _ _ _ _ _ _ w) as [[e|[a c]] w1];
    [reflexivity|].
  destruct c; reflexivity.
Qed.

Lemma for_each_recalc l w :
  for_each l (fun sa => recalc_stats (StudentAssignment.id sa)) w =
  (inr tt, {| db := stats_db l (db w); trace := trace w ++ stats_calls l |}).
Proof.
  revert w. induction l as [|sa l IH]; intros w; simpl.
  - unfold ret. rewrite app_nil_r. now destruct w.
  - unfold bind at 1. unfold recalc_stats. cmd_unfold. simpl.
    rewrite IH. simpl. now rewrite <- app_assoc.
Qed.

Lemma follow_up_eq options course assignment created w :
  follow_up options course assignment created w =
  match seed_step options course assignment (before_seed assignment w) with
  | (inl e, w') => (inl e, w')
  | (inr _, w') => (inr tt, say (success_of assignment created) w')
  end.
Proof.
  unfold follow_up, recalc_all, before_seed.
  unfold bind at 1. unfold emit at 1.
  unfold bind at 1. unfold modify_db at 1. cbn [db trace].
  unfold bind at 1. unfold bind at 1. unfold get_db at 1. cbn [db trace].
  rewrite for_each_recalc. cbn [db trace].
  rewrite <- app_assoc. cbn [app].
  unfold bind.
  match goal with |- context [seed_step ?o ?c ?a ?w0] =>
    destruct (seed_step o c a w0) as [[e|[]] w'] end; reflexivity.
Qed.

Lemma create_or_update_eq course title dl ms wt st w :
  create_or_update course title dl ms wt st w =
  match filter (same_assignment_key (Course.id course) title) (assignments (db w)) with
  | [] =>
      let a := new_assignment course title dl ms wt st (assignments (db w)) in
      (inr (a, true),
       {| db := set_assignments (assignments (db w) ++ [a]) (db w);
          trace := trace w |})
  | [a0] =>
      (inr (with_key_fields dl ms wt st (tz_name_of course) a0, false),
       {| db := set_assignments
                  (update_key_fields (Assignment.id a0) dl ms wt st
                     (tz_name_of course) (assignments (db w))) (db w);
          trace := trace w |})
  | _ :: _ :: _ => (inl MultipleObjectsReturned, w)
  end.
Proof.
  unfold create_or_update, get_or_create_assignment. cmd_unfold.
  destruct (filter _ (assignments (db w))) as [|a0 [|a1 l]]; reflexivity.
Qed.

End CommandFacts.

(** ** Relations every step of a command keeps *)

Section Keeps.
Variable R : World -> World -> Prop.
Hypothesis R_refl : forall w, R w w.
Hypothesis R_trans : forall a b c, R a b -> R b c -> R a c.

Lemma keeps_ret {A} (x : A) : keeps R (ret x).
Proof. intros w. apply R_refl. Qed.

Lemma keeps_raise {A} e : keeps R (@raise A e).
Proof. intros w. apply R_refl. Qed.

Lemma keeps_get_db : keeps R get_db.
Proof. intros w. apply R_refl. Qed.

Lemma keeps_bind {A B} (m : Cmd A) (k : A -> Cmd B) :
  keeps R m -> (forall x, keeps R (k x)) -> keeps R (bind m k).
Proof.
  intros Hm Hk w. unfold bind. specialize (Hm w).
  destruct (m w) as [[e|x] w1]; simpl in *; [assumption|].
  eapply R_trans; [exact Hm | apply Hk].
Qed.

Lemma keeps_for_each {A} (l : list A) (body : A -> Cmd unit) :
  (forall x, keeps R (body x)) -> keeps R (for_each l body).
Proof.
  intros Hb. induction l as [|x l IH]; simpl.
  - apply keeps_ret.
  - apply keeps_bind; auto.
Qed.
End Keeps.

Lemma same_catalogue_refl w : same_catalogue w w.
Proof. repeat split. Qed.

Lemma same_catalogue_trans a b c :
  same_catalogue a b -> same_catalogue b c -> same_catalogue a c.
Proof. unfold same_catalogue. intuition congruence. Qed.

Lemma same_comments_refl w : same_comments w w.
Proof. reflexivity. Qed.

Lemma same_comments_trans a b c :
  same_comments a b -> same_comments b c -> same_comments a c.
Proof. unfold same_comments. congruence. Qed.

Lemma trace_grows_refl w : trace_grows w w.
Proof. exists []. now rewrite app_nil_r. Qed.

Lemma trace_grows_trans a b c :
  trace_grows a b -> trace_grows b c -> trace_grows a c.
Proof.
  intros [e1 H1] [e2 H2]. exists (e1 ++ e2). now rewrite H2, H1, app_assoc.
Qed.

Lemma keeps_modify_trace f : keeps trace_grows (modify_db f).
Proof. intros w. exists []. cbn. now rewrite app_nil_r. Qed.

Lemma keeps_emit_trace e : keeps trace_grows (emit e).
Proof. intros w. now exists [e]. Qed.

Lemma keeps_modify_catalogue f :
  (forall d, courses (f d) = courses d /\ assignments (f d) = assignments d
             /\ users (f d) = users d) ->
  keeps same_catalogue (modify_db f).
Proof. intros H w. apply H. Qed.

Lemma keeps_modify_comments f :
  (forall d, comments (f d) = comments d) -> keeps same_comments (modify_db f).
Proof. intros H w. apply H. Qed.

Create HintDb keeps.

#[local] Hint Resolve same_catalogue_refl same_catalogue_trans
  same_comments_refl same_comments_trans
  trace_grows_refl trace_grows_trans : keeps.

(** Walks through a command, one construct at a time. *)
Ltac keeps_step :=
  match goal with
  | |- keeps _ (bind _ _) =>
      apply keeps_bind; [solve [eauto with keeps] | | intros ?]
  | |- keeps _ (ret _) => apply keeps_ret; solve [eauto with keeps]
  | |- keeps _ (raise _) => apply keeps_raise; solve [eauto with keeps]
  | |- keeps _ get_db => apply keeps_get_db; solve [eauto with keeps]
  | |- keeps _ (for_each _ _) =>
      apply keeps_for_each;
      [solve [eauto with keeps] | solve [eauto with keeps] | intros ?]
  | |- keeps same_catalogue (modify_db _) =>
      apply keeps_modify_catalogue; intros ?;
      try solve [cbn; repeat split; reflexivity]
  | |- keeps same_comments (modify_db _) =>
      apply keeps_modify_comments; intros ?;
      try solve [cbn; reflexivity]
  | |- keeps trace_grows (emit _) => apply keeps_emit_trace
  | |- keeps trace_grows (modify_db _) => apply keeps_modify_trace
  | |- keeps _ (stdout_write _) => unfold stdout_write
  | |- keeps _ (emit _) => intros ?; unfold emit; cbn; repeat split
  | |- keeps _ (match ?x with _ => _ end) => destruct x
  | |- keeps _ (let _ := _ in _) => cbv zeta
  end.

(** ** Commands that never raise [CommandError] *)

Lemma nce_ret {A} (x : A) : never_command_error (ret x).
Proof. intros w msg. discriminate. Qed.

Lemma nce_multiple {A} : never_command_error (@raise A MultipleObjectsReturned).
Proof. intros w msg. discriminate. Qed.

Lemma nce_get_db : never_command_error get_db.
Proof. intros w msg. discriminate. Qed.

Lemma nce_modify_db f : never_command_error (modify_db f).
Proof. intros w msg. discriminate. Qed.

Lemma nce_emit e : never_command_error (emit e).
Proof. intros w msg. discriminate. Qed.

Lemma nce_bind {A B} (m : Cmd A) (k : A -> Cmd B) :
  never_command_error m -> (forall x, never_command_error (k x)) ->
  never_command_error (bind m k).
Proof.
  intros Hm Hk w msg. unfold bind. specialize (Hm w msg).
  destruct (m w) as [[e|x] w1]; [| apply Hk].
  cbn in *. intros H. apply Hm. congruence.
Qed.

Lemma nce_for_each {A} (l : list A) (body : A -> Cmd unit) :
  (forall x, never_command_error (body x)) -> never_command_error (for_each l body).
Proof.
  intros Hb. induction l as [|x l IH]; simpl.
  - apply nce_ret.
  - apply nce_bind; auto.
Qed.

Ltac nce_step :=
  match goal with
  | |- never_command_error (bind _ _) => apply nce_bind; [| intros ?]
  | |- never_command_error (ret _) => apply nce_ret
  | |- never_command_error (raise MultipleObjectsReturned) => apply nce_multiple
  | |- never_command_error get_db => apply nce_get_db
  | |- never_command_error (modify_db _) => apply nce_modify_db
  | |- never_command_error (emit _) => apply nce_emit
  | |- never_command_error (stdout_write _) => apply nce_emit
  | |- never_command_error (for_each _ _) => apply nce_for_each; intros ?
  | |- never_command_error (match ?x with _ => _ end) => destruct x
  | |- never_command_error (let _ := _ in _) => cbv zeta
  end.

Section SeedFacts.
Context {E : Externals}.

Lemma seed_review_item_trace course assignment su tu :
  keeps trace_grows (_seed_review_item course assignment su tu).
Proof.
  unfold _seed_review_item, get_or_create_course_teacher, recalc_stats.
  repeat keeps_step.
Qed.

Lemma seed_step_trace options course assignment :
  keeps trace_grows (seed_step options course assignment).
Proof.
  unfold seed_step. repeat keeps_step. apply seed_review_item_trace.
Qed.

Lemma seed_review_item_nce course assignment su tu :
  never_command_error (_seed_review_item course assignment su tu).
Proof.
  unfold _seed_review_item, get_or_create_course_teacher, recalc_stats.
  repeat nce_step.
Qed.

Lemma seed_step_nce options course assignment :
  never_command_error (seed_step options course assignment).
Proof.
  unfold seed_step. repeat nce_step. apply seed_review_item_nce.
Qed.

Lemma follow_up_nce options course assignment created :
  never_command_error (follow_up options course assignment created).
Proof.
  unfold follow_up, recalc_all, recalc_stats. repeat nce_step.
  apply seed_step_nce.
Qed.

Lemma create_or_update_nce course title dl ms wt st :
  never_command_error (create_or_update course title dl ms wt st).
Proof.
  unfold create_or_update, get_or_create_assignment. repeat nce_step.
Qed.

End SeedFacts.

(** ** The course lookup *)

Lemma find_course_None options d :
  find_course options d = None <-> ~ course_exists options d.
Proof.
  unfold find_course, course_exists.
  destruct (course_id options) as [pk|].
  - rewrite first_None. split.
    + intros Hf (c & Hin & Hid).
      assert (In c (filter (fun c => Course.id c =? pk) (courses d))) as Hc.
      { apply filter_In. split; [assumption|]. now apply Z.eqb_eq. }
      rewrite Hf in Hc. destruct Hc.
    + intros Hn. apply filter_none. intros c Hin.
      apply Z.eqb_neq. intros Hid. apply Hn. now exists c.
  - rewrite first_desc_None. split.
    + intros Hf (c & Hin & Hname).
      match type of Hf with filter ?p _ = _ =>
        assert (In c (filter p (courses d))) as Hc end.
      { apply filter_In. split; [assumption|].
        rewrite <- Hname. apply String.eqb_refl. }
      rewrite Hf in Hc. destruct Hc.
    + intros Hn. apply filter_none. intros c Hin.
      destruct (course_name options) as [n|]; [|reflexivity].
      apply String.eqb_neq. intros Hname. apply Hn. exists c. now rewrite Hname.
Qed.

Lemma course_exists_dec options d :
  course_exists options d \/ ~ course_exists options d.
Proof.
  destruct (find_course options d) eqn:Hf.
  - left. unfold find_course, course_exists in *.
    destruct (course_id options) as [pk|].
    + apply first_spec in Hf. destruct Hf as [Hin _].
      apply filter_In in Hin. destruct Hin as [Hin Hid].
      exists t. split; [assumption | now apply Z.eqb_eq].
    + apply first_desc_spec in Hf. destruct Hf as [Hin _].
      apply filter_In in Hin. destruct Hin as [Hin Hname].
      exists t. split; [assumption|].
      destruct (course_name options) as [n|]; [|discriminate].
      apply String.eqb_eq in Hname. now rewrite Hname.
  - right. now apply find_course_None.
Qed.

(** ** What the steps leave untouched when the services write
       [StudentAssignment] rows only *)

Section FrameFacts.
Context {E : Externals}.
Hypothesis frame : services_frame E.

Lemma stats_keeps sa_id : keeps_other_tables (update_student_assignment_stats sa_id).
Proof. apply frame. Qed.

Lemma bulk_keeps a : keeps_other_tables (bulk_create_student_assignments a).
Proof. apply frame. Qed.

Ltac by_frame :=
  match goal with
  | |- context [update_student_assignment_stats ?i ?d] =>
      destruct (stats_keeps i d) as (? & ? & ? & ? & ?)
  | |- context [bulk_create_student_assignments ?a ?d] =>
      destruct (bulk_keeps a d) as (? & ? & ? & ? & ?)
  end; repeat split; assumption.

Lemma seed_review_item_catalogue course assignment su tu :
  keeps same_catalogue (_seed_review_item course assignment su tu).
Proof.
  unfold _seed_review_item, get_or_create_course_teacher, recalc_stats.
  repeat keeps_step; by_frame.
Qed.

Lemma seed_step_catalogue options course assignment :
  keeps same_catalogue (seed_step options course assignment).
Proof.
  unfold seed_step. repeat keeps_step. apply seed_review_item_catalogue.
Qed.

Lemma follow_up_catalogue options course assignment created :
  keeps same_catalogue (follow_up options course assignment created).
Proof.
  unfold follow_up, recalc_all, recalc_stats.
  repeat keeps_step; try by_frame. apply seed_step_catalogue.
Qed.

End FrameFacts.

(** ** The assignment row after a run *)

Lemma filter_update_key_fields course_pk title pk dl ms wt st tz l :
  filter (same_assignment_key course_pk title) (update_key_fields pk dl ms wt st tz l)
  = update_key_fields pk dl ms wt st tz (filter (same_assignment_key course_pk title) l).
Proof.
  unfold update_key_fields. induction l as [|a l IH]; simpl; [reflexivity|].
  assert (same_assignment_key course_pk title
            (if Assignment.id a =? pk then with_key_fields dl ms wt st tz a else a)
          = same_assignment_key course_pk title a) as Hk.
  { destruct (Assignment.id a =? pk); reflexivity. }
  rewrite Hk. destruct (same_assignment_key course_pk title a); simpl; now rewrite IH.
Qed.

Lemma update_key_fields_ids pk dl ms wt st tz l :
  map Assignment.id (update_key_fields pk dl ms wt st tz l) = map Assignment.id l.
Proof.
  unfold update_key_fields. rewrite map_map. apply map_ext. intros a.
  destruct (Assignment.id a =? pk); reflexivity.
Qed.

Lemma new_assignment_key course title dl ms wt st rows :
  same_assignment_key (Course.id course) title
    (new_assignment course title dl ms wt st rows) = true.
Proof.
  unfold same_assignment_key, new_assignment. cbn.
  now rewrite Z.eqb_refl, String.eqb_refl.
Qed.

Section AssignmentRow.
Context {E : Externals}.
Hypothesis frame : services_frame E.

(** The [Assignment] table a run leaves, when the arguments are valid. *)
Lemma handle_assignment_rows options w course dt wt :
  find_course options (db w) = Some course ->
  strptime (deadline options) = Some dt ->
  Decimal (weight options) = inr wt ->
  let title := strip (title options) in
  let dl := make_aware_utc dt in
  let ms := effective_max_score options in
  let st := submission_type options in
  let w' := snd (handle options w) in
  match filter (same_assignment_key (Course.id course) title) (assignments (db w)) with
  | [] =>
      assignments (db w')
      = assignments (db w) ++ [new_assignment course title dl ms wt st (assignments (db w))]
  | [a0] =>
      assignments (db w')
      = update_key_fields (Assignment.id a0) dl ms wt st (tz_name_of course)
          (assignments (db w))
  | _ :: _ :: _ => w' = w /\ fst (handle options w) = inl MultipleObjectsReturned
  end.
Proof.
  intros Hc Hd Hw. cbv zeta. rewrite handle_steps, Hc, Hd, Hw.
  unfold bind. rewrite create_or_update_eq.
  destruct (filter _ (assignments (db w))) as [|a0 [|a1 l]]; cbv beta iota zeta;
    cbn [fst snd].
  - match goal with |- context [follow_up ?o ?c ?a ?cr ?w0] =>
      pose proof (follow_up_catalogue frame o c a cr w0) as (_ & H & _);
      destruct (follow_up o c a cr w0) as [r w1] end.
    cbn in *. exact H.
  - match goal with |- context [follow_up ?o ?c ?a ?cr ?w0] =>
      pose proof (follow_up_catalogue frame o c a cr w0) as (_ & H & _);
      destruct (follow_up o c a cr w0) as [r w1] end.
    cbn in *. exact H.
  - split; reflexivity.
Qed.

End AssignmentRow.

(** The assignment row of a run with valid arguments. *)
Lemma assignment_row_after_run {E : Externals}
    (options : Options) (w : World) (course : Course.t)
    (dt : datetime) (wt : decimal) :
  services_frame E ->
  find_course options (db w) = Some course ->
  strptime (deadline options) = Some dt ->
  Decimal (weight options) = inr wt ->
  let key := same_assignment_key (Course.id course) (strip (title options)) in
  let score := effective_max_score options in
  let w' := snd (handle options w) in
  (filter key (assignments (db w)) = [] ->
   exists a,
     assignments (db w') = assignments (db w) ++ [a]
     /\ ~ In (Assignment.id a) (map Assignment.id (assignments (db w)))
     /\ Assignment.course a = Course.id course
     /\ Assignment.title a = strip (title options)
     /\ Assignment.deadline_at a = make_aware_utc dt
     /\ Assignment.maximum_score a = score
     /\ Assignment.weight a = wt
     /\ Assignment.submission_type a = submission_type options
     /\ Assignment.time_zone a = tz_name_of course
     /\ Assignment.assignee_mode a = MANUAL)
  /\ (forall a0, filter key (assignments (db w)) = [a0] ->
      exists a,
        filter key (assignments (db w')) = [a]
        /\ map Assignment.id (assignments (db w')) = map Assignment.id (assignments (db w))
        /\ Assignment.id a = Assignment.id a0
        /\ Assignment.text a = Assignment.text a0
        /\ Assignment.deadline_at a = make_aware_utc dt
        /\ Assignment.maximum_score a = score
        /\ Assignment.weight a = wt
        /\ Assignment.submission_type a = submission_type options
        /\ Assignment.time_zone a = tz_name_of course
        /\ Assignment.assignee_mode a = MANUAL).
Proof.
  intros frame Hc Hd Hw key score w'.
  pose proof (handle_assignment_rows frame options w course dt wt Hc Hd Hw) as H.
  cbv zeta in H. fold key in H. fold w' in H. split.
  - intros Hnone. rewrite Hnone in H. eexists. split; [exact H|].
    repeat split.
    intros Hin. apply in_map_iff in Hin. destruct Hin as (b & Hb & Hin).
    pose proof (next_pk_fresh Assignment.id _ b Hin) as Hlt.
    unfold new_assignment in Hb. cbn [Assignment.id] in Hb. lia.
  - intros a0 Hone. rewrite Hone in H.
    exists (with_key_fields (make_aware_utc dt) (effective_max_score options) wt
              (submission_type options) (tz_name_of course) a0).
    split; [|split; [|repeat split]].
    + rewrite H. unfold key. rewrite filter_update_key_fields.
      fold key. rewrite Hone. unfold update_key_fields. cbn [map].
      now rewrite Z.eqb_refl.
    + rewrite H. apply update_key_fields_ids.
Qed.


(** ** Solution comments *)

Lemma adds_before d0 d d' :
  comments d = comments d0 ->
  adds_at_most_one_solution d d' -> adds_at_most_one_solution d0 d'.
Proof.
  unfold adds_at_most_one_solution, solutions_of. intros Heq [H|(c & H1 & H2 & H3)].
  - left. congruence.
  - right. exists c. rewrite <- Heq. auto.
Qed.

Lemma adds_after d d' d1 :
  comments d1 = comments d' ->
  adds_at_most_one_solution d d' -> adds_at_most_one_solution d d1.
Proof.
  unfold adds_at_most_one_solution. intros Heq [H|(c & H1 & H2 & H3)].
  - left. congruence.
  - right. exists c. rewrite Heq. auto.
Qed.

Lemma adds_of_keeps {A} (m : Cmd A) : keeps same_comments m -> may_add_solution m.
Proof. intros H w. left. apply H. Qed.

Lemma adds_bind_l {A B} (m : Cmd A) (k : A -> Cmd B) :
  keeps same_comments m -> (forall x, may_add_solution (k x)) ->
  may_add_solution (bind m k).
Proof.
  intros Hm Hk w. unfold bind. specialize (Hm w).
  destruct (m w) as [[e|x] w1]; cbn [snd] in *.
  - left. exact Hm.
  - eapply adds_before; [exact Hm | apply Hk].
Qed.

Lemma adds_bind_r {A B} (m : Cmd A) (k : A -> Cmd B) :
  may_add_solution m -> (forall x, keeps same_comments (k x)) ->
  may_add_solution (bind m k).
Proof.
  intros Hm Hk w. unfold bind. specialize (Hm w).
  destruct (m w) as [[e|x] w1]; cbn [snd] in *.
  - exact Hm.
  - eapply adds_after; [apply (Hk x w1) | exact Hm].
Qed.

Lemma adds_get_db {B} (k : DB -> Cmd B) :
  (forall w, adds_at_most_one_solution (db w) (db (snd (k (db w) w)))) ->
  may_add_solution (bind get_db k).
Proof. intros H w. apply H. Qed.

Section SolutionFacts.
Context {E : Externals}.
Hypothesis frame : services_frame E.

Lemma recalc_stats_comments sa_id : keeps same_comments (recalc_stats sa_id).
Proof.
  unfold recalc_stats. repeat keeps_step.
  destruct (proj2 frame sa_id d) as (_ & _ & _ & _ & H). exact H.
Qed.

Lemma stats_db_keeps l : keeps_other_tables (stats_db l).
Proof.
  unfold stats_db. induction l as [|sa l IH]; intros d; simpl; [tauto|].
  destruct (IH (update_student_assignment_stats (StudentAssignment.id sa) d))
    as (H1 & H2 & H3 & H4 & H5).
  destruct (proj2 frame (StudentAssignment.id sa) d) as (K1 & K2 & K3 & K4 & K5).
  repeat split; congruence.
Qed.

Lemma before_seed_comments a w :
  comments (db (before_seed a w)) = comments (db w).
Proof.
  unfold before_seed. cbn [db].
  match goal with |- context [stats_db ?l ?d] =>
    destruct (stats_db_keeps l d) as (_ & _ & _ & _ & H) end.
  destruct (proj1 frame a (db w)) as (_ & _ & _ & _ & K). congruence.
Qed.

Lemma seed_review_item_adds course assignment su tu :
  may_add_solution (_seed_review_item course assignment su tu).
Proof.
  unfold _seed_review_item.
  apply adds_bind_l; [repeat keeps_step | intros d0].
  destruct (user_by_username su d0) as [student|];
    [destruct (user_by_username tu d0) as [teacher|]|];
    try solve [apply adds_of_keeps; repeat keeps_step].
  apply adds_bind_l;
    [unfold get_or_create_course_teacher; repeat keeps_step | intros ct].
  apply adds_bind_l; [repeat keeps_step | intros _].
  apply adds_bind_l; [repeat keeps_step | intros d1].
  destruct (QuerySet.first StudentAssignment.id _) as [sa|];
    [| apply adds_of_keeps; repeat keeps_step].
  apply adds_bind_l; [repeat keeps_step | intros _].
  apply adds_get_db. intros w.
  destruct (QuerySet.first AssignmentComment.id
              (filter (is_solution_of (StudentAssignment.id sa)) (comments (db w))))
    as [sol|] eqn:Hsol.
  - assert (keeps same_comments
              (bind (ret sol) (fun solution =>
                 bind (recalc_stats (StudentAssignment.id sa)) (fun _ =>
                   stdout_write (SUCCESS_review (StudentAssignment.id sa)
                                   (AssignmentComment.id solution)))))) as Hk.
    { repeat keeps_step. apply recalc_stats_comments. }
    left. apply Hk.
  - apply first_None in Hsol.
    match goal with |- context [bind ?m ?k] =>
      assert (keeps_tail : forall x, keeps same_comments (k x)) end.
    { intros x. repeat keeps_step. apply recalc_stats_comments. }
    pose (sol := {| AssignmentComment.id :=
                      QuerySet.next_pk AssignmentComment.id (comments (db w));
                    AssignmentComment.student_assignment := StudentAssignment.id sa;
                    AssignmentComment.type := SOLUTION;
                    AssignmentComment.text := "Seeded solution for review";
                    AssignmentComment.author := User.id student;
                    AssignmentComment.is_published := true |}).
    pose (wm := {| db := set_comments (comments (db w) ++ [sol]) (db w);
                   trace := trace w |}).
    pose proof (keeps_tail sol wm) as Hrest.
    right. exists sol. split; [exact Hrest|]. split; [reflexivity | exact Hsol].
Qed.

Lemma seed_step_adds options course assignment :
  may_add_solution (seed_step options course assignment).
Proof.
  unfold seed_step.
  destruct (seed_review options); [|apply adds_of_keeps; repeat keeps_step].
  destruct (usernames options) as [[su tu]|];
    [apply seed_review_item_adds | apply adds_of_keeps; repeat keeps_step].
Qed.

(** A run adds at most one solution comment, and only where none was. *)
Lemma handle_adds options : may_add_solution (handle options).
Proof.
  intros w. rewrite handle_steps.
  destruct (find_course options (db w)) as [course|]; [|now left].
  destruct (strptime (deadline options)) as [dt|]; [|now left].
  destruct (Decimal (weight options)) as [e|wt]; [now left|].
  unfold bind. rewrite create_or_update_eq.
  destruct (filter _ (assignments (db w))) as [|a0 [|a1 l]]; cbv beta iota zeta;
    cbn [fst snd]; [| |now left].
  - rewrite follow_up_eq.
    match goal with |- context [seed_step ?o ?c ?a ?w0] =>
      pose proof (seed_step_adds o c a w0) as H;
      destruct (seed_step o c a w0) as [[e|[]] w2] end;
    cbn [fst snd say db] in *;
    (eapply adds_before; [|exact H]); now rewrite before_seed_comments.
  - rewrite follow_up_eq.
    match goal with |- context [seed_step ?o ?c ?a ?w0] =>
      pose proof (seed_step_adds o c a w0) as H;
      destruct (seed_step o c a w0) as [[e|[]] w2] end;
    cbn [fst snd say db] in *;
    (eapply adds_before; [|exact H]); now rewrite before_seed_comments.
Qed.

End SolutionFacts.

(** ** Two runs in a row *)

Lemma find_course_ext options d d' :
  courses d' = courses d -> find_course options d' = find_course options d.
Proof. intros H. unfold find_course. now rewrite H. Qed.

Lemma solutions_after d d' sa_pk :
  adds_at_most_one_solution d d' ->
  (solutions_of sa_pk d <> [] -> solutions_of sa_pk d' = solutions_of sa_pk d)
  /\ ((List.length (solutions_of sa_pk d) <= 1)%nat ->
      (List.length (solutions_of sa_pk d') <= 1)%nat).
Proof.
  unfold adds_at_most_one_solution, solutions_of.
  intros [H|(c & H1 & H2 & H3)].
  - rewrite H. auto.
  - rewrite H1, filter_app. cbn [filter].
    assert (is_solution_of sa_pk c
            = (AssignmentComment.student_assignment c =? sa_pk)) as Hk.
    { unfold is_solution_of. rewrite H2. apply andb_true_r. }
    rewrite Hk.
    destruct (AssignmentComment.student_assignment c =? sa_pk) eqn:Hc.
    + apply Z.eqb_eq in Hc. rewrite Hc in H3. rewrite H3. cbn. split; [congruence | lia].
    + rewrite app_nil_r. auto.
Qed.

Section TwoRuns.
Context {E : Externals}.
Hypothesis frame : services_frame E.

Lemma handle_courses options w :
  courses (db (snd (handle options w))) = courses (db w).
Proof.
  rewrite handle_steps.
  destruct (find_course options (db w)) as [course|]; [|reflexivity].
  destruct (strptime (deadline options)) as [dt|]; [|reflexivity].
  destruct (Decimal (weight options)) as [e|wt]; [reflexivity|].
  unfold bind. rewrite create_or_update_eq.
  destruct (filter _ (assignments (db w))) as [|a0 [|a1 l]]; cbv beta iota zeta;
    cbn [fst snd]; [| |reflexivity];
    match goal with |- context [follow_up ?o ?c ?a ?cr ?w0] =>
      pose proof (follow_up_catalogue frame o c a cr w0) as (H & _ & _) end;
    exact H.
Qed.

(** After a run with valid arguments that found at most one row for its
    key, there is one row for that key. *)
Lemma key_row_after_run options w course dt wt :
  find_course options (db w) = Some course ->
  strptime (deadline options) = Some dt ->
  Decimal (weight options) = inr wt ->
  (List.length (filter (same_assignment_key (Course.id course) (strip (title options)))
                  (assignments (db w))) <= 1)%nat ->
  exists a,
    filter (same_assignment_key (Course.id course) (strip (title options)))
           (assignments (db (snd (handle options w)))) = [a]
    /\ Assignment.maximum_score a = effective_max_score options.
Proof.
  intros Hc Hd Hw Hlen.
  destruct (assignment_row_after_run options w course dt wt frame Hc Hd Hw)
    as [Hnew Hupd].
  cbv zeta in Hnew, Hupd.
  destruct (filter _ (assignments (db w))) as [|a0 [|a1 l]] eqn:Hf.
  - destruct (Hnew eq_refl) as (a & Hrows & _ & Hco & Hti & _ & Hms & _).
    exists a. split; [|exact Hms].
    rewrite Hrows, filter_app, Hf. cbn [filter app].
    unfold same_assignment_key. now rewrite Hco, Hti, Z.eqb_refl, String.eqb_refl.
  - destruct (Hupd a0 eq_refl) as (a & Hrows & _ & _ & _ & _ & Hms & _).
    exists a. now split.
  - cbn in Hlen. lia.
Qed.

(** The second of two runs with the same options adds no [Assignment]:
    row for row it leaves the primary key, the course and the title. *)
Lemma second_run_rows options w :
  let w1 := snd (handle options w) in
  let w2 := snd (handle options w1) in
  exists f,
    assignments (db w2) = map f (assignments (db w1))
    /\ forall a, Assignment.id (f a) = Assignment.id a
                 /\ Assignment.course (f a) = Assignment.course a
                 /\ Assignment.title (f a) = Assignment.title a.
Proof.
  cbv zeta.
  assert (forall w0 : World, snd (handle options w) = w0 ->
          snd (handle options w0) = w0 ->
          exists f,
            assignments (db (snd (handle options (snd (handle options w)))))
            = map f (assignments (db (snd (handle options w))))
            /\ forall a, Assignment.id (f a) = Assignment.id a
                         /\ Assignment.course (f a) = Assignment.course a
                         /\ Assignment.title (f a) = Assignment.title a) as Hsame.
  { intros w0 H1 H2. exists (fun a => a). rewrite H1, H2, map_id. auto. }
  pose proof (handle_courses options w) as Hcourses.
  pose proof (find_course_ext options _ _ Hcourses) as Hfind.
  pose proof (handle_steps options w) as Hrun.
  destruct (find_course options (db w)) as [course|] eqn:Hc.
  2:{ apply (Hsame w); [now rewrite Hrun | now rewrite handle_steps, Hc]. }
  destruct (strptime (deadline options)) as [dt|] eqn:Hd.
  2:{ apply (Hsame w); [now rewrite Hrun | now rewrite handle_steps, Hc, Hd]. }
  destruct (Decimal (weight options)) as [e|wt] eqn:Hw.
  1:{ apply (Hsame w); [now rewrite Hrun | now rewrite handle_steps, Hc, Hd, Hw]. }
  clear Hrun.
  pose proof (handle_assignment_rows frame options w course dt wt Hc Hd Hw) as H1.
  cbv zeta in H1.
  destruct (filter (same_assignment_key (Course.id course) (strip (title options)))
              (assignments (db w))) as [|a0 [|a1 l]] eqn:Hf.
  3:{ destruct H1 as [H1 _]. apply (Hsame w); [exact H1|].
      pose proof (handle_assignment_rows frame options w course dt wt Hc Hd Hw) as H2.
      cbv zeta in H2. rewrite Hf in H2. apply H2. }
  all: assert (exists a,
                  filter (same_assignment_key (Course.id course) (strip (title options)))
                    (assignments (db (snd (handle options w)))) = [a]) as [a Ha]
    by (destruct (key_row_after_run options w course dt wt Hc Hd Hw) as (a & Ha & _);
        [rewrite Hf; cbn; lia | now exists a]).
  all: pose proof (handle_assignment_rows frame options (snd (handle options w))
                     course dt wt Hfind Hd Hw) as H2;
    cbv zeta in H2; rewrite Ha in H2; rewrite H2;
    eexists; (split; [reflexivity|]);
    intros x; cbv beta; destruct (Assignment.id x =? Assignment.id a); auto.
Qed.

End TwoRuns.


(* ===================================================================== *)
(** * More facts about rows and primary keys *)
(* ===================================================================== *)

Section RowFacts.
Context {A : Type} (key : A -> Z).

Lemma same_key_same_row l x y :
  NoDup (map key l) -> In x l -> In y l -> key x = key y -> x = y.
Proof.
  induction l as [|z l IH]; cbn [map In]; [tauto|].
  intros Hnd Hx Hy Heq. inversion Hnd as [|? ? Hz Hnd']; subst.
  destruct Hx as [->|Hx], Hy as [->|Hy]; try reflexivity.
  - exfalso. apply Hz. rewrite Heq. now apply in_map.
  - exfalso. apply Hz. rewrite <- Heq. now apply in_map.
  - now apply IH.
Qed.

Lemma save_other x l :
  (forall y, In y l -> key y <> key x) -> QuerySet.save key x l = l.
Proof.
  unfold QuerySet.save. induction l as [|z l IH]; cbn [map]; [reflexivity|].
  intros H. rewrite IH by (intros y Hy; apply H; now right).
  destruct (key z =? key x) eqn:Hc; [|reflexivity].
  apply Z.eqb_eq in Hc. exfalso. apply (H z); [now left | assumption].
Qed.

Lemma save_app x l1 l2 :
  QuerySet.save key x (l1 ++ l2) = QuerySet.save key x l1 ++ QuerySet.save key x l2.
Proof. unfold QuerySet.save. apply map_app. Qed.

Lemma save_In x x0 l :
  In x0 l -> key x0 = key x -> In x (QuerySet.save key x l).
Proof.
  intros Hin Heq. unfold QuerySet.save. apply in_map_iff. exists x0.
  split; [|assumption]. apply Z.eqb_eq in Heq. now rewrite Heq.
Qed.

Lemma save_keeps_others x l y :
  key y <> key x -> In y l -> In y (QuerySet.save key x l).
Proof.
  intros Hne Hin. unfold QuerySet.save. apply in_map_iff. exists y.
  split; [|assumption]. apply Z.eqb_neq in Hne. now rewrite Hne.
Qed.

Lemma NoDup_fresh l x :
  NoDup (map key l) -> key x = QuerySet.next_pk key l ->
  NoDup (map key (l ++ [x])).
Proof.
  intros Hnd Hx. rewrite map_app. cbn [map].
  apply NoDup_app.
  - assumption.
  - repeat constructor. intros [].
  - intros k Hk [<-|[]]. apply in_map_iff in Hk. destruct Hk as (y & Hy & Hin).
    pose proof (next_pk_fresh key l y Hin). lia.
Qed.

End RowFacts.

(* ===================================================================== *)
(** * More facts about the seeding step *)
(* ===================================================================== *)

Section SeedOutcomeFacts.
Context {E : Externals}.

(** What [_seed_review_item] does once both users are found and the
    course-teacher link is not ambiguous. *)
Lemma seed_review_item_outcome course a su tu w student teacher :
  user_by_username su (db w) = Some student ->
  user_by_username tu (db w) = Some teacher ->
  (List.length (filter (same_course_teacher (Course.id course) (User.id teacher))
                  (course_teachers (db w))) <= 1)%nat ->
  let ct := linked_teacher (Course.id course) (User.id teacher)
              (course_teachers (db w)) in
  let cts := course_teachers_after (Course.id course) (User.id teacher)
               (course_teachers (db w)) in
  exists w',
    _seed_review_item course a su tu w = (inr tt, w')
    /\ match student_assignment_of (Assignment.id a) (User.id student) (db w) with
       | None =>
           course_teachers (db w') = cts
           /\ courses (db w') = courses (db w)
           /\ assignments (db w') = assignments (db w)
           /\ users (db w') = users (db w)
           /\ student_assignments (db w') = student_assignments (db w)
           /\ comments (db w') = comments (db w)
           /\ trace w' = trace w
                ++ [Stdout (WARNING "StudentAssignment not found; skipping review seed.")]
       | Some sa =>
           let solution := seeded_solution (StudentAssignment.id sa) (User.id student)
                             (comments (db w)) in
           exists d,
             db w' = update_student_assignment_stats (StudentAssignment.id sa) d
             /\ course_teachers d = cts
             /\ student_assignments d
                = update_assignee_status (StudentAssignment.id sa)
                    (Some (CourseTeacher.id ct)) ON_CHECKING
                    (student_assignments (db w))
             /\ comments d
                = comments_after (StudentAssignment.id sa) (User.id student)
                    (comments (db w))
             /\ courses d = courses (db w)
             /\ assignments d = assignments (db w)
             /\ users d = users (db w)
             /\ trace w' = trace w
                  ++ [Call_update_stats (StudentAssignment.id sa);
                      Stdout (SUCCESS_review (StudentAssignment.id sa)
                                (AssignmentComment.id solution))]
       end.
Proof.
  intros Hs Ht Hlen. cbv zeta.
  unfold _seed_review_item. unfold bind at 1. unfold get_db at 1.
  rewrite Hs, Ht.
  unfold student_assignment_of, course_teachers_after, linked_teacher,
    comments_after, seeded_solution.
  unfold get_or_create_course_teacher, recalc_stats. cmd_unfold. cbn [db trace].
  destruct (filter _ (course_teachers (db w))) as [|ct0 [|ct1 cts]];
    [| |cbn in Hlen; lia];
    cbn [fst snd db trace];
    destruct bitfield_api;
    cbn [fst snd db trace student_assignments set_course_teachers course_teachers];
    (destruct (QuerySet.first StudentAssignment.id _) as [sa|];
     cbn [fst snd db trace];
     [ cbn [comments set_student_assignments set_course_teachers];
       destruct (QuerySet.first AssignmentComment.id _) as [sol|];
       cbn [fst snd db trace];
       eexists; (split; [reflexivity|]); eexists; (split; [reflexivity|]);
       cbn; rewrite <- app_assoc; repeat split
     | eexists; (split; [reflexivity|]); cbn; repeat split ]).
Qed.
End SeedOutcomeFacts.

Section LinkFacts.
Context {E : Externals}.

Lemma with_roles_link course_pk teacher_pk ct :
  same_course_teacher course_pk teacher_pk (with_roles ct)
  = same_course_teacher course_pk teacher_pk ct.
Proof. reflexivity. Qed.

(** After lines 169-177 there is a row of the link that has the primary
    key of the link object. *)
Lemma linked_teacher_row course_pk teacher_pk rows :
  (List.length (filter (same_course_teacher course_pk teacher_pk) rows) <= 1)%nat ->
  exists row,
    In row (course_teachers_after course_pk teacher_pk rows)
    /\ CourseTeacher.id row
       = CourseTeacher.id (linked_teacher course_pk teacher_pk rows)
    /\ CourseTeacher.course row = course_pk
    /\ CourseTeacher.teacher row = teacher_pk
    /\ (bitfield_api = true ->
        CourseTeacher.reviewer row = true /\ CourseTeacher.lecturer row = true).
Proof.
  intros Hlen. unfold course_teachers_after, linked_teacher.
  destruct (filter (same_course_teacher course_pk teacher_pk) rows)
    as [|ct [|ct1 l]] eqn:Hf; [| |cbn in Hlen; lia].
  - destruct bitfield_api.
    + eexists. split.
      * eapply save_In; [apply in_or_app; right; left; reflexivity | reflexivity].
      * cbn. repeat split.
    + eexists. split; [apply in_or_app; right; left; reflexivity|].
      cbn. repeat split; discriminate.
  - assert (In ct rows /\ same_course_teacher course_pk teacher_pk ct = true)
      as [Hin Hlink].
    { apply filter_In. rewrite Hf. now left. }
    unfold same_course_teacher in Hlink. apply andb_true_iff in Hlink.
    destruct Hlink as [Hc Ht]. apply Z.eqb_eq in Hc, Ht.
    destruct bitfield_api.
    + exists (with_roles ct). split.
      * eapply save_In; [exact Hin | reflexivity].
      * cbn. repeat split; assumption.
    + exists ct. repeat split; try assumption; discriminate.
Qed.

(** With unique primary keys and at most one row of the link before,
    there is exactly one after, the keys stay unique and the rows of
    other links stay. *)
Lemma course_teachers_after_unique course_pk teacher_pk rows :
  NoDup (map CourseTeacher.id rows) ->
  (List.length (filter (same_course_teacher course_pk teacher_pk) rows) <= 1)%nat ->
  let after := course_teachers_after course_pk teacher_pk rows in
  (exists row, filter (same_course_teacher course_pk teacher_pk) after = [row])
  /\ NoDup (map CourseTeacher.id after)
  /\ (forall r, same_course_teacher course_pk teacher_pk r = false ->
                (In r after <-> In r rows)).
Proof.
  intros Hnd Hlen. cbv zeta. unfold course_teachers_after, linked_teacher.
  destruct (filter (same_course_teacher course_pk teacher_pk) rows)
    as [|ct [|ct1 l]] eqn:Hf; [| |cbn in Hlen; lia].
  - set (new := {| CourseTeacher.id := QuerySet.next_pk CourseTeacher.id rows;
                   CourseTeacher.course := course_pk;
                   CourseTeacher.teacher := teacher_pk;
                   CourseTeacher.reviewer := false;
                   CourseTeacher.lecturer := false |}).
    assert (same_course_teacher course_pk teacher_pk new = true) as Hnew.
    { unfold same_course_teacher, new. cbn. now rewrite !Z.eqb_refl. }
    assert (QuerySet.save CourseTeacher.id (with_roles new) (rows ++ [new])
            = rows ++ [with_roles new]) as Hsave.
    { rewrite save_app, save_other.
      - unfold QuerySet.save. cbn [map]. now rewrite Z.eqb_refl.
      - intros y Hy. pose proof (next_pk_fresh CourseTeacher.id rows y Hy).
        change (CourseTeacher.id (with_roles new))
          with (QuerySet.next_pk CourseTeacher.id rows). lia. }
    assert (forall x, CourseTeacher.id x = QuerySet.next_pk CourseTeacher.id rows ->
                      same_course_teacher course_pk teacher_pk x = true ->
                      (exists row, filter (same_course_teacher course_pk teacher_pk)
                                     (rows ++ [x]) = [row])
                      /\ NoDup (map CourseTeacher.id (rows ++ [x]))
                      /\ (forall r, same_course_teacher course_pk teacher_pk r = false ->
                                    (In r (rows ++ [x]) <-> In r rows))) as Hboth.
    { intros x Hid Hx. split; [|split].
      - exists x. rewrite filter_app, Hf. cbn [filter app]. now rewrite Hx.
      - now apply NoDup_fresh.
      - intros r Hr. rewrite in_app_iff. cbn [In]. split; [|tauto].
        intros [H|[<-|[]]]; [assumption | congruence]. }
    destruct bitfield_api.
    + rewrite Hsave. apply Hboth; [reflexivity | exact Hnew].
    + apply Hboth; [reflexivity | exact Hnew].
  - assert (In ct rows /\ same_course_teacher course_pk teacher_pk ct = true)
      as [Hin Hlink].
    { apply filter_In. rewrite Hf. now left. }
    destruct bitfield_api.
    2:{ split; [now exists ct | split; [assumption | tauto]]. }
    assert (forall y, In y rows ->
              (if CourseTeacher.id y =? CourseTeacher.id (with_roles ct)
               then with_roles ct else y)
              = (if same_course_teacher course_pk teacher_pk y
                 then with_roles y else y)) as Hmap.
    { intros y Hy. change (CourseTeacher.id (with_roles ct)) with (CourseTeacher.id ct).
      destruct (CourseTeacher.id y =? CourseTeacher.id ct) eqn:Hc.
      - apply Z.eqb_eq in Hc.
        rewrite (same_key_same_row CourseTeacher.id rows y ct Hnd Hy Hin Hc).
        now rewrite Hlink.
      - destruct (same_course_teacher course_pk teacher_pk y) eqn:Hl; [|reflexivity].
        assert (In y (filter (same_course_teacher course_pk teacher_pk) rows)) as Hyf
          by (apply filter_In; now split).
        rewrite Hf in Hyf. destruct Hyf as [<-|[]].
        rewrite Z.eqb_refl in Hc. discriminate. }
    assert (QuerySet.save CourseTeacher.id (with_roles ct) rows
            = map (fun y => if same_course_teacher course_pk teacher_pk y
                            then with_roles y else y) rows) as Hsave.
    { unfold QuerySet.save. apply map_ext_in. exact Hmap. }
    split; [|split].
    + exists (with_roles ct). rewrite Hsave.
      assert (forall l0,
                filter (same_course_teacher course_pk teacher_pk)
                  (map (fun y => if same_course_teacher course_pk teacher_pk y
                                 then with_roles y else y) l0)
                = map with_roles (filter (same_course_teacher course_pk teacher_pk) l0))
        as Hfm.
      { induction l0 as [|z l0 IH]; [reflexivity|]. cbn [map filter].
        destruct (same_course_teacher course_pk teacher_pk z) eqn:Hz.
        - rewrite with_roles_link, Hz. cbn [map]. now rewrite IH.
        - rewrite Hz. exact IH. }
      rewrite Hfm, Hf. reflexivity.
    + now rewrite save_keys.
    + intros r Hr. rewrite Hsave, in_map_iff. split.
      * intros (y & Hy & Hyin).
        destruct (same_course_teacher course_pk teacher_pk y) eqn:Hl.
        -- subst r. rewrite with_roles_link in Hr. congruence.
        -- now subst r.
      * intros Hrin. exists r. now rewrite Hr.
Qed.

End LinkFacts.

Lemma update_assignee_status_spec pk assignee status rows :
  let after := update_assignee_status pk assignee status rows in
  map StudentAssignment.id after = map StudentAssignment.id rows
  /\ (forall r, In r after -> StudentAssignment.id r = pk ->
                StudentAssignment.assignee r = assignee
                /\ StudentAssignment.status r = status)
  /\ (forall r, StudentAssignment.id r <> pk -> (In r after <-> In r rows))
  /\ (forall r, In r rows -> StudentAssignment.id r = pk ->
                exists r', In r' after
                           /\ StudentAssignment.id r' = pk
                           /\ StudentAssignment.assignment r'
                              = StudentAssignment.assignment r
                           /\ StudentAssignment.student r'
                              = StudentAssignment.student r).
Proof.
  cbv zeta. unfold update_assignee_status. split; [|split; [|split]].
  - rewrite map_map. apply map_ext. intros r.
    destruct (StudentAssignment.id r =? pk); reflexivity.
  - intros r Hin Hid. apply in_map_iff in Hin. destruct Hin as (y & Hy & _).
    destruct (StudentAssignment.id y =? pk) eqn:Hc; [now subst r|].
    subst r. apply Z.eqb_neq in Hc. contradiction.
  - intros r Hne. split.
    + intros Hin. apply in_map_iff in Hin. destruct Hin as (y & Hy & Hyin).
      destruct (StudentAssignment.id y =? pk) eqn:Hc; [|now subst r].
      subst r. cbn in Hne. apply Z.eqb_eq in Hc. contradiction.
    + intros Hin. apply in_map_iff. exists r. split; [|assumption].
      apply Z.eqb_neq in Hne. now rewrite Hne.
  - intros r Hin Hid. eexists. split.
    + apply in_map_iff. exists r. split; [|exact Hin].
      apply Z.eqb_eq in Hid. rewrite Hid. reflexivity.
    + cbn. repeat split. assumption.
Qed.

Lemma seeded_solution_spec sa_pk student_pk rows :
  let solution := seeded_solution sa_pk student_pk rows in
  let after := comments_after sa_pk student_pk rows in
  QuerySet.first AssignmentComment.id (filter (is_solution_of sa_pk) after)
  = Some solution
  /\ In solution after
  /\ AssignmentComment.type solution = SOLUTION
  /\ AssignmentComment.student_assignment solution = sa_pk
  /\ (filter (is_solution_of sa_pk) rows = [] ->
      after = rows ++ [solution]
      /\ ~ In (AssignmentComment.id solution) (map AssignmentComment.id rows)
      /\ AssignmentComment.text solution = "Seeded solution for review"
      /\ AssignmentComment.author solution = student_pk
      /\ AssignmentComment.is_published solution = true)
  /\ (filter (is_solution_of sa_pk) rows <> [] ->
      after = rows /\ In solution rows).
Proof.
  cbv zeta. unfold comments_after, seeded_solution.
  destruct (QuerySet.first AssignmentComment.id (filter (is_solution_of sa_pk) rows))
    as [sol|] eqn:Hfirst.
  - pose proof (first_spec _ _ _ Hfirst) as [Hin _].
    apply filter_In in Hin. destruct Hin as [Hin Hsol].
    unfold is_solution_of in Hsol. apply andb_true_iff in Hsol.
    destruct Hsol as [Hsa Hty]. apply Z.eqb_eq in Hsa.
    split; [exact Hfirst|]. split; [assumption|]. split.
    { destruct (AssignmentComment.type sol); [reflexivity | discriminate]. }
    split; [assumption|]. split.
    + intros Hnone. rewrite Hnone in Hfirst. discriminate.
    + intros _. now split.
  - apply first_None in Hfirst.
    set (new := {| AssignmentComment.id := QuerySet.next_pk AssignmentComment.id rows;
                   AssignmentComment.student_assignment := sa_pk;
                   AssignmentComment.type := SOLUTION;
                   AssignmentComment.text := "Seeded solution for review";
                   AssignmentComment.author := student_pk;
                   AssignmentComment.is_published := true |}).
    assert (is_solution_of sa_pk new = true) as Hnew.
    { unfold is_solution_of, new. cbn. now rewrite Z.eqb_refl. }
    split; [|split; [|split; [reflexivity|split; [reflexivity|split]]]].
    + rewrite filter_app, Hfirst. cbn [filter app]. now rewrite Hnew.
    + apply in_or_app. right. now left.
    + intros _. split; [reflexivity|]. split; [|repeat split].
      intros Hin. apply in_map_iff in Hin. destruct Hin as (y & Hy & Hin).
      pose proof (next_pk_fresh AssignmentComment.id rows y Hin).
      change (AssignmentComment.id new)
        with (QuerySet.next_pk AssignmentComment.id rows) in Hy. lia.
    + intros Hne. contradiction.
Qed.

(* ===================================================================== *)
(** * More facts about a whole run *)
(* ===================================================================== *)

Section RunFacts.
Context {E : Externals}.

(** A run with valid arguments that finds at most one row for its key:
    the assignment it works on, and the rest of the run. *)
Lemma handle_outcome options w course dt wt :
  find_course options (db w) = Some course ->
  strptime (deadline options) = Some dt ->
  Decimal (weight options) = inr wt ->
  (List.length (filter (same_assignment_key (Course.id course) (strip (title options)))
                  (assignments (db w))) <= 1)%nat ->
  exists a created w1,
    handle options w
    = match seed_step options course a (before_seed a w1) with
      | (inl e, w2) => (inl e, w2)
      | (inr _, w2) => (inr tt, say (success_of a created) w2)
      end
    /\ handle (without_seed_review options) w
       = (inr tt, say (success_of a created) (before_seed a w1))
    /\ trace w1 = trace w
    /\ courses (db w1) = courses (db w)
    /\ users (db w1) = users (db w)
    /\ course_teachers (db w1) = course_teachers (db w)
    /\ student_assignments (db w1) = student_assignments (db w)
    /\ comments (db w1) = comments (db w)
    /\ Assignment.title a = strip (title options)
    /\ Assignment.course a = Course.id course
    /\ Assignment.deadline_at a = make_aware_utc dt
    /\ (created = true ->
        filter (same_assignment_key (Course.id course) (strip (title options)))
               (assignments (db w)) = []
        /\ Assignment.id a = QuerySet.next_pk Assignment.id (assignments (db w))
        /\ assignments (db w1) = assignments (db w) ++ [a])
    /\ (created = false ->
        exists a0,
          filter (same_assignment_key (Course.id course) (strip (title options)))
                 (assignments (db w)) = [a0]
          /\ Assignment.id a = Assignment.id a0
          /\ assignments (db w1)
             = update_key_fields (Assignment.id a0) (make_aware_utc dt)
                 (effective_max_score options) wt (submission_type options)
                 (tz_name_of course) (assignments (db w))).
Proof.
  intros Hc Hd Hw Hlen.
  assert (forall a created w1,
            follow_up (without_seed_review options) course a created w1
            = (inr tt, say (success_of a created) (before_seed a w1))) as Hoff.
  { intros a created w1. now rewrite follow_up_eq. }
  rewrite (handle_steps (without_seed_review options)).
  change (find_course (without_seed_review options) (db w))
    with (find_course options (db w)).
  cbn [without_seed_review deadline weight title submission_type].
  change (effective_max_score (without_seed_review options))
    with (effective_max_score options).
  rewrite handle_steps, Hc, Hd, Hw.
  unfold bind. rewrite create_or_update_eq.
  destruct (filter _ (assignments (db w))) as [|a0 [|a1 l]] eqn:Hf;
    [| |cbn in Hlen; lia]; cbv beta iota zeta; cbn [fst snd].
  - eexists _, true, _. split; [apply follow_up_eq|]. split; [apply Hoff|].
    cbn. repeat split; try discriminate.
  - assert (In a0 (assignments (db w))
            /\ same_assignment_key (Course.id course) (strip (title options)) a0 = true)
      as [_ Hkey].
    { apply filter_In. rewrite Hf. now left. }
    unfold same_assignment_key in Hkey. apply andb_true_iff in Hkey.
    destruct Hkey as [Hk1 Hk2]. apply Z.eqb_eq in Hk1. apply String.eqb_eq in Hk2.
    eexists _, false, _. split; [apply follow_up_eq|]. split; [apply Hoff|].
    cbn. repeat split; try assumption; try discriminate.
    intros _. exists a0. repeat split.
Qed.

(** A run that returns normally had valid arguments and at most one row
    for its key. *)
Lemma handle_success_valid options w w' :
  handle options w = (inr tt, w') ->
  exists course dt wt,
    find_course options (db w) = Some course
    /\ strptime (deadline options) = Some dt
    /\ Decimal (weight options) = inr wt
    /\ (List.length (filter (same_assignment_key (Course.id course)
                               (strip (title options)))
                       (assignments (db w))) <= 1)%nat.
Proof.
  rewrite handle_steps.
  destruct (find_course options (db w)) as [course|]; [|discriminate].
  destruct (strptime (deadline options)) as [dt|]; [|discriminate].
  destruct (Decimal (weight options)) as [e|wt]; [discriminate|].
  unfold bind. rewrite create_or_update_eq.
  destruct (filter _ (assignments (db w))) as [|a0 [|a1 l]] eqn:Hf;
    [| |discriminate]; intros _; exists course, dt, wt; rewrite Hf; cbn;
    repeat split; lia.
Qed.

(** An ambiguous course-teacher link stops the seeding where it is. *)
Lemma seed_review_item_ambiguous course a su tu w student teacher :
  user_by_username su (db w) = Some student ->
  user_by_username tu (db w) = Some teacher ->
  (2 <= List.length (filter (same_course_teacher (Course.id course) (User.id teacher))
                       (course_teachers (db w))))%nat ->
  _seed_review_item course a su tu w = (inl MultipleObjectsReturned, w).
Proof.
  intros Hs Ht Hlen. unfold _seed_review_item. unfold bind at 1. unfold get_db at 1.
  rewrite Hs, Ht. unfold get_or_create_course_teacher. cmd_unfold.
  destruct (filter _ (course_teachers (db w))) as [|c0 [|c1 l]];
    [cbn in Hlen; lia | cbn in Hlen; lia | reflexivity].
Qed.

(** Two or more rows for the key stop the run before it writes. *)
Lemma duplicate_rows_raise options w course dt wt :
  find_course options (db w) = Some course ->
  strptime (deadline options) = Some dt ->
  Decimal (weight options) = inr wt ->
  (2 <= List.length (filter (same_assignment_key (Course.id course)
                               (strip (title options)))
                       (assignments (db w))))%nat ->
  handle options w = (inl MultipleObjectsReturned, w).
Proof.
  intros Hc Hd Hw Hlen. rewrite handle_steps, Hc, Hd, Hw.
  unfold bind. rewrite create_or_update_eq.
  destruct (filter _ (assignments (db w))) as [|a0 [|a1 l]];
    [cbn in Hlen; lia | cbn in Hlen; lia | reflexivity].
Qed.

(** A user that is not found ends the seeding with a warning. *)
Lemma seed_review_item_missing_user course a su tu w :
  user_by_username su (db w) = None \/ user_by_username tu (db w) = None ->
  _seed_review_item course a su tu w
  = (inr tt, say (Stdout (WARNING "Student or teacher not found; skipping review seed.")) w).
Proof.
  intros H. unfold _seed_review_item. unfold bind at 1. unfold get_db at 1.
  destruct (user_by_username su (db w)) as [student|];
    destruct (user_by_username tu (db w)) as [teacher|];
    try reflexivity.
  destruct H; discriminate.
Qed.

(** The three ways the seeding step ends when [--seed-review] is given:
    with one warning, with an ambiguous link, or with a seeded review. *)
Lemma seed_step_cases options course a w :
  seed_review options = true ->
  (exists warning w2,
      seed_step options course a w = (inr tt, w2)
      /\ trace w2 = trace w ++ [Stdout (WARNING warning)]
      /\ (usernames options = None \/
          exists su tu, usernames options = Some (su, tu)
            /\ (user_by_username su (db w) = None
                \/ user_by_username tu (db w) = None
                \/ exists student,
                     user_by_username su (db w) = Some student
                     /\ student_assignment_of (Assignment.id a) (User.id student)
                          (db w) = None)))
  \/ (seed_step options course a w = (inl MultipleObjectsReturned, w))
  \/ (exists su tu student teacher sa w2,
        usernames options = Some (su, tu)
        /\ user_by_username su (db w) = Some student
        /\ user_by_username tu (db w) = Some teacher
        /\ (List.length (filter (same_course_teacher (Course.id course)
                                   (User.id teacher))
                           (course_teachers (db w))) <= 1)%nat
        /\ student_assignment_of (Assignment.id a) (User.id student) (db w) = Some sa
        /\ seed_step options course a w = (inr tt, w2)
        /\ _seed_review_item course a su tu w = (inr tt, w2)).
Proof.
  intros Hseed. unfold seed_step. rewrite Hseed.
  destruct (usernames options) as [[su tu]|] eqn:Hnames.
  2:{ left. eexists _, _. split; [reflexivity|]. split; [reflexivity|]. now left. }
  destruct (user_by_username su (db w)) as [student|] eqn:Hs.
  2:{ left. unfold _seed_review_item. unfold bind at 1. unfold get_db at 1.
      rewrite Hs. eexists _, _. split; [reflexivity|]. split; [reflexivity|].
      right. exists su, tu. split; [reflexivity|]. now left. }
  destruct (user_by_username tu (db w)) as [teacher|] eqn:Ht.
  2:{ left. unfold _seed_review_item. unfold bind at 1. unfold get_db at 1.
      rewrite Hs, Ht. eexists _, _. split; [reflexivity|]. split; [reflexivity|].
      right. exists su, tu. split; [reflexivity|]. right. now left. }
  destruct (le_lt_dec
              (List.length (filter (same_course_teacher (Course.id course)
                                      (User.id teacher))
                              (course_teachers (db w)))) 1) as [Hle|Hgt].
  2:{ right. left. apply (seed_review_item_ambiguous _ _ _ _ _ student teacher);
        assumption || lia. }
  destruct (seed_review_item_outcome course a su tu w student teacher Hs Ht Hle)
    as (w2 & Hrun & Hout). cbv zeta in Hout.
  destruct (student_assignment_of (Assignment.id a) (User.id student) (db w))
    as [sa|] eqn:Hsa.
  - right. right. exists su, tu, student, teacher, sa, w2.
    repeat split; assumption.
  - left. eexists _, w2. split; [exact Hrun|].
    destruct Hout as (_ & _ & _ & _ & _ & _ & Htrace). split; [exact Htrace|].
    right. exists su, tu. split; [reflexivity|]. right. right.
    exists student. now split.
Qed.

End RunFacts.

Lemma NoDup_snoc {A} (key : A -> Z) l x :
  NoDup (map key l) -> ~ In (key x) (map key l) -> NoDup (map key (l ++ [x])).
Proof.
  intros Hnd Hx. rewrite map_app. cbn [map]. apply NoDup_app.
  - assumption.
  - repeat constructor. intros [].
  - intros k Hk [<-|[]]. contradiction.
Qed.

Section KeyFacts.
Context {E : Externals}.
Hypothesis frame : services_frame E.

Lemma before_seed_tables a w :
  courses (db (before_seed a w)) = courses (db w)
  /\ assignments (db (before_seed a w)) = assignments (db w)
  /\ users (db (before_seed a w)) = users (db w)
  /\ course_teachers (db (before_seed a w)) = course_teachers (db w)
  /\ comments (db (before_seed a w)) = comments (db w).
Proof.
  unfold before_seed. cbn [db].
  match goal with |- context [stats_db ?l ?d] =>
    destruct (stats_db_keeps frame l d) as (H1 & H2 & H3 & H4 & H5) end.
  destruct (proj1 frame a (db w)) as (K1 & K2 & K3 & K4 & K5).
  repeat split; congruence.
Qed.

(** The seeding step keeps the primary keys of the tables it writes
    unique. *)
Lemma seed_step_keys options course a w :
  NoDup (map CourseTeacher.id (course_teachers (db w))) ->
  NoDup (map AssignmentComment.id (comments (db w))) ->
  NoDup (map CourseTeacher.id (course_teachers (db (snd (seed_step options course a w)))))
  /\ NoDup (map AssignmentComment.id (comments (db (snd (seed_step options course a w))))).
Proof.
  intros Hct Hcm. unfold seed_step.
  destruct (seed_review options); [|now split].
  destruct (usernames options) as [[su tu]|]; [|now split].
  destruct (user_by_username su (db w)) as [student|] eqn:Hs.
  2:{ rewrite seed_review_item_missing_user by now left. now split. }
  destruct (user_by_username tu (db w)) as [teacher|] eqn:Ht.
  2:{ rewrite seed_review_item_missing_user by now right. now split. }
  destruct (le_lt_dec
              (List.length (filter (same_course_teacher (Course.id course)
                                      (User.id teacher))
                              (course_teachers (db w)))) 1) as [Hle|Hgt].
  2:{ rewrite (seed_review_item_ambiguous course a su tu w student teacher Hs Ht)
        by lia. now split. }
  destruct (seed_review_item_outcome course a su tu w student teacher Hs Ht Hle)
    as (w2 & Hrun & Hout). cbv zeta in Hout. rewrite Hrun. cbn [snd].
  destruct (course_teachers_after_unique (Course.id course) (User.id teacher)
              (course_teachers (db w)) Hct Hle) as (_ & Hct' & _).
  destruct (student_assignment_of (Assignment.id a) (User.id student) (db w))
    as [sa|].
  - destruct Hout as (d & Hdb & Hcts & _ & Hcms & _).
    destruct (proj2 frame (StudentAssignment.id sa) d) as (_ & _ & _ & K4 & K5).
    rewrite Hdb, K4, K5, Hcts, Hcms. split; [assumption|].
    pose proof (seeded_solution_spec (StudentAssignment.id sa) (User.id student)
                  (comments (db w))) as (_ & _ & _ & _ & Hnew & Hold).
    destruct (filter (is_solution_of (StudentAssignment.id sa)) (comments (db w)))
      as [|x l] eqn:Hf.
    + destruct (Hnew eq_refl) as (Heq & Hfresh & _). rewrite Heq.
      now apply NoDup_snoc.
    + destruct Hold as [Heq _]; [discriminate|]. now rewrite Heq.
  - destruct Hout as (Hcts & _ & _ & _ & _ & Hcms & _).
    rewrite Hcts, Hcms. now split.
Qed.

End KeyFacts.

(* ===================================================================== *)
(** * Facts about [strip] *)
(* ===================================================================== *)

Lemma lstrip_head s c r : lstrip s = String c r -> isspace c = false.
Proof.
  induction s as [|a s IH]; cbn [lstrip]; [discriminate|].
  destruct (isspace a) eqn:Ha; [exact IH|]. intros [= <- _]. exact Ha.
Qed.

Lemma lstrip_fixed s :
  (forall c r, s = String c r -> isspace c = false) -> lstrip s = s.
Proof.
  destruct s as [|c r]; [reflexivity|]. intros H. cbn [lstrip].
  now rewrite (H c r eq_refl).
Qed.

Lemma rstrip_head s c r :
  rstrip s = String c r -> exists r', s = String c r'.
Proof.
  destruct s as [|a s]; cbn [rstrip]; [discriminate|].
  destruct (rstrip s); [destruct (isspace a); [discriminate|]|];
    intros [= <- _]; now eexists.
Qed.

Lemma rstrip_last s c : last_char (rstrip s) = Some c -> isspace c = false.
Proof.
  induction s as [|a s IH]; cbn [rstrip]; [discriminate|].
  destruct (rstrip s) as [|b t] eqn:Hr.
  - destruct (isspace a) eqn:Ha; [discriminate|]. intros [= <-]. exact Ha.
  - exact IH.
Qed.

Lemma rstrip_idempotent s : rstrip (rstrip s) = rstrip s.
Proof.
  induction s as [|a s IH]; cbn [rstrip]; [reflexivity|].
  destruct (rstrip s) as [|b t] eqn:Hr.
  - destruct (isspace a) eqn:Ha; [reflexivity|]. cbn [rstrip]. now rewrite Ha.
  - cbn [rstrip]. cbn [rstrip] in IH. rewrite IH. reflexivity.
Qed.

Lemma strip_idempotent s : strip (strip s) = strip s.
Proof.
  unfold strip. rewrite (lstrip_fixed (rstrip (lstrip s))).
  - apply rstrip_idempotent.
  - intros c r Hr. apply rstrip_head in Hr. destruct Hr as [r' Hr].
    exact (lstrip_head _ _ _ Hr).
Qed.

(* ===================================================================== *)
(** * The statistics loop *)
(* ===================================================================== *)




Section StatsLoop.
Context {E : Externals}.


End StatsLoop.

(* ===================================================================== *)
(** * Properties of create_demo_assignment *)
(* ===================================================================== *)

(** C2. [handle] raises [CommandError] exactly when the selected course
    does not exist, the deadline does not parse, or the weight is not a
    decimal; and when it does, the world is the one it started in: no
    [Assignment] row (nor any other row) was created or modified and no
    service was called. *)
Theorem handle_command_error {E : Externals} (options : Options) (w : World) :
  ((exists msg, fst (handle options w) = inl (CommandError msg)) <->
   (~ course_exists options (db w)
    \/ strptime (deadline options) = None
    \/ exists e, Decimal (weight options) = inl e))
  /\ (forall msg, fst (handle options w) = inl (CommandError msg) ->
      snd (handle options w) = w).
Proof.
  rewrite handle_steps.
  pose proof (find_course_None options (db w)) as Hnone.
  destruct (find_course options (db w)) as [course|].
  - assert (course_exists options (db w)) as Hex.
    { destruct (course_exists_dec options (db w)) as [H|H]; [exact H|].
      apply Hnone in H. discriminate. }
    destruct (strptime (deadline options)) as [dt|].
    + destruct (Decimal (weight options)) as [e|wt].
      * split; [|reflexivity].
        split; [intros _; right; right; now exists e | intros _; eexists; reflexivity].
      * assert (never_command_error
                  (bind (create_or_update course (strip (title options))
                           (make_aware_utc dt) (effective_max_score options) wt
                           (submission_type options))
                        (fun got => follow_up options course (fst got) (snd got))))
          as Hnce.
        { apply nce_bind; [apply create_or_update_nce|].
          intros got. apply follow_up_nce. }
        split.
        -- split.
           ++ intros [msg Hmsg]. exfalso. exact (Hnce w msg Hmsg).
           ++ intros [H|[H|[e H]]]; [contradiction | discriminate | discriminate].
        -- intros msg Hmsg. exfalso. exact (Hnce w msg Hmsg).
    + split; [|reflexivity].
      split; [intros _; right; now left | intros _; eexists; reflexivity].
  - split; [|reflexivity].
    split; [intros _; left; now apply Hnone | intros _; eexists; reflexivity].
Qed.


(** The stand-in services write [StudentAssignment] rows only. *)
Lemma demo_services_frame : services_frame Demo.externals.
Proof. split; intros x d; repeat split. Qed.


(** C4 (as amended). The command creates or updates the [Assignment] row
    keyed by the course and the stripped title.  When no such row exists,
    exactly one row is appended, with a new primary key, the given
    deadline (made aware in UTC), weight and submission type, and the given
    maximum score, a given 0 being stored as 10.  When exactly one exists,
    no row is added and that row takes the same six values in
    [deadline_at], [maximum_score], [weight], [submission_type],
    [time_zone] and [assignee_mode]. *)
Theorem handle_creates_or_updates_assignment {E : Externals}
    (options : Options) (w : World) (course : Course.t)
    (dt : datetime) (wt : decimal) :
  services_frame E ->
  find_course options (db w) = Some course ->
  strptime (deadline options) = Some dt ->
  Decimal (weight options) = inr wt ->
  let key := same_assignment_key (Course.id course) (strip (title options)) in
  let score := if max_score options =? 0 then 10 else max_score options in
  let w' := snd (handle options w) in
  (filter key (assignments (db w)) = [] ->
   exists a,
     assignments (db w') = assignments (db w) ++ [a]
     /\ ~ In (Assignment.id a) (map Assignment.id (assignments (db w)))
     /\ Assignment.course a = Course.id course
     /\ Assignment.title a = strip (title options)
     /\ Assignment.deadline_at a = make_aware_utc dt
     /\ Assignment.maximum_score a = score
     /\ Assignment.weight a = wt
     /\ Assignment.submission_type a = submission_type options
     /\ Assignment.time_zone a = tz_name_of course
     /\ Assignment.assignee_mode a = MANUAL)
  /\ (forall a0, filter key (assignments (db w)) = [a0] ->
      exists a,
        filter key (assignments (db w')) = [a]
        /\ map Assignment.id (assignments (db w')) = map Assignment.id (assignments (db w))
        /\ Assignment.id a = Assignment.id a0
        /\ Assignment.text a = Assignment.text a0
        /\ Assignment.deadline_at a = make_aware_utc dt
        /\ Assignment.maximum_score a = score
        /\ Assignment.weight a = wt
        /\ Assignment.submission_type a = submission_type options
        /\ Assignment.time_zone a = tz_name_of course
        /\ Assignment.assignee_mode a = MANUAL).
Proof.
  intros frame Hc Hd Hw.
  exact (assignment_row_after_run options w course dt wt frame Hc Hd Hw).
Qed.

Lemma handle_creates_or_updates_assignment_witness :
  exists a,
    assignments (db (snd (@handle Demo.externals Demo.options Demo.world))) = [a]
    /\ Assignment.title a = "Homework 1"
    /\ Assignment.maximum_score a = 5.
Proof.
  destruct (@handle_creates_or_updates_assignment Demo.externals Demo.options
              Demo.world
              {| Course.id := 3; Course.meta_course_name := "Algorithms";
                 Course.main_branch_time_zone := None |}
              {| year := 2030; month := 1; day := 15; hour := 12; minute := 0;
                 tzinfo := None |}
              (Finite false 100 (-2))
              demo_services_frame eq_refl eq_refl eq_refl) as [Hnew _].
  destruct (Hnew eq_refl) as (a & Hrows & _ & _ & Ht & _ & Hs & _).
  exists a. repeat split; assumption.
Defined.

(** C4 as stated fails: with [--max-score 0] and no assignment of that
    course and title yet, the run succeeds and the one row it leaves does
    not hold the given maximum score. *)
Lemma given_max_score_counterexample :
  filter (same_assignment_key 2 (strip (title Demo.options_zero_score)))
         (assignments (db Demo.world)) = []
  /\ fst (@handle Demo.externals Demo.options_zero_score Demo.world) = inr tt
  /\ exists a,
       assignments (db (snd (@handle Demo.externals Demo.options_zero_score Demo.world)))
       = [a]
       /\ Assignment.maximum_score a = 10
       /\ Assignment.maximum_score a <> max_score Demo.options_zero_score.
Proof.
  split; [reflexivity|]. split; [reflexivity|].
  eexists. split; [reflexivity|]. split; [reflexivity | discriminate].
Qed.

(** C8. A [--max-score] of 0 is replaced by 10: for valid arguments and
    at most one assignment of that course and title, the assignment of the
    run has [maximum_score] 10 afterwards, and that value is what the
    command read from the options. *)
Theorem zero_max_score_is_stored_as_ten {E : Externals}
    (options : Options) (w : World) (course : Course.t)
    (dt : datetime) (wt : decimal) :
  services_frame E ->
  max_score options = 0 ->
  find_course options (db w) = Some course ->
  strptime (deadline options) = Some dt ->
  Decimal (weight options) = inr wt ->
  (List.length (filter (same_assignment_key (Course.id course) (strip (title options)))
                  (assignments (db w))) <= 1)%nat ->
  effective_max_score options = 10
  /\ exists a,
       filter (same_assignment_key (Course.id course) (strip (title options)))
              (assignments (db (snd (handle options w)))) = [a]
       /\ Assignment.maximum_score a = 10.
Proof.
  intros frame Hz Hc Hd Hw Hlen.
  assert (effective_max_score options = 10) as Hs.
  { unfold effective_max_score. now rewrite Hz. }
  split; [exact Hs|].
  destruct (key_row_after_run frame options w course dt wt Hc Hd Hw Hlen)
    as (a & Ha & Hms).
  exists a. split; [exact Ha | congruence].
Qed.

Lemma zero_max_score_is_stored_as_ten_witness :
  effective_max_score Demo.options_zero_score = 10
  /\ exists a,
       filter (same_assignment_key 2 "Quiz")
         (assignments (db (snd (@handle Demo.externals Demo.options_zero_score
                                  Demo.world)))) = [a]
       /\ Assignment.maximum_score a = 10.
Proof.
  apply (@zero_max_score_is_stored_as_ten Demo.externals Demo.options_zero_score
           Demo.world
           {| Course.id := 2; Course.meta_course_name := "Logic";
              Course.main_branch_time_zone := None |}
           {| year := 2030; month := 1; day := 15; hour := 12; minute := 0;
              tzinfo := None |}
           (Finite false 50 (-2))
           demo_services_frame eq_refl eq_refl eq_refl eq_refl).
  simpl. lia.
Defined.




(** C3 (as amended). Take a run with [--seed-review] whose run without
    the flag succeeds and leaves the world [w0] (so [db w0] is the
    database the seeding step starts in).
    When a user name option is missing or empty, or the student or the
    teacher is not found, the run with the flag succeeds, leaves the
    database [db w0] and prints one warning before the same success
    message.
    When both users exist and the student has no [StudentAssignment] for
    the assignment, the link of the teacher to the course has been looked
    up or created, and its roles saved, before the row is looked for
    (lines 169-177): with at most one such link the run succeeds with one
    warning, the [CourseTeacher] table is the one these lines leave, and
    every other table is that of [db w0], so no reviewer is assigned and
    no solution is created; with two or more links [get_or_create] raises
    [MultipleObjectsReturned] and the run stops in [db w0] without its
    success message. *)
Theorem seed_review_degrades_gracefully {E : Externals}
    (options : Options) (w w0 : World) (course : Course.t)
    (pre : list Event) (aid : Z) (t : string) (dl : datetime) (created : bool) :
  seed_review options = true ->
  find_course options (db w) = Some course ->
  handle (without_seed_review options) w = (inr tt, w0) ->
  trace w0 = pre ++ [Stdout (SUCCESS_assignment aid t dl created)] ->
  let success := Stdout (SUCCESS_assignment aid t dl created) in
  match usernames options with
  | None =>
      handle options w
      = (inr tt,
         {| db := db w0;
            trace := pre ++ [Stdout (WARNING
                       "--seed-review requires both --student-username and --teacher-username. Skipping seeding.");
                     success] |})
  | Some (su, tu) =>
      match user_by_username su (db w0), user_by_username tu (db w0) with
      | Some student, Some teacher =>
          student_assignment_of aid (User.id student) (db w0) = None ->
          let links := filter (same_course_teacher (Course.id course) (User.id teacher))
                         (course_teachers (db w0)) in
          ((List.length links <= 1)%nat ->
           exists w',
             handle options w = (inr tt, w')
             /\ trace w' = pre ++ [Stdout (WARNING
                              "StudentAssignment not found; skipping review seed.");
                            success]
             /\ course_teachers (db w')
                = course_teachers_after (Course.id course) (User.id teacher)
                    (course_teachers (db w0))
             /\ courses (db w') = courses (db w0)
             /\ assignments (db w') = assignments (db w0)
             /\ users (db w') = users (db w0)
             /\ student_assignments (db w') = student_assignments (db w0)
             /\ comments (db w') = comments (db w0))
          /\ ((2 <= List.length links)%nat ->
              handle options w
              = (inl MultipleObjectsReturned, {| db := db w0; trace := pre |}))
      | _, _ =>
          handle options w
          = (inr tt,
             {| db := db w0;
                trace := pre ++ [Stdout (WARNING
                           "Student or teacher not found; skipping review seed.");
                         success] |})
      end
  end.
Proof.
  intros Hs Hc Hrun Htrace success.
  rewrite handle_steps in Hrun.
  change (find_course (without_seed_review options) (db w))
    with (find_course options (db w)) in Hrun.
  rewrite handle_steps. rewrite Hc in *.
  cbn [without_seed_review deadline weight title submission_type] in Hrun.
  change (effective_max_score (without_seed_review options))
    with (effective_max_score options) in Hrun.
  destruct (strptime (deadline options)) as [dt|]; [|discriminate].
  destruct (Decimal (weight options)) as [e|wt]; [discriminate|].
  unfold bind in *.
  destruct (create_or_update _ _ _ _ _ _ w) as [[e|[a cr]] w1]; [discriminate|].
  cbn [fst snd] in *.
  rewrite follow_up_eq in Hrun. rewrite follow_up_eq.
  change (seed_step (without_seed_review options) course a (before_seed a w1))
    with (@inr Exception unit tt, before_seed a w1) in Hrun.
  cbv beta iota in Hrun. injection Hrun as Hw0. subst w0.
  unfold say in Htrace |- *. cbn [db trace] in Htrace |- *.
  apply app_inj_tail in Htrace. destruct Htrace as [Hpre Hmsg].
  unfold success_of in Hmsg |- *. injection Hmsg as Haid Ht Hdl Hcr.
  subst aid t dl created pre. subst success.
  unfold seed_step. rewrite Hs.
  destruct (usernames options) as [[su tu]|]; [|unfold stdout_write, emit; cbn [fst snd db trace]; now rewrite <- app_assoc].
  destruct (user_by_username su (db (before_seed a w1))) as [student|] eqn:Hsu.
  2:{ rewrite seed_review_item_missing_user by now left.
      unfold say. cbn [db trace]. now rewrite <- app_assoc. }
  destruct (user_by_username tu (db (before_seed a w1))) as [teacher|] eqn:Htu.
  2:{ rewrite seed_review_item_missing_user by now right.
      unfold say. cbn [db trace]. now rewrite <- app_assoc. }
  cbv beta iota zeta. intros Hsa. split.
  - intros Hlen.
    destruct (seed_review_item_outcome course a su tu (before_seed a w1)
                student teacher Hsu Htu Hlen) as (w2 & Hrun & Hout).
    cbv zeta in Hout. rewrite Hsa in Hout.
    destruct Hout as (H1 & H2 & H3 & H4 & H5 & H6 & H7).
    rewrite Hrun. eexists. split; [reflexivity|]. cbn [db trace].
    rewrite H7, <- app_assoc. repeat split; assumption.
  - intros Hlen.
    rewrite (seed_review_item_ambiguous course a su tu (before_seed a w1)
               student teacher Hsu Htu Hlen).
    cbv beta iota. now destruct (before_seed a w1).
Qed.

Lemma seed_review_degrades_gracefully_witness :
  (exists w',
     @handle DemoMore.nobody_enrolled Demo.options Demo.world = (inr tt, w')
     /\ trace w'
        = [Call_bulk_create 1;
           Stdout (WARNING "StudentAssignment not found; skipping review seed.");
           Stdout (SUCCESS_assignment 1 "Homework 1"
                     {| year := 2030; month := 1; day := 15; hour := 12;
                        minute := 0; tzinfo := Some "UTC" |} true)]
     /\ course_teachers (db w')
        = [ {| CourseTeacher.id := 1; CourseTeacher.course := 3;
               CourseTeacher.teacher := 11; CourseTeacher.reviewer := true;
               CourseTeacher.lecturer := true |} ]
     /\ student_assignments (db w') = []
     /\ comments (db w') = [])
  /\ trace (snd (@handle Demo.externals Demo.options_no_teacher Demo.world))
     = [Call_bulk_create 1; Call_update_stats 1; Call_update_stats 2;
        Stdout (WARNING "Student or teacher not found; skipping review seed.");
        Stdout (SUCCESS_assignment 1 "Homework 1"
                  {| year := 2030; month := 1; day := 15; hour := 12;
                     minute := 0; tzinfo := Some "UTC" |} true)].
Proof.
  split.
  - destruct (proj1
                (@seed_review_degrades_gracefully DemoMore.nobody_enrolled
                   Demo.options Demo.world
                   (snd (@handle DemoMore.nobody_enrolled
                           (without_seed_review Demo.options) Demo.world))
                   DemoMore.algorithms [Call_bulk_create 1]
                   1 "Homework 1"
                   {| year := 2030; month := 1; day := 15; hour := 12; minute := 0;
                      tzinfo := Some "UTC" |} true
                   eq_refl eq_refl eq_refl eq_refl eq_refl)
                (le_S _ _ (le_n 0)))
      as (w' & Hrun & Htrace & Hlinks & _ & _ & _ & Hsas & Hcomments).
    exists w'. repeat split; assumption.
  - exact (f_equal (fun r => trace (snd r))
             (@seed_review_degrades_gracefully Demo.externals
                Demo.options_no_teacher Demo.world
                (snd (@handle Demo.externals
                        (without_seed_review Demo.options_no_teacher) Demo.world))
                DemoMore.algorithms
                [Call_bulk_create 1; Call_update_stats 1; Call_update_stats 2]
                1 "Homework 1"
                {| year := 2030; month := 1; day := 15; hour := 12; minute := 0;
                   tzinfo := Some "UTC" |} true
                eq_refl eq_refl eq_refl eq_refl)).
Defined.

(** C3 as stated fails: where nobody is enrolled, the student alice
    exists but has no [StudentAssignment]; the run with [--seed-review]
    prints the warning and succeeds, yet it has not skipped the seeding:
    it has linked the teacher bob to the course as reviewer and lecturer,
    which the run without the flag does not. *)
Lemma seeding_is_not_skipped_counterexample :
  student_assignments
    (db (snd (@handle DemoMore.nobody_enrolled (without_seed_review Demo.options)
                Demo.world))) = []
  /\ course_teachers
       (db (snd (@handle DemoMore.nobody_enrolled (without_seed_review Demo.options)
                   Demo.world))) = []
  /\ fst (@handle DemoMore.nobody_enrolled Demo.options Demo.world) = inr tt
  /\ trace (snd (@handle DemoMore.nobody_enrolled Demo.options Demo.world))
     = [Call_bulk_create 1;
        Stdout (WARNING "StudentAssignment not found; skipping review seed.");
        Stdout (SUCCESS_assignment 1 "Homework 1"
                  {| year := 2030; month := 1; day := 15; hour := 12;
                     minute := 0; tzinfo := Some "UTC" |} true)]
  /\ course_teachers (db (snd (@handle DemoMore.nobody_enrolled Demo.options Demo.world)))
     = [ {| CourseTeacher.id := 1; CourseTeacher.course := 3;
            CourseTeacher.teacher := 11; CourseTeacher.reviewer := true;
            CourseTeacher.lecturer := true |} ]
  /\ db (snd (@handle DemoMore.nobody_enrolled Demo.options Demo.world))
     <> db (snd (@handle DemoMore.nobody_enrolled (without_seed_review Demo.options)
                   Demo.world)).
Proof.
  repeat split; try reflexivity. intros H.
  apply (f_equal course_teachers) in H. discriminate H.
Qed.

(** C9. Of two runs in a row with the same options, the second creates no
    [Assignment] row: row for row the table keeps its primary keys,
    courses and titles.  And each run adds at most one [SOLUTION] comment,
    to a [StudentAssignment] that has none: where one exists no other is
    created, and a database with at most one solution per
    [StudentAssignment] stays so through both runs. *)
Theorem second_run_is_idempotent {E : Externals} (options : Options) (w : World) :
  services_frame E ->
  let w1 := snd (handle options w) in
  let w2 := snd (handle options w1) in
  (exists f,
     assignments (db w2) = map f (assignments (db w1))
     /\ forall a, Assignment.id (f a) = Assignment.id a
                  /\ Assignment.course (f a) = Assignment.course a
                  /\ Assignment.title (f a) = Assignment.title a)
  /\ List.length (assignments (db w2)) = List.length (assignments (db w1))
  /\ adds_at_most_one_solution (db w) (db w1)
  /\ adds_at_most_one_solution (db w1) (db w2)
  /\ forall sa_pk,
       (solutions_of sa_pk (db w) <> [] ->
        solutions_of sa_pk (db w1) = solutions_of sa_pk (db w))
       /\ (solutions_of sa_pk (db w1) <> [] ->
           solutions_of sa_pk (db w2) = solutions_of sa_pk (db w1))
       /\ ((List.length (solutions_of sa_pk (db w)) <= 1)%nat ->
           (List.length (solutions_of sa_pk (db w1)) <= 1)%nat
           /\ (List.length (solutions_of sa_pk (db w2)) <= 1)%nat).
Proof.
  intros frame w1 w2.
  pose proof (second_run_rows frame options w) as Hrows. cbv zeta in Hrows.
  fold w1 in Hrows. fold w2 in Hrows.
  pose proof (handle_adds frame options w) as Hadd1. fold w1 in Hadd1.
  pose proof (handle_adds frame options w1) as Hadd2. fold w2 in Hadd2.
  split; [exact Hrows|]. split.
  { destruct Hrows as (f & Hf & _). rewrite Hf. apply length_map. }
  split; [exact Hadd1|]. split; [exact Hadd2|].
  intros sa_pk.
  destruct (solutions_after _ _ sa_pk Hadd1) as [Hkeep1 Hle1].
  destruct (solutions_after _ _ sa_pk Hadd2) as [Hkeep2 Hle2].
  repeat split; auto.
Qed.

Lemma second_run_is_idempotent_witness :
  let w1 := snd (@handle Demo.externals Demo.options Demo.world) in
  let w2 := snd (@handle Demo.externals Demo.options w1) in
  List.length (assignments (db w2)) = 1%nat
  /\ List.length (solutions_of 1 (db w2)) = 1%nat.
Proof.
  destruct (@second_run_is_idempotent Demo.externals Demo.options Demo.world
              demo_services_frame) as (_ & Hlen & _ & _ & Hsol).
  destruct (Hsol 1) as (_ & Hkeep & _).
  split.
  - rewrite Hlen. reflexivity.
  - rewrite Hkeep; [reflexivity | discriminate].
Defined.

(* ===================================================================== *)
(** * Further properties of create_demo_assignment *)
(* ===================================================================== *)

(** X1. When both users exist, the course-teacher link is not ambiguous
    and the student has a [StudentAssignment] for the assignment, the
    seeding returns normally and takes the student's row of least primary
    key; just before the final statistics call every row with that key has
    the teacher's link as assignee and the status [ON_CHECKING], keeps its
    assignment and student, and every other row is as it was. *)
Theorem seed_review_item_assigns_reviewer {E : Externals}
    (course : Course.t) (a : Assignment.t) (su tu : string) (w : World)
    (student teacher : User.t) (sa : StudentAssignment.t) :
  user_by_username su (db w) = Some student ->
  user_by_username tu (db w) = Some teacher ->
  (List.length (filter (same_course_teacher (Course.id course) (User.id teacher))
                  (course_teachers (db w))) <= 1)%nat ->
  student_assignment_of (Assignment.id a) (User.id student) (db w) = Some sa ->
  exists w' d link,
    _seed_review_item course a su tu w = (inr tt, w')
    /\ db w' = update_student_assignment_stats (StudentAssignment.id sa) d
    /\ In sa (student_assignments (db w))
    /\ StudentAssignment.assignment sa = Assignment.id a
    /\ StudentAssignment.student sa = User.id student
    /\ (forall other, In other (student_assignments (db w)) ->
          StudentAssignment.assignment other = Assignment.id a ->
          StudentAssignment.student other = User.id student ->
          StudentAssignment.id sa <= StudentAssignment.id other)
    /\ In link (course_teachers d)
    /\ CourseTeacher.course link = Course.id course
    /\ CourseTeacher.teacher link = User.id teacher
    /\ map StudentAssignment.id (student_assignments d)
       = map StudentAssignment.id (student_assignments (db w))
    /\ (exists row, In row (student_assignments d)
                    /\ StudentAssignment.id row = StudentAssignment.id sa
                    /\ StudentAssignment.assignment row = Assignment.id a
                    /\ StudentAssignment.student row = User.id student)
    /\ (forall row, In row (student_assignments d) ->
          StudentAssignment.id row = StudentAssignment.id sa ->
          StudentAssignment.assignee row = Some (CourseTeacher.id link)
          /\ StudentAssignment.status row = ON_CHECKING)
    /\ (forall row, StudentAssignment.id row <> StudentAssignment.id sa ->
          (In row (student_assignments d) <-> In row (student_assignments (db w)))).
Proof.
  intros Hs Ht Hlen Hsa.
  destruct (seed_review_item_outcome course a su tu w student teacher Hs Ht Hlen)
    as (w' & Hrun & Hout).
  cbv zeta in Hout. rewrite Hsa in Hout.
  destruct Hout as (d & Hdb & Hcts & Hsas & _ & _ & _ & _ & _).
  destruct (linked_teacher_row (Course.id course) (User.id teacher)
              (course_teachers (db w)) Hlen) as (link & Hlin & Hlid & Hlc & Hlt & _).
  pose proof (update_assignee_status_spec (StudentAssignment.id sa)
                (Some (CourseTeacher.id link)) ON_CHECKING
                (student_assignments (db w))) as (Hids & Hset & Hothers & Hrow).
  rewrite <- Hlid in Hsas. rewrite <- Hsas in Hids, Hset, Hothers, Hrow.
  unfold student_assignment_of in Hsa.
  apply first_spec in Hsa. destruct Hsa as [Hin Hleast].
  apply filter_In in Hin. destruct Hin as [Hin Hmatch].
  unfold same_student_assignment in Hmatch. apply andb_true_iff in Hmatch.
  destruct Hmatch as [Hma Hms]. apply Z.eqb_eq in Hma, Hms.
  exists w', d, link. rewrite <- Hcts in Hlin.
  repeat match goal with |- _ /\ _ => split end; try assumption.
  - intros other Ho Hoa Hos. apply Hleast. apply filter_In. split; [assumption|].
    unfold same_student_assignment. now rewrite Hoa, Hos, !Z.eqb_refl.
  - destruct (Hrow sa Hin eq_refl) as (row & Hr1 & Hr2 & Hr3 & Hr4).
    exists row. repeat split; congruence.
Qed.

Lemma seed_review_item_assigns_reviewer_witness :
  exists w' d link,
    @_seed_review_item Demo.externals DemoMore.algorithms DemoMore.homework
      "alice" "bob" DemoMore.seeded_world = (inr tt, w')
    /\ db w' = d
    /\ CourseTeacher.teacher link = 11
    /\ (forall row, In row (student_assignments d) ->
          StudentAssignment.id row = 1 ->
          StudentAssignment.assignee row = Some (CourseTeacher.id link)
          /\ StudentAssignment.status row = ON_CHECKING).
Proof.
  destruct (@seed_review_item_assigns_reviewer Demo.externals DemoMore.algorithms
              DemoMore.homework "alice" "bob" DemoMore.seeded_world
              DemoMore.alice DemoMore.bob DemoMore.alices_row
              eq_refl eq_refl (le_S _ _ (le_n 0)) eq_refl)
    as (w' & d & link & Hrun & Hdb & _ & _ & _ & _ & _ & _ & Ht & _ & _ & Hset & _).
  exists w', d, link. repeat split; try assumption; now apply Hset.
Defined.

(** X2. When both users exist, primary keys of [CourseTeacher] are unique
    and at most one row links the teacher to the course, then after the
    seeding exactly one row links them, whether or not the student has a
    [StudentAssignment]; the primary keys are still unique, rows of other
    links are untouched, and the row has the reviewer and lecturer roles
    when the roles could be saved. *)
Theorem seed_review_item_links_teacher {E : Externals}
    (course : Course.t) (a : Assignment.t) (su tu : string) (w : World)
    (student teacher : User.t) :
  services_frame E ->
  user_by_username su (db w) = Some student ->
  user_by_username tu (db w) = Some teacher ->
  NoDup (map CourseTeacher.id (course_teachers (db w))) ->
  (List.length (filter (same_course_teacher (Course.id course) (User.id teacher))
                  (course_teachers (db w))) <= 1)%nat ->
  let w' := snd (_seed_review_item course a su tu w) in
  fst (_seed_review_item course a su tu w) = inr tt
  /\ (exists link,
        filter (same_course_teacher (Course.id course) (User.id teacher))
               (course_teachers (db w')) = [link]
        /\ (bitfield_api = true ->
            CourseTeacher.reviewer link = true /\ CourseTeacher.lecturer link = true))
  /\ NoDup (map CourseTeacher.id (course_teachers (db w')))
  /\ (forall r, same_course_teacher (Course.id course) (User.id teacher) r = false ->
                (In r (course_teachers (db w')) <-> In r (course_teachers (db w)))).
Proof.
  intros frame Hs Ht Hnd Hlen w'.
  destruct (seed_review_item_outcome course a su tu w student teacher Hs Ht Hlen)
    as (w1 & Hrun & Hout).
  unfold w'. rewrite Hrun. cbn [fst snd]. cbv zeta in Hout.
  assert (course_teachers (db w1)
          = course_teachers_after (Course.id course) (User.id teacher)
              (course_teachers (db w))) as Hcts.
  { destruct (student_assignment_of (Assignment.id a) (User.id student) (db w))
      as [sa|].
    - destruct Hout as (d & Hdb & Hc & _). rewrite Hdb.
      destruct (proj2 frame (StudentAssignment.id sa) d) as (_ & _ & _ & K & _).
      congruence.
    - apply Hout. }
  rewrite Hcts.
  destruct (course_teachers_after_unique (Course.id course) (User.id teacher)
              (course_teachers (db w)) Hnd Hlen) as ((link & Hone) & Hnd' & Hothers).
  split; [reflexivity|]. split; [|split; assumption].
  exists link. split; [exact Hone|].
  intros Hapi.
  destruct (linked_teacher_row (Course.id course) (User.id teacher)
              (course_teachers (db w)) Hlen) as (row & Hin & _ & Hc & Hte & Hroles).
  assert (In row (filter (same_course_teacher (Course.id course) (User.id teacher))
                    (course_teachers_after (Course.id course) (User.id teacher)
                       (course_teachers (db w))))) as Hrow.
  { apply filter_In. split; [assumption|].
    unfold same_course_teacher. now rewrite Hc, Hte, !Z.eqb_refl. }
  rewrite Hone in Hrow. destruct Hrow as [<-|[]]. now apply Hroles.
Qed.

Lemma seed_review_item_links_teacher_witness :
  exists link,
    filter (same_course_teacher 3 11)
      (course_teachers
         (db (snd (@_seed_review_item Demo.externals DemoMore.algorithms
                     DemoMore.homework "alice" "bob" DemoMore.seeded_world))))
    = [link]
    /\ CourseTeacher.reviewer link = true
    /\ CourseTeacher.lecturer link = true.
Proof.
  destruct (@seed_review_item_links_teacher Demo.externals DemoMore.algorithms
              DemoMore.homework "alice" "bob" DemoMore.seeded_world
              DemoMore.alice DemoMore.bob demo_services_frame
              eq_refl eq_refl (NoDup_nil Z) (le_S _ _ (le_n 0)))
    as (_ & (link & Hone & Hroles) & _).
  exists link. split; [exact Hone|]. exact (Hroles eq_refl).
Defined.

(** X3. When the seeding reaches the student's [StudentAssignment], the
    solution its success message names is, afterwards, the [SOLUTION]
    comment of that row with the least primary key.  If the row had no
    solution, exactly one comment was appended: it has a new primary key,
    the text [Seeded solution for review], the student as author, and is
    published.  If it had one, the comments are unchanged. *)
Theorem seed_review_item_seeds_solution {E : Externals}
    (course : Course.t) (a : Assignment.t) (su tu : string) (w : World)
    (student teacher : User.t) (sa : StudentAssignment.t) :
  services_frame E ->
  user_by_username su (db w) = Some student ->
  user_by_username tu (db w) = Some teacher ->
  (List.length (filter (same_course_teacher (Course.id course) (User.id teacher))
                  (course_teachers (db w))) <= 1)%nat ->
  student_assignment_of (Assignment.id a) (User.id student) (db w) = Some sa ->
  exists w' solution,
    _seed_review_item course a su tu w = (inr tt, w')
    /\ trace w' = trace w
         ++ [Call_update_stats (StudentAssignment.id sa);
             Stdout (SUCCESS_review (StudentAssignment.id sa)
                       (AssignmentComment.id solution))]
    /\ QuerySet.first AssignmentComment.id
         (solutions_of (StudentAssignment.id sa) (db w')) = Some solution
    /\ In solution (comments (db w'))
    /\ AssignmentComment.type solution = SOLUTION
    /\ AssignmentComment.student_assignment solution = StudentAssignment.id sa
    /\ (solutions_of (StudentAssignment.id sa) (db w) = [] ->
        comments (db w') = comments (db w) ++ [solution]
        /\ ~ In (AssignmentComment.id solution)
                (map AssignmentComment.id (comments (db w)))
        /\ AssignmentComment.text solution = "Seeded solution for review"
        /\ AssignmentComment.author solution = User.id student
        /\ AssignmentComment.is_published solution = true)
    /\ (solutions_of (StudentAssignment.id sa) (db w) <> [] ->
        comments (db w') = comments (db w) /\ In solution (comments (db w))).
Proof.
  intros frame Hs Ht Hlen Hsa.
  destruct (seed_review_item_outcome course a su tu w student teacher Hs Ht Hlen)
    as (w' & Hrun & Hout).
  cbv zeta in Hout. rewrite Hsa in Hout.
  destruct Hout as (d & Hdb & _ & _ & Hcms & _ & _ & _ & Htrace).
  assert (comments (db w')
          = comments_after (StudentAssignment.id sa) (User.id student)
              (comments (db w))) as Hc.
  { rewrite Hdb.
    destruct (proj2 frame (StudentAssignment.id sa) d) as (_ & _ & _ & _ & K).
    congruence. }
  exists w', (seeded_solution (StudentAssignment.id sa) (User.id student)
                (comments (db w))).
  unfold solutions_of. rewrite Hc.
  pose proof (seeded_solution_spec (StudentAssignment.id sa) (User.id student)
                (comments (db w))) as H.
  cbv zeta in H. tauto.
Qed.

Lemma seed_review_item_seeds_solution_witness :
  exists w' solution,
    @_seed_review_item Demo.externals DemoMore.algorithms DemoMore.homework
      "alice" "bob" DemoMore.seeded_world = (inr tt, w')
    /\ comments (db w') = [solution]
    /\ AssignmentComment.author solution = 10
    /\ AssignmentComment.is_published solution = true.
Proof.
  destruct (@seed_review_item_seeds_solution Demo.externals DemoMore.algorithms
              DemoMore.homework "alice" "bob" DemoMore.seeded_world
              DemoMore.alice DemoMore.bob DemoMore.alices_row demo_services_frame
              eq_refl eq_refl (le_S _ _ (le_n 0)) eq_refl)
    as (w' & solution & Hrun & _ & _ & _ & _ & _ & Hnew & _).
  destruct (Hnew eq_refl) as (Hc & _ & _ & Ha & Hp).
  exists w', solution. repeat split; assumption.
Defined.

(** X4. With valid arguments and two or more assignments of the course
    under the stripped title, the run raises [MultipleObjectsReturned] and
    leaves the world as it was: no row is written, no service is called
    and nothing is printed. *)
Theorem duplicate_assignments_raise {E : Externals}
    (options : Options) (w : World) (course : Course.t)
    (dt : datetime) (wt : decimal) :
  find_course options (db w) = Some course ->
  strptime (deadline options) = Some dt ->
  Decimal (weight options) = inr wt ->
  (2 <= List.length (filter (same_assignment_key (Course.id course)
                               (strip (title options)))
                       (assignments (db w))))%nat ->
  handle options w = (inl MultipleObjectsReturned, w).
Proof.
  intros Hc Hd Hw Hlen. now apply (duplicate_rows_raise options w course dt wt).
Qed.

Lemma duplicate_assignments_raise_witness :
  @handle Demo.externals Demo.options DemoMore.duplicates_world
  = (inl MultipleObjectsReturned, DemoMore.duplicates_world).
Proof.
  apply (@duplicate_assignments_raise Demo.externals Demo.options
           DemoMore.duplicates_world DemoMore.algorithms DemoMore.parsed_deadline
           (Finite false 100 (-2)) eq_refl eq_refl eq_refl).
  apply le_n.
Defined.

(** X5. A seeding that fails does not undo the run.  Take a run with
    [--seed-review] whose run without the flag succeeds and leaves [w0].
    When both users exist there but two or more rows link the teacher to
    the course, the run raises [MultipleObjectsReturned]; the database is
    the one of the run without the flag, with the assignment created or
    updated and the statistics recalculated, and only the success message
    is missing from the trace. *)
Theorem failed_seeding_keeps_the_assignment {E : Externals}
    (options : Options) (w w0 : World) (course : Course.t) (su tu : string)
    (student teacher : User.t) :
  seed_review options = true ->
  find_course options (db w) = Some course ->
  handle (without_seed_review options) w = (inr tt, w0) ->
  usernames options = Some (su, tu) ->
  user_by_username su (db w0) = Some student ->
  user_by_username tu (db w0) = Some teacher ->
  (2 <= List.length (filter (same_course_teacher (Course.id course) (User.id teacher))
                       (course_teachers (db w0))))%nat ->
  exists pre success,
    trace w0 = pre ++ [Stdout success]
    /\ handle options w
       = (inl MultipleObjectsReturned, {| db := db w0; trace := pre |}).
Proof.
  intros Hseed Hc Hrun Hnames Hs Ht Hlen.
  destruct (handle_success_valid _ _ _ Hrun) as (c' & dt & wt & Hc' & Hd & Hw & Hle).
  change (find_course (without_seed_review options) (db w))
    with (find_course options (db w)) in Hc'.
  rewrite Hc in Hc'. injection Hc' as <-.
  cbn [without_seed_review deadline weight title] in Hd, Hw, Hle.
  destruct (handle_outcome options w course dt wt Hc Hd Hw Hle)
    as (a & created & w1 & Hhandle & Hoff & _).
  rewrite Hoff in Hrun. injection Hrun as <-.
  cbn [say db] in Hs, Ht, Hlen.
  rewrite Hhandle. unfold seed_step. rewrite Hseed, Hnames.
  rewrite (seed_review_item_ambiguous course a su tu _ student teacher Hs Ht Hlen).
  eexists _, _. split; reflexivity.
Qed.

Lemma failed_seeding_keeps_the_assignment_witness :
  exists pre,
    @handle Demo.externals Demo.options DemoMore.ambiguous_world
    = (inl MultipleObjectsReturned,
       {| db := db (snd (@handle Demo.externals (without_seed_review Demo.options)
                           DemoMore.ambiguous_world));
          trace := pre |}).
Proof.
  destruct (@failed_seeding_keeps_the_assignment Demo.externals Demo.options
              DemoMore.ambiguous_world
              (snd (@handle Demo.externals (without_seed_review Demo.options)
                      DemoMore.ambiguous_world))
              DemoMore.algorithms "alice" "bob" DemoMore.alice DemoMore.bob
              eq_refl eq_refl eq_refl eq_refl eq_refl eq_refl (le_n 2))
    as (pre & success & Htrace & Hrun).
  exists pre. exact Hrun.
Defined.

(** X6. A run keeps primary keys unique in the three tables it writes
    itself: when the keys of [Assignment], [CourseTeacher] and
    [AssignmentComment] are unique before a run they are unique after it,
    whatever the options and however the run ends. *)
Theorem handle_keeps_primary_keys_unique {E : Externals}
    (options : Options) (w : World) :
  services_frame E ->
  NoDup (map Assignment.id (assignments (db w))) ->
  NoDup (map CourseTeacher.id (course_teachers (db w))) ->
  NoDup (map AssignmentComment.id (comments (db w))) ->
  let w' := snd (handle options w) in
  NoDup (map Assignment.id (assignments (db w')))
  /\ NoDup (map CourseTeacher.id (course_teachers (db w')))
  /\ NoDup (map AssignmentComment.id (comments (db w'))).
Proof.
  intros frame Ha Hct Hcm w'. unfold w'.
  pose proof (handle_steps options w) as Hsteps.
  destruct (find_course options (db w)) as [course|] eqn:Hc;
    [|rewrite Hsteps; now repeat split].
  destruct (strptime (deadline options)) as [dt|] eqn:Hd;
    [|rewrite Hsteps; now repeat split].
  destruct (Decimal (weight options)) as [e|wt] eqn:Hw;
    [rewrite Hsteps; now repeat split|].
  clear Hsteps.
  destruct (le_lt_dec
              (List.length (filter (same_assignment_key (Course.id course)
                                      (strip (title options)))
                              (assignments (db w)))) 1) as [Hle|Hgt].
  2:{ rewrite (duplicate_rows_raise options w course dt wt Hc Hd Hw) by lia.
      now repeat split. }
  split.
  - pose proof (handle_assignment_rows frame options w course dt wt Hc Hd Hw) as Hrows.
    cbv zeta in Hrows.
    destruct (filter _ (assignments (db w))) as [|a0 [|a1 l]];
      [| |cbn in Hle; lia].
    + rewrite Hrows. now apply NoDup_fresh.
    + rewrite Hrows. now rewrite update_key_fields_ids.
  - destruct (handle_outcome options w course dt wt Hc Hd Hw Hle)
      as (a & created & w1 & Hhandle & _ & _ & _ & _ & Hct1 & _ & Hcm1 & _).
    destruct (before_seed_tables frame a w1) as (_ & _ & _ & Hct2 & Hcm2).
    destruct (seed_step_keys frame options course a (before_seed a w1)) as [K1 K2].
    { now rewrite Hct2, Hct1. }
    { now rewrite Hcm2, Hcm1. }
    rewrite Hhandle.
    destruct (seed_step options course a (before_seed a w1)) as [[e|[]] w2];
      cbn [snd say db] in *; now split.
Qed.

Lemma handle_keeps_primary_keys_unique_witness :
  NoDup (map Assignment.id
           (assignments (db (snd (@handle Demo.externals Demo.options Demo.world)))))
  /\ NoDup (map CourseTeacher.id
              (course_teachers (db (snd (@handle Demo.externals Demo.options Demo.world)))))
  /\ NoDup (map AssignmentComment.id
              (comments (db (snd (@handle Demo.externals Demo.options Demo.world))))).
Proof.
  apply (@handle_keeps_primary_keys_unique Demo.externals Demo.options Demo.world
           demo_services_frame); apply NoDup_nil.
Defined.

(** X7. The success message names the assignment of the run: a run that
    returns normally ends its trace with a success message that carries the
    stripped title and the deadline made aware in UTC; its [created] flag is
    true exactly when no assignment of the course had that title before,
    and its id is then a new primary key, otherwise the id of the one
    assignment found. *)
Theorem success_message_reports_the_assignment {E : Externals}
    (options : Options) (w w' : World) :
  handle options w = (inr tt, w') ->
  exists course dt pre aid created,
    find_course options (db w) = Some course
    /\ strptime (deadline options) = Some dt
    /\ trace w' = pre ++ [Stdout (SUCCESS_assignment aid (strip (title options))
                                    (make_aware_utc dt) created)]
    /\ (created = true <->
        filter (same_assignment_key (Course.id course) (strip (title options)))
               (assignments (db w)) = [])
    /\ (created = true -> ~ In aid (map Assignment.id (assignments (db w))))
    /\ (created = false ->
        exists a0,
          filter (same_assignment_key (Course.id course) (strip (title options)))
                 (assignments (db w)) = [a0]
          /\ aid = Assignment.id a0).
Proof.
  intros Hrun.
  destruct (handle_success_valid _ _ _ Hrun) as (course & dt & wt & Hc & Hd & Hw & Hle).
  destruct (handle_outcome options w course dt wt Hc Hd Hw Hle)
    as (a & created & w1 & Hhandle & _ & _ & _ & _ & _ & _ & _
        & Htitle & _ & Hdl & Hnew & Hold).
  rewrite Hhandle in Hrun.
  destruct (seed_step options course a (before_seed a w1)) as [[e|[]] w2];
    [discriminate|]. injection Hrun as <-.
  exists course, dt, (trace w2), (Assignment.id a), created.
  split; [assumption|]. split; [assumption|]. split.
  { unfold say, success_of. cbn [trace]. now rewrite Htitle, Hdl. }
  split; [|split].
  - split; [apply Hnew|]. intros Hnone. destruct created; [reflexivity|].
    destruct (Hold eq_refl) as (a0 & Hf & _). rewrite Hf in Hnone. discriminate.
  - intros Hcr. destruct (Hnew Hcr) as (_ & Hid & _). rewrite Hid.
    intros Hin. apply in_map_iff in Hin. destruct Hin as (y & Hy & Hin).
    pose proof (next_pk_fresh Assignment.id _ y Hin). lia.
  - intros Hcr. destruct (Hold Hcr) as (a0 & Hf & Hid & _). now exists a0.
Qed.

Lemma success_message_reports_the_assignment_witness :
  exists pre aid,
    trace (snd (@handle Demo.externals Demo.options Demo.world))
    = pre ++ [Stdout (SUCCESS_assignment aid "Homework 1"
                        (make_aware_utc DemoMore.parsed_deadline) true)].
Proof.
  destruct (@success_message_reports_the_assignment Demo.externals Demo.options
              Demo.world (snd (@handle Demo.externals Demo.options Demo.world))
              eq_refl)
    as (course & dt & pre & aid & created & Hc & Hd & Htrace & Hcr & _).
  injection Hc as <-. injection Hd as <-.
  assert (created = true) as -> by (apply Hcr; reflexivity).
  exists pre, aid. exact Htrace.
Defined.

(** X8. The title is keyed without its outer whitespace: the stripped
    title neither begins nor ends with a whitespace character, stripping it
    again changes nothing, and a run under the stripped title is the run
    under the title as given. *)
Theorem title_is_keyed_without_outer_whitespace {E : Externals}
    (t : string) (options : Options) (w : World) :
  (forall c, first_char (strip t) = Some c -> isspace c = false)
  /\ (forall c, last_char (strip t) = Some c -> isspace c = false)
  /\ strip (strip t) = strip t
  /\ handle (with_title (strip t) options) w = handle (with_title t options) w.
Proof.
  split; [|split; [|split]].
  - intros c Hc. unfold strip in Hc.
    destruct (rstrip (lstrip t)) as [|x r] eqn:Hr; [discriminate|].
    injection Hc as ->. apply rstrip_head in Hr. destruct Hr as [r' Hr].
    exact (lstrip_head _ _ _ Hr).
  - intros c. unfold strip. apply rstrip_last.
  - apply strip_idempotent.
  - rewrite !handle_steps.
    change (find_course (with_title (strip t) options) (db w))
      with (find_course (with_title t options) (db w)).
    cbn [with_title title deadline weight submission_type].
    rewrite strip_idempotent. reflexivity.
Qed.

(** X9. A run never writes [Course] or [User] rows, and without
    [--seed-review] it writes no [CourseTeacher] row and no comment. *)
Theorem handle_leaves_courses_and_users {E : Externals}
    (options : Options) (w : World) :
  services_frame E ->
  let w' := snd (handle options w) in
  courses (db w') = courses (db w)
  /\ users (db w') = users (db w)
  /\ (seed_review options = false ->
      course_teachers (db w') = course_teachers (db w)
      /\ comments (db w') = comments (db w)).
Proof.
  intros frame w'. unfold w'. rewrite handle_steps.
  destruct (find_course options (db w)) as [course|]; [|now repeat split].
  destruct (strptime (deadline options)) as [dt|]; [|now repeat split].
  destruct (Decimal (weight options)) as [e|wt]; [now repeat split|].
  unfold bind. rewrite create_or_update_eq.
  destruct (filter _ (assignments (db w))) as [|a0 [|a1 l]]; cbv beta iota zeta;
    cbn [fst snd]; [| |now repeat split].
  all: match goal with |- context [follow_up ?o ?c ?a ?cr ?w0] =>
         pose proof (follow_up_catalogue frame o c a cr w0) as (H1 & _ & H3);
         pose proof (follow_up_eq o c a cr w0) as Heq;
         destruct (before_seed_tables frame a w0) as (_ & _ & _ & B4 & B5)
       end.
  all: cbn [db courses users set_assignments] in H1, H3.
  all: split; [exact H1|]; split; [exact H3|]; intros Hoff.
  all: unfold seed_step in Heq; rewrite Hoff in Heq; unfold ret in Heq;
    rewrite Heq; cbn [snd say db]; rewrite B4, B5; now split.
Qed.

Lemma handle_leaves_courses_and_users_witness :
  courses (db (snd (@handle Demo.externals Demo.options Demo.world)))
  = courses Demo.database
  /\ users (db (snd (@handle Demo.externals Demo.options Demo.world)))
     = users Demo.database.
Proof.
  destruct (@handle_leaves_courses_and_users Demo.externals Demo.options Demo.world
              demo_services_frame) as (Hc & Hu & _).
  split; assumption.
Defined.

(** X10. A run changes no assignment but its own: with unique primary
    keys, every assignment that is not of the run's course and stripped
    title is in the table after the run as it was before, and the run adds
    at most one row. *)
Theorem other_assignments_are_untouched {E : Externals}
    (options : Options) (w : World) (a : Assignment.t) :
  services_frame E ->
  NoDup (map Assignment.id (assignments (db w))) ->
  In a (assignments (db w)) ->
  (forall course, find_course options (db w) = Some course ->
     same_assignment_key (Course.id course) (strip (title options)) a = false) ->
  let w' := snd (handle options w) in
  In a (assignments (db w'))
  /\ (List.length (assignments (db w')) <= S (List.length (assignments (db w))))%nat.
Proof.
  intros frame Hnd Hin Hkey w'. unfold w'.
  pose proof (handle_steps options w) as Hsteps.
  destruct (find_course options (db w)) as [course|] eqn:Hc;
    [|rewrite Hsteps; split; [assumption | cbn; lia]].
  destruct (strptime (deadline options)) as [dt|] eqn:Hd;
    [|rewrite Hsteps; split; [assumption | cbn; lia]].
  destruct (Decimal (weight options)) as [e|wt] eqn:Hw;
    [rewrite Hsteps; split; [assumption | cbn; lia]|].
  clear Hsteps. specialize (Hkey course eq_refl).
  pose proof (handle_assignment_rows frame options w course dt wt Hc Hd Hw) as Hrows.
  cbv zeta in Hrows.
  destruct (filter (same_assignment_key (Course.id course) (strip (title options)))
              (assignments (db w))) as [|a0 [|a1 l]] eqn:Hf.
  - rewrite Hrows. split; [apply in_or_app; now left|].
    rewrite length_app. cbn. lia.
  - rewrite Hrows. split.
    + unfold update_key_fields. apply in_map_iff. exists a. split; [|assumption].
      destruct (Assignment.id a =? Assignment.id a0) eqn:Hid; [|reflexivity].
      apply Z.eqb_eq in Hid.
      assert (In a0 (assignments (db w))
              /\ same_assignment_key (Course.id course) (strip (title options)) a0
                 = true) as [Hin0 Hk0].
      { apply filter_In. rewrite Hf. now left. }
      rewrite (same_key_same_row Assignment.id _ a a0 Hnd Hin Hin0 Hid) in Hkey.
      congruence.
    + unfold update_key_fields. rewrite length_map. lia.
  - destruct Hrows as [-> _]. split; [assumption | lia].
Qed.

Lemma other_assignments_are_untouched_witness :
  In DemoMore.homework
     (assignments (db (snd (@handle Demo.externals Demo.options_zero_score
                              DemoMore.seeded_world)))).
Proof.
  apply (@other_assignments_are_untouched Demo.externals Demo.options_zero_score
           DemoMore.seeded_world DemoMore.homework demo_services_frame).
  - repeat constructor. intros [].
  - left. reflexivity.
  - intros course [= <-]. reflexivity.
Defined.

(** X11. A run with [--seed-review] that returns normally reports the
    seeding exactly once, between the statistics calls and the success
    message of the run without the flag: either one warning, or the
    statistics call and success message of a seeded review.  A review is
    seeded only when both user names are given, both users exist and the
    student has a [StudentAssignment] for the assignment of the run. *)
Theorem seeding_reports_once {E : Externals}
    (options : Options) (w w' : World) :
  seed_review options = true ->
  handle options w = (inr tt, w') ->
  exists w0 pre aid t dl created,
    handle (without_seed_review options) w = (inr tt, w0)
    /\ trace w0 = pre ++ [Stdout (SUCCESS_assignment aid t dl created)]
    /\ ((exists warning,
           trace w' = pre ++ [Stdout (WARNING warning);
                              Stdout (SUCCESS_assignment aid t dl created)])
        \/ (exists su tu student teacher sa solution_id,
              usernames options = Some (su, tu)
              /\ user_by_username su (db w0) = Some student
              /\ user_by_username tu (db w0) = Some teacher
              /\ In sa (student_assignments (db w0))
              /\ StudentAssignment.assignment sa = aid
              /\ StudentAssignment.student sa = User.id student
              /\ trace w' = pre ++ [Call_update_stats (StudentAssignment.id sa);
                                    Stdout (SUCCESS_review (StudentAssignment.id sa)
                                              solution_id);
                                    Stdout (SUCCESS_assignment aid t dl created)])).
Proof.
  intros Hseed Hrun.
  destruct (handle_success_valid _ _ _ Hrun) as (course & dt & wt & Hc & Hd & Hw & Hle).
  destruct (handle_outcome options w course dt wt Hc Hd Hw Hle)
    as (a & created & w1 & Hhandle & Hoff & _).
  rewrite Hhandle in Hrun.
  exists (say (success_of a created) (before_seed a w1)), (trace (before_seed a w1)),
    (Assignment.id a), (Assignment.title a), (Assignment.deadline_at a), created.
  split; [exact Hoff|]. split; [reflexivity|].
  destruct (seed_step_cases options course a (before_seed a w1) Hseed)
    as [(warning & w2 & Hstep & Htrace & _)
       | [Hstep
         | (su & tu & student & teacher & sa & w2 & Hn & Hs & Ht & Hlen & Hsa
            & Hstep & Hitem)]].
  - rewrite Hstep in Hrun. injection Hrun as <-. left. exists warning.
    unfold say. cbn [trace]. rewrite Htrace, <- app_assoc. reflexivity.
  - rewrite Hstep in Hrun. discriminate.
  - rewrite Hstep in Hrun. injection Hrun as <-. right.
    destruct (seed_review_item_outcome course a su tu (before_seed a w1)
                student teacher Hs Ht Hlen) as (w3 & Hitem' & Hout).
    rewrite Hitem in Hitem'. injection Hitem' as <-.
    cbv zeta in Hout. rewrite Hsa in Hout.
    destruct Hout as (d & _ & _ & _ & _ & _ & _ & _ & Htrace).
    unfold student_assignment_of in Hsa. apply first_spec in Hsa.
    destruct Hsa as [Hin _]. apply filter_In in Hin. destruct Hin as [Hin Hm].
    unfold same_student_assignment in Hm. apply andb_true_iff in Hm.
    destruct Hm as [Hma Hms]. apply Z.eqb_eq in Hma, Hms.
    eexists su, tu, student, teacher, sa, _.
    repeat match goal with |- _ /\ _ => split end; try eassumption.
    unfold say. cbn [trace]. rewrite Htrace, <- app_assoc. reflexivity.
Qed.

Lemma seeding_reports_once_witness :
  exists pre aid t dl created,
    (exists warning,
        trace (snd (@handle Demo.externals Demo.options_no_teacher Demo.world))
        = pre ++ [Stdout (WARNING warning);
                  Stdout (SUCCESS_assignment aid t dl created)])
    \/ (exists sa_id solution_id,
          trace (snd (@handle Demo.externals Demo.options_no_teacher Demo.world))
          = pre ++ [Call_update_stats sa_id;
                    Stdout (SUCCESS_review sa_id solution_id);
                    Stdout (SUCCESS_assignment aid t dl created)]).
Proof.
  destruct (@seeding_reports_once Demo.externals Demo.options_no_teacher Demo.world
              (snd (@handle Demo.externals Demo.options_no_teacher Demo.world))
              eq_refl eq_refl)
    as (w0 & pre & aid & t & dl & created & _ & _ & [(warning & H)|H]).
  - exists pre, aid, t, dl, created. left. now exists warning.
  - destruct H as (su & tu & student & teacher & sa & solution_id & _ & _ & _ & _
                   & _ & _ & H).
    exists pre, aid, t, dl, created. right.
    exists (StudentAssignment.id sa), solution_id. exact H.
Defined.
(* ===================================================================== *)
(** * Properties of markdown rendering *)
(* ===================================================================== *)

Module MarkdownFacts.
Import Markdown.

(** ** The sanitizer writes no script tag *)

Lemma contains_other c r :
  Ascii.eqb "<" c = false -> contains script (c :: r) = contains script r.
Proof.
  intros H. unfold script, lit.
  cbn [list_ascii_of_string contains starts_with]. now rewrite H.
Qed.

Lemma lookup_tag_In name tags t : lookup_tag name tags = Some t -> In t tags.
Proof.
  induction tags as [|x tags IH]; simpl; [discriminate|].
  destruct (chars_eqb name x).
  - intros [= ->]. now left.
  - intros H. right. auto.
Qed.

(** No allowed tag, written back, begins a script tag. *)
Lemma allowed_tags_text :
  Forall (fun t => forall closing out,
              contains script (tag_text closing t ++ out) = contains script out)
         ALLOWED_TAGS.
Proof. repeat constructor; intros [] out; reflexivity. Qed.

(** The sanitizer never writes [<script], whatever it reads. *)
Lemma clean_from_no_script s : forall skip, contains script (clean_from skip s) = false.
Proof.
  induction s as [|c rest IH]; intros skip; [reflexivity|].
  cbn [clean_from]. destruct skip as [|k]; [|apply IH].
  destruct (Ascii.eqb c "<") eqn:Hlt.
  - destruct (parse_tag rest) as [[[closing name] len]|].
    + destruct (lookup_tag name ALLOWED_TAGS) as [t|] eqn:Ht; [|apply IH].
      apply lookup_tag_In in Ht.
      pose proof allowed_tags_text as Hall. rewrite Forall_forall in Hall.
      rewrite (Hall t Ht). apply IH.
    + cbn. apply IH.
  - destruct (Ascii.eqb c ">"); [cbn; apply IH|].
    destruct (Ascii.eqb c "&"); [cbn; apply IH|].
    rewrite contains_other; [apply IH|].
    now rewrite Ascii.eqb_sym.
Qed.

(** ** Texts and pages as characters *)

Lemma lit_app s1 s2 : lit (s1 ++ s2)%string = lit s1 ++ lit s2.
Proof.
  unfold lit. induction s1 as [|c s1 IH]; cbn; [reflexivity | now rewrite IH].
Qed.

Lemma contains_here needle pre post :
  contains needle (pre ++ needle ++ post) = true.
Proof.
  assert (forall n p, starts_with n (n ++ p) = true) as Hs.
  { induction n as [|c n IH]; intros p; cbn; [reflexivity|].
    now rewrite Ascii.eqb_refl, IH. }
  assert (forall n h, starts_with n h = true -> contains n h = true) as Hc.
  { intros n h H. destruct h; cbn [contains]; now rewrite H. }
  induction pre as [|c pre IH]; cbn [app].
  - apply Hc, Hs.
  - cbn [contains]. rewrite IH. apply orb_true_r.
Qed.

(** A rendered page as characters. *)
Lemma lit_render text : lit (render_markdown text) = clean (markdown (lit text)).
Proof. unfold render_markdown, lit. apply list_ascii_of_string_of_list_ascii. Qed.

Lemma occurs_at needle html pre post :
  lit html = pre ++ lit needle ++ post -> occurs_in needle html = true.
Proof.
  unfold occurs_in. fold (lit html). fold (lit needle).
  intros ->. apply contains_here.
Qed.

(** ** What the sanitizer leaves as it is *)

Lemma clean_plain c r :
  is_plain c = true -> clean_from O (c :: r) = c :: clean_from O r.
Proof.
  unfold is_plain. intros H. apply andb_true_iff in H. destruct H as [H H3].
  apply andb_true_iff in H. destruct H as [H1 H2].
  apply negb_true_iff in H1, H2, H3. cbn [clean_from]. now rewrite H1, H2, H3.
Qed.

(** An allowed tag without attributes is written back as it is. *)
Lemma allowed_tags_clean :
  Forall (fun t => forall closing r,
              clean_from O (tag_text closing t ++ r)
              = tag_text closing t ++ clean_from O r)
         ALLOWED_TAGS.
Proof. repeat constructor; intros [] r; reflexivity. Qed.

Lemma clean_tag t closing r :
  lookup_tag t ALLOWED_TAGS = Some t ->
  clean_from O (tag_text closing t ++ r) = tag_text closing t ++ clean_from O r.
Proof.
  intros H. apply lookup_tag_In in H.
  pose proof allowed_tags_clean as Hall. rewrite Forall_forall in Hall.
  now apply Hall.
Qed.

(** ** Blocks *)

Lemma is_row_not_blank l : is_row l = true -> is_blank l = false.
Proof.
  unfold is_row, is_blank. induction l as [|c l IH]; cbn [existsb forallb];
    [discriminate|].
  intros H. apply orb_true_iff in H. destruct H as [H|H].
  - apply Ascii.eqb_eq in H. subst c. reflexivity.
  - rewrite (IH H). apply andb_false_r.
Qed.

Lemma take_while_firstn {A} (p : A -> bool) l :
  firstn (List.length (take_while p l)) l = take_while p l.
Proof.
  induction l as [|x l IH]; cbn [take_while]; [reflexivity|].
  destruct (p x); cbn [List.length firstn]; [now rewrite IH | reflexivity].
Qed.

Lemma take_while_all {A} (p : A -> bool) l : forallb p (take_while p l) = true.
Proof.
  induction l as [|x l IH]; cbn [take_while]; [reflexivity|].
  destruct (p x) eqn:Hx; cbn [forallb]; [now rewrite Hx, IH | reflexivity].
Qed.

Lemma take_while_app {A} (p : A -> bool) l r :
  forallb p l = true -> take_while p (l ++ r) = l ++ take_while p r.
Proof.
  induction l as [|x l IH]; cbn [app forallb take_while]; [reflexivity|].
  intros H. apply andb_true_iff in H. destruct H as [Hx Hl].
  now rewrite Hx, (IH Hl).
Qed.

(** Lines that a block has taken are not blank, so a blank line is read
    with nothing left to skip. *)
Lemma blocks_to_blank ls : forall k x rest,
  is_blank x = true ->
  forallb not_blank (firstn k (ls ++ x :: rest)) = true ->
  exists bs, blocks k (ls ++ x :: rest) = bs ++ blocks O rest.
Proof.
  induction ls as [|l ls IH]; intros k x rest Hx Hk.
  - destruct k as [|k].
    + exists []. cbn [app blocks]. now rewrite Hx.
    + cbn [app firstn forallb] in Hk. unfold not_blank at 1 in Hk.
      rewrite Hx in Hk. discriminate.
  - cbn [app blocks]. destruct k as [|k].
    + destruct (is_blank l) eqn:Hl; [now apply IH|].
      destruct (heading l) as [[n t]|].
      { destruct (IH O x rest Hx eq_refl) as [bs Hbs].
        exists (Heading n t :: bs). now rewrite Hbs. }
      remember (ls ++ x :: rest) as R eqn:HR.
      destruct R as [|sep body]; [destruct ls; discriminate|].
      destruct (is_row l && is_separator sep) eqn:Ht.
      * apply andb_true_iff in Ht. destruct Ht as [_ Hsep].
        unfold is_separator in Hsep. apply andb_true_iff in Hsep.
        destruct Hsep as [Hsep _]. apply is_row_not_blank in Hsep.
        destruct (IH (S (List.length (take_while is_row body))) x rest Hx) as [bs Hbs].
        { rewrite <- HR. cbn [firstn forallb]. unfold not_blank at 1.
          rewrite Hsep. cbn [negb andb]. rewrite take_while_firstn.
          pose proof (take_while_all is_row body) as Hall.
          rewrite forallb_forall in Hall |- *. intros r Hr.
          unfold not_blank. now rewrite (is_row_not_blank r (Hall r Hr)). }
        rewrite <- HR in Hbs. rewrite Hbs. eexists (_ :: bs). reflexivity.
      * destruct (IH (List.length (take_while (fun x => negb (is_blank x))
                                   (sep :: body))) x rest Hx) as [bs Hbs].
        { rewrite <- HR. rewrite take_while_firstn. apply take_while_all. }
        rewrite <- HR in Hbs. rewrite Hbs. eexists (_ :: bs). reflexivity.
    + apply IH; [exact Hx|]. cbn [app firstn forallb] in Hk.
      apply andb_true_iff in Hk. tauto.
Qed.

Lemma blocks_at_start before rest :
  starts_block before = true ->
  exists bs, blocks O (before ++ rest) = bs ++ blocks O rest.
Proof.
  unfold starts_block. intros H.
  destruct (rev before) as [|l r] eqn:Hr.
  - apply (f_equal (@rev _)) in Hr. rewrite rev_involutive in Hr. subst before.
    now exists [].
  - apply (f_equal (@rev _)) in Hr. rewrite rev_involutive in Hr. subst before.
    cbn [rev]. rewrite <- app_assoc. cbn [app].
    now apply blocks_to_blank.
Qed.

(** ** The sanitizer on text put together from pieces *)

Lemma ends_gt_cons c s : s <> [] -> ends_gt (c :: s) -> ends_gt s.
Proof.
  intros Hne [s' Hs]. destruct s' as [|c' s'].
  - cbn in Hs. injection Hs as _ Hs. congruence.
  - cbn in Hs. injection Hs as _ Hs. now exists s'.
Qed.

Lemma ends_gt_app x s : ends_gt s -> ends_gt (x ++ s).
Proof. intros [s' ->]. exists (x ++ s'). now rewrite app_assoc. Qed.

Lemma ends_gt_single c : ends_gt [c] -> c = ">"%char.
Proof.
  intros [s' Hs]. destruct s' as [|c' s'].
  - now injection Hs.
  - cbn in Hs. injection Hs as _ Hs. destruct s'; discriminate.
Qed.

Lemma span_name_app s r :
  ends_gt s ->
  span_name (s ++ r) = (fst (span_name s), snd (span_name s) ++ r)
  /\ ends_gt (snd (span_name s))
  /\ (List.length (fst (span_name s)) + List.length (snd (span_name s))
      = List.length s)%nat.
Proof.
  induction s as [|c s IH]; intros Hs.
  - destruct Hs as [s' Hs]. destruct s'; discriminate.
  - cbn [app span_name]. destruct (is_alnum c) eqn:Hc.
    + assert (s <> []) as Hne.
      { intros ->. apply ends_gt_single in Hs. subst c. discriminate. }
      destruct (IH (ends_gt_cons c s Hne Hs)) as (H1 & H2 & H3).
      rewrite H1. destruct (span_name s) as [n t]. cbn [fst snd] in *.
      split; [reflexivity|]. split; [assumption | cbn; lia].
    + cbn [fst snd]. split; [reflexivity|]. split; [assumption | reflexivity].
Qed.

Lemma index_gt_app s r :
  ends_gt s ->
  exists k, index_gt s = Some k /\ index_gt (s ++ r) = Some k
            /\ (k < List.length s)%nat.
Proof.
  induction s as [|c s IH]; intros Hs.
  - destruct Hs as [s' Hs]. destruct s'; discriminate.
  - cbn [app index_gt]. destruct (Ascii.eqb c ">") eqn:Hc.
    + exists O. cbn. repeat split. lia.
    + assert (s <> []) as Hne.
      { intros ->. apply ends_gt_single in Hs. subst c. discriminate. }
      destruct (IH (ends_gt_cons c s Hne Hs)) as (k & H1 & H2 & H3).
      rewrite H1, H2. exists (S k). cbn. repeat split. lia.
Qed.

(** A tag that begins in [s] ends in [s], when [s] ends with [>]. *)
Lemma parse_tag_app s r :
  ends_gt s ->
  parse_tag (s ++ r) = parse_tag s
  /\ forall closing name len,
       parse_tag s = Some (closing, name, len) -> (len <= List.length s)%nat.
Proof.
  intros Hs. unfold parse_tag.
  destruct s as [|c s]; [destruct Hs as [s' Hs]; destruct s'; discriminate|].
  cbn [app]. destruct (Ascii.eqb c "/") eqn:Hc.
  - assert (s <> []) as Hne.
    { intros ->. apply ends_gt_single in Hs. subst c. discriminate. }
    destruct (span_name_app s r (ends_gt_cons c s Hne Hs)) as (H1 & H2 & H3).
    rewrite H1. destruct (span_name s) as [name after]. cbn [fst snd] in *.
    destruct name as [|n0 name]; [split; [reflexivity | discriminate]|].
    destruct (index_gt_app after r H2) as (k & Hk1 & Hk2 & Hk3).
    rewrite Hk1, Hk2. split; [reflexivity|].
    intros cl nm len [= _ _ <-]. cbn [List.length] in *. lia.
  - destruct (span_name_app (c :: s) r Hs) as (H1 & H2 & H3).
    cbn [app] in H1. rewrite H1.
    destruct (span_name (c :: s)) as [name after]. cbn [fst snd] in *.
    destruct name as [|n0 name]; [split; [reflexivity | discriminate]|].
    destruct (index_gt_app after r H2) as (k & Hk1 & Hk2 & Hk3).
    rewrite Hk1, Hk2. split; [reflexivity|].
    intros cl nm len [= _ _ <-]. cbn [List.length] in *. lia.
Qed.

Lemma clean_from_app s : forall k r,
  (k <= List.length s)%nat -> s = [] \/ ends_gt s ->
  clean_from k (s ++ r) = clean_from k s ++ clean_from O r.
Proof.
  induction s as [|c s IH]; intros k r Hk Hs.
  - cbn in Hk. assert (k = O) as -> by lia. reflexivity.
  - destruct Hs as [Hs|Hs]; [discriminate|].
    assert (s = [] \/ ends_gt s) as Hs'.
    { destruct s as [|c' s]; [now left|]. right.
      apply (ends_gt_cons c); [discriminate | exact Hs]. }
    cbn [app clean_from]. destruct k as [|k].
    2:{ apply IH; [cbn in Hk; lia | exact Hs']. }
    destruct (Ascii.eqb c "<") eqn:Hc.
    + assert (ends_gt s) as Hg.
      { destruct Hs' as [->|Hg]; [|exact Hg].
        apply ends_gt_single in Hs. subst c. discriminate. }
      destruct (parse_tag_app s r Hg) as [H1 H2]. rewrite H1.
      destruct (parse_tag s) as [[[closing name] len]|].
      * specialize (H2 closing name len eq_refl).
        destruct (lookup_tag name ALLOWED_TAGS) as [t|];
          rewrite (IH len r H2 Hs'); [|reflexivity].
        now rewrite <- app_assoc.
      * rewrite (IH O r (Nat.le_0_l _) Hs'). now rewrite <- app_assoc.
    + destruct (Ascii.eqb c ">");
        [rewrite (IH O r (Nat.le_0_l _) Hs'); now rewrite <- app_assoc|].
      destruct (Ascii.eqb c "&");
        [rewrite (IH O r (Nat.le_0_l _) Hs'); now rewrite <- app_assoc|].
      now rewrite (IH O r (Nat.le_0_l _) Hs').
Qed.

Lemma closed_nil : closed [].
Proof. intros r. reflexivity. Qed.

Lemma closed_app s1 s2 : closed s1 -> closed s2 -> closed (s1 ++ s2).
Proof.
  intros H1 H2 r. rewrite <- app_assoc, H1, H2, H1. now rewrite app_assoc.
Qed.

Lemma closed_concat ss : Forall closed ss -> closed (List.concat ss).
Proof.
  induction 1 as [|s ss Hs _ IH]; cbn [List.concat];
    [apply closed_nil | now apply closed_app].
Qed.

Lemma closed_ends_gt s : ends_gt s -> closed s.
Proof. intros Hs r. apply clean_from_app; [lia | now right]. Qed.

Lemma closed_char c : Ascii.eqb c "<" = false -> closed [c].
Proof.
  intros Hc r. cbn [app clean_from]. rewrite Hc.
  destruct (Ascii.eqb c ">"); [reflexivity|].
  destruct (Ascii.eqb c "&"); reflexivity.
Qed.

Lemma closed_text s : has_char "<" s = false -> closed s.
Proof.
  unfold has_char. induction s as [|c s IH]; cbn [existsb]; [intros _; apply closed_nil|].
  intros H. apply orb_false_iff in H. destruct H as [Hc Hs].
  change (c :: s) with ([c] ++ s). apply closed_app; [|auto].
  apply closed_char. now rewrite Ascii.eqb_sym.
Qed.

Lemma ends_gt_tag closing name : ends_gt (tag_text closing name).
Proof.
  unfold tag_text. exists (lit "<" ++ (if closing then lit "/" else []) ++ name).
  now rewrite <- !app_assoc.
Qed.

Lemma closed_tag closing name : closed (tag_text closing name).
Proof. apply closed_ends_gt, ends_gt_tag. Qed.

Lemma closed_newline : closed [newline].
Proof. now apply closed_char. Qed.

Lemma clean_plain_app e r :
  plain e = true -> clean_from O (e ++ r) = e ++ clean_from O r.
Proof.
  unfold plain. induction e as [|c e IH]; cbn [app forallb]; [reflexivity|].
  intros H. apply andb_true_iff in H. destruct H as [Hc He].
  now rewrite clean_plain, (IH He).
Qed.

(** ** Rendered blocks *)

Lemma ends_gt_render_block b : ends_gt (render_block b).
Proof.
  destruct b; cbn [render_block];
    repeat first [apply ends_gt_tag | apply ends_gt_app].
Qed.

Lemma join_app_cons sep xs y ys :
  join sep (xs ++ y :: ys)
  = List.concat (map (fun x => x ++ sep) xs) ++ y
    ++ match ys with
       | [] => []
       | _ :: _ => sep ++ join sep ys
       end.
Proof.
  induction xs as [|x xs IH]; cbn [app map List.concat].
  - destruct ys; cbn [join]; [now rewrite app_nil_r | reflexivity].
  - cbn [join]. destruct (xs ++ y :: ys) eqn:Hx; [destruct xs; discriminate|].
    rewrite IH, <- !app_assoc. reflexivity.
Qed.

Lemma closed_blocks bs :
  closed (List.concat (map (fun x => x ++ [newline]) (map render_block bs))).
Proof.
  apply closed_concat. rewrite map_map. apply Forall_forall.
  intros s Hs. apply in_map_iff in Hs. destruct Hs as (b & <- & _).
  apply closed_app; [|apply closed_newline].
  apply closed_ends_gt, ends_gt_render_block.
Qed.

(** The page when the blocks of the text are known up to one of them. *)
Lemma clean_markdown text bs b bs' :
  blocks O (lines text) = bs ++ b :: bs' ->
  exists pre rest,
    lit (render_markdown text) = pre ++ clean_from O (render_block b ++ rest).
Proof.
  intros H. rewrite lit_render. unfold clean, markdown.
  fold (lines text). rewrite H, map_app. cbn [map].
  rewrite join_app_cons, (closed_blocks bs). eauto.
Qed.

(** ** Headings and emphasis *)

Lemma heading_h1 x : heading ("#"%char :: " "%char :: x) = Some (1%nat, trim x).
Proof. reflexivity. Qed.

Lemma ltrim_app_nonspace a c r :
  isspace c = false -> ltrim (a ++ c :: r) = ltrim a ++ c :: r.
Proof.
  intros Hc. induction a as [|x a IH]; cbn [app ltrim]; [now rewrite Hc|].
  destruct (isspace x); [exact IH | reflexivity].
Qed.

Lemma rtrim_cons_nonspace c y : isspace c = false -> rtrim (c :: y) = c :: rtrim y.
Proof. intros Hc. cbn [rtrim]. destruct (rtrim y); [now rewrite Hc | reflexivity]. Qed.

Lemma rtrim_app_nonspace x c y :
  isspace c = false -> rtrim (x ++ c :: y) = x ++ c :: rtrim y.
Proof.
  intros Hc. induction x as [|h x IH]; cbn [app]; [now apply rtrim_cons_nonspace|].
  cbn [rtrim]. rewrite IH. destruct x; reflexivity.
Qed.

Lemma ltrim_suffix a : exists p, a = p ++ ltrim a.
Proof.
  induction a as [|c a [p Hp]]; [now exists []|].
  cbn [ltrim]. destruct (isspace c); [|now exists []].
  exists (c :: p). cbn. now f_equal.
Qed.

Lemma has_char_ltrim c a : has_char c a = false -> has_char c (ltrim a) = false.
Proof.
  unfold has_char. destruct (ltrim_suffix a) as [p Hp]. rewrite Hp at 1.
  rewrite existsb_app. intros H. apply orb_false_iff in H. tauto.
Qed.

Lemma inline_text em s r :
  has_star s = false -> inline em (s ++ r) = s ++ inline em r.
Proof.
  unfold has_star. induction s as [|c s IH]; cbn [app existsb inline]; [reflexivity|].
  intros H. apply orb_false_iff in H. destruct H as [Hc Hs].
  rewrite Ascii.eqb_sym in Hc. now rewrite Hc, (IH Hs).
Qed.

Lemma inline_text_end em s : has_star s = false -> inline em s = s.
Proof.
  intros H. rewrite <- (app_nil_r s) at 1. rewrite inline_text by assumption.
  cbn [inline]. apply app_nil_r.
Qed.

Lemma has_star_middle e b : has_star (e ++ "*"%char :: b) = true.
Proof. unfold has_star. rewrite existsb_app. cbn. apply orb_true_r. Qed.

(** The first two stars of a text enclose an emphasis. *)
Lemma inline_emphasis a e b :
  has_star a = false -> has_star e = false ->
  inline false (a ++ "*"%char :: e ++ "*"%char :: b)
  = a ++ tag_text false (lit "em") ++ e ++ tag_text true (lit "em") ++ inline false b.
Proof.
  intros Ha He. rewrite (inline_text _ a _ Ha). f_equal.
  cbn [inline]. change (Ascii.eqb "*" "*") with true. cbv iota.
  rewrite has_star_middle. f_equal.
  rewrite (inline_text _ e _ He). f_equal.
Qed.

Lemma rendered_heading_emphasis text before after a e b :
  lines text = before ++ ("#"%char :: " "%char :: a ++ "*"%char :: e ++ "*"%char :: b)
                  :: after ->
  starts_block before = true ->
  has_char "<" a = false -> has_star a = false ->
  has_star e = false -> plain e = true ->
  exists pre mid post,
    lit (render_markdown text)
    = pre ++ lit "<h1>" ++ mid ++ (lit "<em>" ++ e ++ lit "</em>") ++ post.
Proof.
  intros Hl Hb Hlt Ha He Hp.
  destruct (blocks_at_start before
              (("#"%char :: " "%char :: a ++ "*"%char :: e ++ "*"%char :: b) :: after)
              Hb) as [bs Hbs].
  cbn [blocks] in Hbs. rewrite heading_h1 in Hbs.
  change (is_blank ("#"%char :: " "%char :: a ++ "*"%char :: e ++ "*"%char :: b))
    with false in Hbs. cbv iota in Hbs.
  assert (blocks O (lines text)
          = bs ++ Heading 1 (trim (a ++ "*"%char :: e ++ "*"%char :: b))
               :: blocks O after) as Hblocks.
  { rewrite Hl. exact Hbs. }
  clear Hbs. rename Hblocks into Hbs.
  destruct (clean_markdown _ _ _ _ Hbs) as (pre & rest & Hpage).
  exists pre. rewrite Hpage. cbn [render_block].
  unfold trim. rewrite ltrim_app_nonspace by reflexivity.
  rewrite rtrim_app_nonspace by reflexivity.
  rewrite rtrim_app_nonspace by reflexivity.
  rewrite inline_emphasis by (assumption || now apply has_char_ltrim).
  rewrite <- !app_assoc.
  change (lit "h" ++ [digit_of 1]) with (lit "h1").
  rewrite clean_tag by reflexivity.
  rewrite (closed_text (ltrim a)) by now apply has_char_ltrim.
  rewrite clean_tag by reflexivity.
  rewrite clean_plain_app by assumption.
  rewrite clean_tag by reflexivity.
  exists (clean_from O (ltrim a)),
    (clean_from O (inline false (rtrim b) ++ tag_text true (lit "h1") ++ rest)).
  rewrite <- !app_assoc. reflexivity.
Qed.

(** ** Tables *)

Lemma render_row_cells tag row :
  render_row tag row
  = tag_text false (lit "tr") ++ [newline]
    ++ List.concat (map (render_cell tag) row)
    ++ tag_text true (lit "tr") ++ [newline].
Proof. reflexivity. Qed.

Lemma closed_cell tag c : closed (render_cell tag c).
Proof.
  unfold render_cell. rewrite 2!app_assoc.
  apply closed_app; [|apply closed_newline].
  rewrite <- app_assoc. apply closed_ends_gt.
  do 2 apply ends_gt_app. apply ends_gt_tag.
Qed.

Lemma closed_cells tag row : closed (List.concat (map (render_cell tag) row)).
Proof.
  apply closed_concat, Forall_forall. intros s Hs.
  apply in_map_iff in Hs. destruct Hs as (c & <- & _). apply closed_cell.
Qed.

Lemma closed_row tag row : closed (render_row tag row).
Proof.
  rewrite render_row_cells.
  apply closed_app; [apply closed_tag|].
  apply closed_app; [apply closed_newline|].
  apply closed_app; [apply closed_cells|].
  apply closed_app; [apply closed_tag | apply closed_newline].
Qed.

Lemma closed_rows tag rows : closed (List.concat (map (render_row tag) rows)).
Proof.
  apply closed_concat, Forall_forall. intros s Hs.
  apply in_map_iff in Hs. destruct Hs as (c & <- & _). apply closed_row.
Qed.

Lemma concat_map_middle {A} (f : A -> chars) xs y ys :
  List.concat (map f (xs ++ y :: ys))
  = List.concat (map f xs) ++ f y ++ List.concat (map f ys).
Proof. rewrite map_app, concat_app. reflexivity. Qed.

(** A cell of a row of a table, in the rendered table. *)
Lemma table_cell header R1 C1 v C2 R2 rest :
  exists before_cell after_cell,
    closed before_cell
    /\ render_block (Table header (R1 ++ (C1 ++ v :: C2) :: R2)) ++ rest
       = before_cell
         ++ tag_text false (lit "td") ++ inline false v ++ tag_text true (lit "td")
         ++ after_cell.
Proof.
  exists (tag_text false (lit "table") ++ [newline]
          ++ tag_text false (lit "thead") ++ [newline]
          ++ render_row (lit "th") header
          ++ tag_text true (lit "thead") ++ [newline]
          ++ tag_text false (lit "tbody") ++ [newline]
          ++ List.concat (map (render_row (lit "td")) R1)
          ++ tag_text false (lit "tr") ++ [newline]
          ++ List.concat (map (render_cell (lit "td")) C1)).
  exists ([newline] ++ List.concat (map (render_cell (lit "td")) C2)
          ++ tag_text true (lit "tr") ++ [newline]
          ++ List.concat (map (render_row (lit "td")) R2)
          ++ tag_text true (lit "tbody") ++ [newline]
          ++ tag_text true (lit "table") ++ rest).
  split.
  - repeat first [ apply closed_tag | apply closed_newline | apply closed_row
                 | apply closed_rows | apply closed_cells | apply closed_app ].
  - cbn [render_block]. rewrite concat_map_middle.
    rewrite (render_row_cells (lit "td") (C1 ++ v :: C2)).
    rewrite concat_map_middle. unfold render_cell at 2.
    rewrite <- !app_assoc. reflexivity.
Qed.

Lemma rendered_table text before after header sep rows :
  lines text = before ++ header :: sep :: rows ++ after ->
  starts_block before = true ->
  is_row header = true -> heading header = None ->
  is_separator sep = true -> forallb is_row rows = true ->
  (exists post, exists pre,
     lit (render_markdown text) = pre ++ lit "<table>" ++ post)
  /\ forall row v,
       In row rows -> In v (cells row) -> plain v = true -> has_star v = false ->
       exists pre post,
         lit (render_markdown text) = pre ++ (lit "<td>" ++ v ++ lit "</td>") ++ post.
Proof.
  intros Hl Hb Hh Hn Hs Hr.
  destruct (blocks_at_start before (header :: sep :: rows ++ after) Hb) as [bs Hbs].
  cbn [blocks] in Hbs.
  rewrite (is_row_not_blank header Hh), Hn, Hh, Hs in Hbs. cbn [andb] in Hbs.
  rewrite (take_while_app is_row rows after Hr), map_app in Hbs.
  assert (blocks O (lines text)
          = bs ++ Table (cells header)
                    (map cells rows ++ map cells (take_while is_row after))
               :: blocks (S (List.length (rows ++ take_while is_row after)))
                    (sep :: rows ++ after)) as Hblocks.
  { rewrite Hl. exact Hbs. }
  clear Hbs.
  destruct (clean_markdown _ _ _ _ Hblocks) as (pre & rest & Hpage).
  split.
  - rewrite Hpage. cbn [render_block]. rewrite <- !app_assoc.
    rewrite clean_tag by reflexivity. eauto.
  - intros row v Hrow Hv Hp Hstar.
    apply in_split in Hrow. destruct Hrow as (R1 & R2 & ->).
    apply in_split in Hv. destruct Hv as (C1 & C2 & HC).
    rewrite Hpage. rewrite map_app. cbn [map]. rewrite HC, <- app_assoc.
    cbn [app].
    destruct (table_cell (cells header) (map cells R1) C1 v C2
                (map cells R2 ++ map cells (take_while is_row after)) rest)
      as (bc & ac & Hclosed & Heq).
    rewrite Heq, Hclosed, clean_tag by reflexivity.
    rewrite (inline_text_end _ v Hstar), clean_plain_app by assumption.
    rewrite clean_tag by reflexivity.
    exists (pre ++ clean_from O bc), (clean_from O ac).
    rewrite <- !app_assoc. reflexivity.
Qed.

Lemma heading_not_hash l : starts_with (lit "#") l = false -> heading l = None.
Proof.
  destruct l as [|c l]; [reflexivity|].
  unfold heading. cbn [starts_with lit list_ascii_of_string count_hashes].
  rewrite andb_true_r, Ascii.eqb_sym. now intros ->.
Qed.

End MarkdownFacts.
(* ===================================================================== *)
(** * Markdown rendering: the theorems *)
(* ===================================================================== *)

(** C1. Whatever the markdown text, the rendered HTML does not contain
    [<script]. *)
Theorem render_markdown_strips_script (text : string) :
  Markdown.occurs_in "<script" (Markdown.render_markdown text) = false.
Proof.
  unfold Markdown.occurs_in, Markdown.render_markdown.
  rewrite list_ascii_of_string_of_list_ascii.
  apply MarkdownFacts.clean_from_no_script.
Qed.

(** The script test of [test_markdown.py], with single quotes. *)
Example render_markdown_script_example :
  Markdown.render_markdown "Hello <script>alert('x')</script>"
  = "<p>Hello alert('x')</p>".
Proof. reflexivity. Qed.

(** C6. Take a text and a place in it where a block can start (the start
    of the text or after a blank line).  If the line there is a [#]
    heading [# a*e*b], where [a] is the text before the first star and has
    no [<], and [e], the text up to the next star, has none of [<], [>],
    [&], then the page contains [<h1>] and [<em>e</em>].  If the lines
    there are a pipe table (a header row, a separator row, then rows),
    the page contains [<table>] and, for every cell value [v] of those
    rows without [<], [>], [&] and [*], the cell [<td>v</td>].  The lines
    before and after are arbitrary. *)
Theorem render_markdown_heading_emphasis_table
    (text : string) (before after : list Markdown.chars) :
  Markdown.starts_block before = true ->
  (forall a e b : string,
      Markdown.lines text
      = before ++ Markdown.lit ("# " ++ a ++ "*" ++ e ++ "*" ++ b) :: after ->
      Markdown.has_char "<" (Markdown.lit a) = false ->
      Markdown.has_star (Markdown.lit a) = false ->
      Markdown.has_star (Markdown.lit e) = false ->
      Markdown.plain (Markdown.lit e) = true ->
      Markdown.occurs_in "<h1>" (Markdown.render_markdown text) = true
      /\ Markdown.occurs_in ("<em>" ++ e ++ "</em>")
           (Markdown.render_markdown text) = true)
  /\ (forall (header sep : Markdown.chars) (rows : list Markdown.chars),
        Markdown.lines text = before ++ header :: sep :: rows ++ after ->
        Markdown.is_row header = true ->
        Markdown.starts_with (Markdown.lit "#") header = false ->
        Markdown.is_separator sep = true ->
        forallb Markdown.is_row rows = true ->
        Markdown.occurs_in "<table>" (Markdown.render_markdown text) = true
        /\ forall (row : Markdown.chars) (v : string),
             In row rows -> In (Markdown.lit v) (Markdown.cells row) ->
             Markdown.plain (Markdown.lit v) = true ->
             Markdown.has_star (Markdown.lit v) = false ->
             Markdown.occurs_in ("<td>" ++ v ++ "</td>")
               (Markdown.render_markdown text) = true).
Proof.
  intros Hb. split.
  - intros a e b Hl Hlt Ha He Hp.
    rewrite !MarkdownFacts.lit_app in Hl.
    destruct (MarkdownFacts.rendered_heading_emphasis text before after
                (Markdown.lit a) (Markdown.lit e) (Markdown.lit b)
                Hl Hb Hlt Ha He Hp) as (pre & mid & post & Hpage).
    split.
    + now apply (MarkdownFacts.occurs_at _ _ pre
                   (mid ++ (Markdown.lit "<em>" ++ Markdown.lit e
                            ++ Markdown.lit "</em>") ++ post)).
    + apply (MarkdownFacts.occurs_at _ _ (pre ++ Markdown.lit "<h1>" ++ mid) post).
      rewrite !MarkdownFacts.lit_app, Hpage, <- !app_assoc. reflexivity.
  - intros header sep rows Hl Hh Hn Hs Hr.
    destruct (MarkdownFacts.rendered_table text before after header sep rows
                Hl Hb Hh (MarkdownFacts.heading_not_hash header Hn) Hs Hr)
      as [(post & pre & Hpage) Hcells].
    split.
    + now apply (MarkdownFacts.occurs_at _ _ pre post).
    + intros row v Hrow Hv Hp Hstar.
      destruct (Hcells row (Markdown.lit v) Hrow Hv Hp Hstar)
        as (pre' & post' & Hcell).
      apply (MarkdownFacts.occurs_at _ _ pre' post').
      now rewrite !MarkdownFacts.lit_app.
Qed.

(** The documents of [test_render_markdown_basic] and
    [test_render_markdown_table]. *)
Lemma render_markdown_heading_emphasis_table_witness :
  (Markdown.occurs_in "<h1>" (Markdown.render_markdown "# Hello *world*") = true
   /\ Markdown.occurs_in "<em>world</em>"
        (Markdown.render_markdown "# Hello *world*") = true)
  /\ Markdown.occurs_in "<table>"
       (Markdown.render_markdown Markdown.table_example) = true
  /\ Markdown.occurs_in "<td>1</td>"
       (Markdown.render_markdown Markdown.table_example) = true
  /\ Markdown.occurs_in "<td>2</td>"
       (Markdown.render_markdown Markdown.table_example) = true.
Proof.
  split.
  - exact (proj1 (render_markdown_heading_emphasis_table "# Hello *world*" [] []
                    eq_refl)
             "Hello " "world" "" eq_refl eq_refl eq_refl eq_refl eq_refl).
  - destruct (proj2 (render_markdown_heading_emphasis_table Markdown.table_example
                       [[]] [[]] eq_refl)
                (Markdown.lit "| A | B |") (Markdown.lit "|---|---|")
                [Markdown.lit "| 1 | 2 |"]
                eq_refl eq_refl eq_refl eq_refl eq_refl) as [Htable Hcells].
    split; [exact Htable|]. split.
    + apply (Hcells (Markdown.lit "| 1 | 2 |") "1");
        [now left | now left | reflexivity | reflexivity].
    + apply (Hcells (Markdown.lit "| 1 | 2 |") "2");
        [now left | right; now left | reflexivity | reflexivity].
Defined.
